(** * PJRmi shared-memory frame exchange: a shallow embedding of pjrmi.cpp

    The development follows [src/cpp/src/main/cpp/pjrmi.cpp] function by
    function.  The operating system is an explicit state (files, open
    descriptors, active mappings and a log of the system calls issued) and
    an explicit oracle [OS] that fixes what the kernel answers to the calls
    whose outcome the program cannot control.  The callers of the library
    follow: the test harness ([pjrmi_test.cpp]), the JNI layer
    ([com_deshaw_pjrmi_JniPJRmi.cpp]) and the Python extension
    ([extension.cpp]), each with what it asks of its host. *)

From Stdlib Require Import ZArith Strings.Byte Ascii String DecimalString
  DecimalZ DecimalPos.
From stdpp Require Import gmap strings list.

Open Scope Z_scope.

(** ** Machine integers *)

(** [size_t] is a 64-bit unsigned integer; arithmetic on it wraps. *)
Definition SIZE_MAX1 : Z := 2 ^ 64.
Definition size_t (z : Z) : Z := z mod SIZE_MAX1.

(** [long] is a 64-bit signed integer (two's complement wrap-around). *)
Definition long (z : Z) : Z := (z + 2 ^ 63) mod 2 ^ 64 - 2 ^ 63.

(** [std::to_string] on an integer: decimal digits, a leading minus sign
    for negative numbers. *)
Definition to_string (z : Z) : string := NilZero.string_of_int (Z.to_int z).

(** ** Data model (pjrmi.h) *)

Inductive ArrayType : Set :=
| TYPE_BOOLEAN | TYPE_BYTE | TYPE_SHORT | TYPE_INTEGER
| TYPE_LONG | TYPE_FLOAT | TYPE_DOUBLE | UNKNOWN.

(** The underlying [char] of the enum, i.e. the cast [char(type)]. *)
Definition char_of_ArrayType (t : ArrayType) : byte :=
  match t with
  | TYPE_BOOLEAN => "z"
  | TYPE_BYTE => "b"
  | TYPE_SHORT => "s"
  | TYPE_INTEGER => "i"
  | TYPE_LONG => "j"
  | TYPE_FLOAT => "f"
  | TYPE_DOUBLE => "d"
  | UNKNOWN => x00
  end%byte.

Definition char_to_array_type (c : byte) : ArrayType :=
  match c with
  | "z" => TYPE_BOOLEAN
  | "b" => TYPE_BYTE
  | "s" => TYPE_SHORT
  | "i" => TYPE_INTEGER
  | "j" => TYPE_LONG
  | "f" => TYPE_FLOAT
  | "d" => TYPE_DOUBLE
  | _ => UNKNOWN
  end%byte.

(** [static const char HEADER_BYTES[] = "SHMARRY"]: seven letters and the
    terminating NUL, so [sizeof(HEADER_BYTES)] is 8. *)
Definition HEADER_BYTES : list byte := list_byte_of_string "SHMARRY" ++ [x00].
Definition sizeof_HEADER_BYTES : Z := Z.of_nat (length HEADER_BYTES).
Definition sizeof_ArrayType : Z := 1.

(** The three exception classes of [des::pjrmi::exception]; each carries the
    fixed part of its message (the [strerror] text that [format_error]
    appends depends on [errno] and is left out). *)
Inductive exn : Set :=
| illegal_argument (msg : string)
| io (msg : string)
| out_of_memory (msg : string).

(** Outcome of a call: a value, a C++ exception, or a memory access outside
    what the mapping and its file cover (SIGSEGV/SIGBUS). *)
Inductive result (A : Type) : Type :=
| Ok (a : A)
| Throw (e : exn)
| Fault.
Arguments Ok {A} a.
Arguments Throw {A} e.
Arguments Fault {A}.

(** ** The operating system *)

Record mapping : Set := Mapping {
  m_base : Z;          (* address returned by mmap() *)
  m_len : Z;           (* length passed to mmap()    *)
  m_file : string;     (* file behind the mapping    *)
  m_write : bool       (* PROT_WRITE requested       *)
}.

Inductive event : Set :=
| EvOpen (file : string) (creat : bool) (ret : Z)
| EvFstatvfs (fd : Z)
| EvFstat (fd : Z)
| EvWrite (fd : Z) (count ret : Z)
| EvLseek (fd : Z) (off : Z)
| EvClose (fd : Z)
| EvUnlink (file : option string)
| EvMmap (len : Z) (fd : Z) (ret : option Z)
| EvMunmap (addr len : Z) (ret : Z)
| EvMalloc (n : Z) (ok : bool)
| EvCallback (dest : Z).

(** [files]: the directory, path to contents.  [fds]: open descriptors with
    the path they were opened on and their file offset.  [maps]: active
    mappings, most recent first.  [trace]: system calls issued so far, most
    recent first. *)
Record World : Type := mkWorld {
  files : gmap string (list byte);
  fds : gmap Z (string * Z);
  maps : list mapping;
  trace : list event
}.

(** What the kernel answers during one call of an entry point, and what
    the process finds in its own read-only data next to a string literal. *)
Record OS : Type := mkOS {
  os_gettimeofday : option (Z * Z);  (* tv_sec, tv_usec; None: failure   *)
  os_gettid : Z;
  os_rand : Z;
  os_open : Z;                       (* descriptor; negative: open fails *)
  os_fstatvfs : option (Z * Z);      (* f_bsize, f_bavail; None: failure *)
  os_write : list Z;                 (* bytes accepted by each successive
                                        write(); negative: write fails;
                                        past the end: complete writes    *)
  os_lseek : bool;
  os_mmap : option Z;                (* address; None: MAP_FAILED        *)
  os_munmap : bool;
  os_malloc : bool;
  os_rodata : string -> Z -> string  (* the bytes in the program's read-only
                                        data at the given offset from a
                                        string literal, outside the literal *)
}.

(** ** A state-and-exception monad for the code *)

Definition M (A : Type) : Type := World -> result A * World.

Definition ret {A} (a : A) : M A := fun w => (Ok a, w).

Definition bind {A B} (m : M A) (k : A -> M B) : M B :=
  fun w =>
    match m w with
    | (Ok a, w') => k a w'
    | (Throw e, w') => (Throw e, w')
    | (Fault, w') => (Fault, w')
    end.

Definition throw {A} (e : exn) : M A := fun w => (Throw e, w).

(** [try { m } catch (...& e) { h e }] *)
Definition try_catch {A} (m : M A) (h : exn -> M A) : M A :=
  fun w =>
    match m w with
    | (Throw e, w') => h e w'
    | r => r
    end.

(** A [result] that needs no state, run inside [M]. *)
Definition lift {A} (r : result A) : M A := fun w => (r, w).

Notation "'do' x <- m ; k" := (bind m (fun x => k))
  (at level 10, x name, m at level 100, k at level 200).
Notation "'do_' m ; k" := (bind m (fun _ => k))
  (at level 10, m at level 100, k at level 200).

Definition log (e : event) (w : World) : World :=
  mkWorld (files w) (fds w) (maps w) (e :: trace w).

(** *** System calls *)

(** [open(file, O_RDWR | O_CREAT | O_TRUNC, 0600)] when [creat], else
    [open(file, O_RDWR)], which needs the file to exist. *)
Definition sys_open (file : string) (creat : bool) (ans : Z) : M Z :=
  fun w =>
    if (ans <? 0) || (negb creat && bool_decide (files w !! file = None))
    then (Ok (-1), log (EvOpen file creat (-1)) w)
    else (Ok ans,
          mkWorld (if creat then <[file := []]> (files w) else files w)
                  (<[ans := (file, 0)]> (fds w))
                  (maps w)
                  (EvOpen file creat ans :: trace w)).

Definition sys_close (fd : Z) : M unit :=
  fun w => (Ok tt, mkWorld (files w) (delete fd (fds w)) (maps w)
                           (EvClose fd :: trace w)).

(** [unlink(file)]; a NULL path changes nothing (EFAULT). *)
Definition sys_unlink (file : option string) : M unit :=
  fun w =>
    (Ok tt,
     mkWorld (match file with
              | Some f => delete f (files w)
              | None => files w
              end)
             (fds w) (maps w) (EvUnlink file :: trace w)).

Definition sys_fstatvfs (fd : Z) (ans : option (Z * Z)) : M (option (Z * Z)) :=
  fun w => (Ok ans, log (EvFstatvfs fd) w).

(** Contents of the file an open descriptor refers to. *)
Definition fd_contents (w : World) (fd : Z) : list byte :=
  match fds w !! fd with
  | Some (file, _) => default [] (files w !! file)
  | None => []
  end.

(** [fstat(fd, &buffer)], returning [buffer.st_size]. *)
Definition sys_fstat (fd : Z) : M Z :=
  fun w => (Ok (Z.of_nat (length (fd_contents w fd))), log (EvFstat fd) w).

(** Contents of a file after [b] is written at offset [pos]: bytes between
    the old end and [pos] read as zero; writing nothing changes nothing. *)
Definition file_write (c : list byte) (pos : nat) (b : list byte) : list byte :=
  match b with
  | [] => c
  | _ => take pos c ++ replicate (pos - length c)%nat x00 ++ b
         ++ drop (pos + length b)%nat c
  end.

(** [write(fd, buf, count)].  [ans] is what the kernel accepts this time:
    [None] everything, [Some a] at most [a] bytes, failing when [a < 0]. *)
Definition sys_write (fd : Z) (buf : list byte) (count : Z) (ans : option Z)
  : M Z :=
  fun w =>
    let accepted := match ans with None => count | Some a => Z.min a count end in
    match fds w !! fd with
    | None => (Ok (-1), log (EvWrite fd count (-1)) w)
    | Some (file, pos) =>
      if accepted <? 0 then (Ok (-1), log (EvWrite fd count (-1)) w)
      else
        let b := take (Z.to_nat accepted) buf in
        let c := default [] (files w !! file) in
        (Ok accepted,
         mkWorld (<[file := file_write c (Z.to_nat pos) b]> (files w))
                 (<[fd := (file, pos + accepted)]> (fds w))
                 (maps w)
                 (EvWrite fd count accepted :: trace w))
    end.

(** [off_t] is signed: a [size_t] above [2^63 - 1] arrives negative. *)
Definition off_t (z : Z) : Z := long z.

(** [lseek(fd, off, SEEK_SET)] *)
Definition sys_lseek (fd : Z) (off : Z) (ok : bool) : M Z :=
  fun w =>
    match fds w !! fd with
    | Some (file, _) =>
      if ok && (0 <=? off_t off)
      then (Ok (off_t off),
            mkWorld (files w) (<[fd := (file, off_t off)]> (fds w)) (maps w)
                    (EvLseek fd off :: trace w))
      else (Ok (-1), log (EvLseek fd off) w)
    | None => (Ok (-1), log (EvLseek fd off) w)
    end.

(** [mmap(NULL, len, prot, MAP_SHARED, fd, 0)]; [None] is [MAP_FAILED]. *)
Definition sys_mmap (len : Z) (writable : bool) (fd : Z) (ans : option Z)
  : M (option Z) :=
  fun w =>
    match fds w !! fd, ans with
    | Some (file, _), Some a =>
      if len =? 0 then (Ok None, log (EvMmap len fd None) w)
      else (Ok (Some a),
            mkWorld (files w) (fds w)
                    (Mapping a len file writable :: maps w)
                    (EvMmap len fd (Some a) :: trace w))
    | _, _ => (Ok None, log (EvMmap len fd None) w)
    end.

Definition same_region (addr len : Z) (m : mapping) : bool :=
  (m_base m =? addr) && (m_len m =? len).

(** [munmap(addr, len)]: on success the mapping of exactly that region is
    gone. *)
Definition sys_munmap (addr len : Z) (ok : bool) : M Z :=
  fun w =>
    if ok
    then (Ok 0,
          mkWorld (files w) (fds w)
                  (filter (fun m => same_region addr len m = false) (maps w))
                  (EvMunmap addr len 0 :: trace w))
    else (Ok (-1), log (EvMunmap addr len (-1)) w).

Definition sys_malloc (n : Z) (ok : bool) : M bool :=
  fun w => (Ok ok, log (EvMalloc n ok) w).

(** *** Memory accesses through a mapping *)

Definition covers (addr n : Z) (m : mapping) : bool :=
  (m_base m <=? addr) && (addr + n <=? m_base m + m_len m).

(** Reading [n] bytes at [addr]: the bytes of the mapped file at that
    offset.  Outside every mapping, or past the end of the file, the access
    faults; reading no byte touches nothing. *)
Definition mem_load (addr : Z) (n : Z) : M (list byte) :=
  fun w =>
    if n <=? 0 then (Ok [], w)
    else
      match find (covers addr n) (maps w) with
      | Some m =>
        let c := default [] (files w !! m_file m) in
        let off := Z.to_nat (addr - m_base m) in
        if Z.of_nat (length c) <? addr - m_base m + n then (Fault, w)
        else (Ok (take (Z.to_nat n) (drop off c)), w)
      | None => (Fault, w)
      end.

(** Contents of a file after [b] overwrites what lies at offset [off]. *)
Definition poke (c : list byte) (off : nat) (b : list byte) : list byte :=
  take off c ++ b ++ drop (off + length b)%nat c.

(** Storing [b] at [addr] through a writable shared mapping: the bytes land
    in the file. *)
Definition mem_store (addr : Z) (b : list byte) : M unit :=
  fun w =>
    let n := Z.of_nat (length b) in
    if n <=? 0 then (Ok tt, w)
    else
      match find (covers addr n) (maps w) with
      | Some m =>
        let c := default [] (files w !! m_file m) in
        let off := Z.to_nat (addr - m_base m) in
        if negb (m_write m) || (Z.of_nat (length c) <? addr - m_base m + n)
        then (Fault, w)
        else (Ok tt,
              mkWorld (<[m_file m := poke c off b]> (files w))
                      (fds w) (maps w) (trace w))
      | None => (Fault, w)
      end.

(** ** pjrmi.cpp *)

(** [create_filename()] *)
Definition create_filename (os : OS) : result string :=
  match os_gettimeofday os with
  | None => Throw (illegal_argument "create_filename(): Error in ::gettimeofday()")
  | Some (tv_sec, tv_usec) =>
    let time := tv_sec in
    let time := long (time * 1000000) in
    let time := long (time + tv_usec) in
    let tid := os_gettid os in
    let filename := "/dev/shm/"%string in
    let filename :=
      (filename ++ ((to_string time ++ ".") ++ to_string tid))%string in
    let filename := (filename ++ ("." ++ to_string (os_rand os)))%string in
    Ok filename
  end.

(** [open_file_for_write(file, bytes_to_write)] *)
Definition open_file_for_write (os : OS) (file : string) (bytes_to_write : Z)
  : M Z :=
  if bool_decide (file = ""%string) then
    throw (illegal_argument "open_file_for_write(): Empty filename received")
  else
    do fd <- sys_open file true (os_open os);
    if fd =? -1 then
      throw (io "open_file_for_write(): Could not open file for writing")
    else
      do buf <- sys_fstatvfs fd (os_fstatvfs os);
      match buf with
      | None =>
        do_ sys_close fd;
        do_ sys_unlink (Some file);
        throw (io "open_file_for_write(): Could not check file with fstatvfs()")
      | Some (f_bsize, f_bavail) =>
        if size_t (size_t f_bsize * size_t f_bavail) <? bytes_to_write then
          do_ sys_close fd;
          do_ sys_unlink (Some file);
          throw (out_of_memory
                   "open_file_for_write(): Insufficient available space in file")
        else
          ret fd
      end.

(** The handlers around [create_filename()] and [open_file_for_write()]
    catch an exception and throw a new one of the same class with the same
    message; a class without a handler propagates as it is. *)
Definition rethrow_illegal_argument {A} (e : exn) : M A :=
  match e with
  | illegal_argument what => throw (illegal_argument what)
  | _ => throw e
  end.

Definition rethrow_any {A} (e : exn) : M A :=
  match e with
  | illegal_argument what => throw (illegal_argument what)
  | io what => throw (io what)
  | out_of_memory what => throw (out_of_memory what)
  end.

(** The [while (position < array_bytes)] loop of the buffered writer.  Each
    iteration consumes one answer of the kernel; once the answers are used
    up the kernel takes everything that is left, which ends the loop. *)
Fixpoint write_loop (fd : Z) (data : list byte) (array_bytes position : Z)
         (answers : list Z) : M unit :=
  if position <? array_bytes then
    match answers with
    | [] =>
      do_ sys_write fd (drop (Z.to_nat position) data)
                    (size_t (array_bytes - position)) None;
      ret tt
    | a :: answers' =>
      do written <- sys_write fd (drop (Z.to_nat position) data)
                              (size_t (array_bytes - position)) (Some a);
      if written <? 0 then ret tt
      else write_loop fd data array_bytes (size_t (position + written)) answers'
    end
  else ret tt.

(** [write_bytes_to_shm(const void* data, array_bytes, type)] *)
Definition write_bytes_to_shm (os : OS) (data : list byte) (array_bytes : Z)
           (type : ArrayType) : M string :=
  do generated_filename <-
     try_catch (lift (create_filename os)) rethrow_illegal_argument;
  let file := generated_filename in
  let bytes_to_write :=
    size_t (size_t (array_bytes + sizeof_HEADER_BYTES) + sizeof_ArrayType) in
  do fd <- try_catch (open_file_for_write os file bytes_to_write) rethrow_any;
  let answers := os_write os in
  do_ sys_write fd HEADER_BYTES sizeof_HEADER_BYTES (head answers);
  let answers := tail answers in
  let casted_type := char_of_ArrayType type in
  do_ sys_write fd [casted_type] 1 (head answers);
  let answers := tail answers in
  do_ write_loop fd data array_bytes 0 answers;
  do st_size <- sys_fstat fd;
  if negb (size_t st_size =? bytes_to_write) then
    do_ sys_close fd;
    do_ sys_unlink (Some file);
    throw (io ("write_bytes_to_shm(): Allocated file size incorrect; got "
               ++ to_string (size_t st_size) ++ " bytes but was expecting "
               ++ to_string bytes_to_write ++ " bytes"))
  else
    do_ sys_close fd;
    ret generated_filename.

(** Running the caller's callback: [lambda dest] is the bytes the callback
    stores, contiguously, from [dest] on. *)
Definition call_lambda (lambda : Z -> list byte) (dest : Z) : M unit :=
  do_ (fun w => (Ok tt, log (EvCallback dest) w));
  mem_store dest (lambda dest).

(** The overload of [write_bytes_to_shm] that takes a [std::function]
    callback [lambda] in place of the source buffer. *)
Definition write_bytes_to_shm_lambda (os : OS) (lambda : Z -> list byte)
           (array_bytes : Z) (type : ArrayType) : M string :=
  do generated_filename <-
     try_catch (lift (create_filename os)) rethrow_illegal_argument;
  let file := generated_filename in
  let bytes_to_write :=
    size_t (size_t (array_bytes + sizeof_HEADER_BYTES) + sizeof_ArrayType) in
  do fd <- try_catch (open_file_for_write os file bytes_to_write) rethrow_any;
  do sought <- sys_lseek fd bytes_to_write (os_lseek os);
  if sought =? -1 then
    do_ sys_close fd;
    do_ sys_unlink (Some file);
    throw (io "write_bytes_to_shm(): Could not stretch file with lseek()")
  else
    do written <- sys_write fd [x00] 1 (head (os_write os));
    if negb (written =? 1) then
      do_ sys_close fd;
      do_ sys_unlink (Some file);
      throw (io "write_bytes_to_shm(): Could not write empty char")
    else
      do st_size <- sys_fstat fd;
      if negb (size_t st_size =? size_t (bytes_to_write + 1)) then
        do_ sys_close fd;
        do_ sys_unlink (Some file);
        throw (io "write_bytes_to_shm(): Allocated file size incorrect")
      else
        do mapped <- sys_mmap bytes_to_write true fd (os_mmap os);
        match mapped with
        | None =>
          do_ sys_close fd;
          do_ sys_unlink (Some file);
          throw (io "write_bytes_to_shm(): Error in mmaping the file")
        | Some addr =>
          let file_addr := addr in
          do_ sys_close fd;
          do_ mem_store file_addr HEADER_BYTES;
          let file_addr := file_addr + sizeof_HEADER_BYTES in
          let char_type := char_of_ArrayType type in
          do_ mem_store file_addr [char_type];
          let file_addr := file_addr + 1 in
          do_ call_lambda lambda file_addr;
          do unmapped <- sys_munmap addr bytes_to_write (os_munmap os);
          if unmapped =? -1 then
            do_ sys_unlink (Some file);
            throw (io "write_bytes_to_shm(): Error in munmaping the file")
          else
            ret generated_filename
        end.

(** [strncmp(s1, s2, n)]: compares at most [n] characters and stops after
    a NUL; a list that ends early reads as NUL-terminated. *)
Fixpoint strncmp (s1 s2 : list byte) (n : nat) : Z :=
  match n with
  | O => 0
  | S n' =>
    let c1 := hd x00 s1 in
    let c2 := hd x00 s2 in
    if Byte.eqb c1 c2 then
      if Byte.eqb c1 x00 then 0 else strncmp (tl s1) (tl s2) n'
    else Z.of_N (Byte.to_N c1) - Z.of_N (Byte.to_N c2)
  end.

(** The text a [const char*] denotes: the characters before the first
    NUL. *)
Fixpoint c_str (s : string) : string :=
  match s with
  | EmptyString => EmptyString
  | String ch rest =>
    if Ascii.eqb ch Ascii.zero then EmptyString else String ch (c_str rest)
  end.

(** [literal + c] for a string literal and a [char]: the pointer [c] bytes
    from the start of the literal ([char] is signed), read as a C string.
    Up to the literal's terminating NUL that is the rest of the literal;
    anywhere else it is what the read-only data holds there. *)
Definition literal_plus (os : OS) (literal : string) (c : byte) : string :=
  let offset := (Z.of_N (Byte.to_N c) + 128) mod 256 - 128 in
  if (0 <=? offset) && (offset <=? Z.of_nat (String.length literal)) then
    substring (Z.to_nat offset) (String.length literal - Z.to_nat offset)
              literal
  else c_str (os_rodata os literal offset).

(** The message of the magic mismatch.  [wrong_bytes] holds the eight bytes
    found, NULs included.  In [message += " do not ..." + message +=
    HEADER_BYTES] the right-hand side is [(" do not ..." + message) +=
    HEADER_BYTES], so each of the two statements appends the message so far
    once more.  The exception is built from [message.c_str()]. *)
Definition magic_message (magic : list byte) (file : string) : string :=
  let wrong_bytes := string_of_list_byte magic in
  let message :=
    ("mmap_bytes_from_shm(): The magic bytes in this file: " ++ wrong_bytes)%string in
  let message :=
    (message ++ ((" do not match the expected magic bytes: " ++ message)
                   ++ c_str (string_of_list_byte HEADER_BYTES)))%string in
  let message := (message ++ ((" in file " ++ message) ++ file))%string in
  c_str message.

(** The message of the tag mismatch.  ["...The read type is: " +
    (char)file_array_type] and [" but the expected type is " + (char)type]
    add a [char] to a string literal, which moves the pointer instead of
    appending the character. *)
Definition type_message (os : OS) (file_array_type type : byte)
           (file : string) : string :=
  let message :=
    literal_plus os "mmap_bytes_from_shm(): The read type is: " file_array_type in
  let message :=
    (message ++ literal_plus os " but the expected type is " type)%string in
  let message := (message ++ ((" in file " ++ message) ++ file))%string in
  c_str message.

(** [mmap_bytes_from_shm(file, array_bytes, type)]; [file] is a C string
    pointer, [None] being NULL. *)
Definition mmap_bytes_from_shm (os : OS) (file : option string)
           (array_bytes : Z) (type : ArrayType) : M Z :=
  if bool_decide (file = None) || bool_decide (file = Some ""%string) then
    throw (io "mmap_bytes_from_shm(): Empty filename received")
  else
    let bytes_to_read :=
      size_t (size_t (array_bytes + sizeof_HEADER_BYTES) + sizeof_ArrayType) in
    do fd <- sys_open (default ""%string file) false (os_open os);
    if fd =? -1 then
      throw (io "mmap_bytes_from_shm(): Could not open file for reading")
    else
      do st_size <- sys_fstat fd;
      if size_t st_size <? size_t (sizeof_HEADER_BYTES + 1) then
        do_ sys_close fd;
        throw (io "mmap_bytes_from_shm(): File size is insufficient for reading")
      else
        do mapped <- sys_mmap bytes_to_read false fd (os_mmap os);
        match mapped with
        | None =>
          do_ sys_close fd;
          do_ sys_unlink file;
          throw (io "mmap_bytes_from_shm(): Error in mmaping the file")
        | Some addr =>
          do_ sys_close fd;
          do magic <- mem_load addr sizeof_HEADER_BYTES;
          if negb (strncmp magic HEADER_BYTES (Z.to_nat sizeof_HEADER_BYTES) =? 0)
          then
            do_ sys_unlink file;
            throw (io (magic_message magic (default ""%string file)))
          else
            let addr := addr + sizeof_HEADER_BYTES in
            do tag <- mem_load addr 1;
            let file_array_type := hd x00 tag in
            if negb (Byte.eqb file_array_type (char_of_ArrayType type)) then
              do_ sys_unlink file;
              throw (io (type_message os file_array_type (char_of_ArrayType type)
                                      (default ""%string file)))
            else
              let addr := addr + 1 in
              ret addr
        end.

(** [munmap_bytes_from_shm(file, array_bytes, type, addr)] *)
Definition munmap_bytes_from_shm (os : OS) (file : option string)
           (array_bytes : Z) (type : ArrayType) (addr : Z) : M unit :=
  let file_addr := addr in
  let file_addr := file_addr - size_t (sizeof_HEADER_BYTES + sizeof_ArrayType) in
  let file_bytes :=
    size_t (size_t (array_bytes + sizeof_HEADER_BYTES) + sizeof_ArrayType) in
  do unmapped <- sys_munmap file_addr file_bytes (os_munmap os);
  if unmapped =? -1 then
    do_ sys_unlink file;
    throw (io "munmap_bytes_from_shm(): Error in munmaping the file")
  else
    sys_unlink file.

(** [read_bytes_from_shm(file, array_bytes, type)]; the value returned is
    the contents of the buffer the function allocates. *)
Definition read_bytes_from_shm (os : OS) (file : option string)
           (array_bytes : Z) (type : ArrayType) : M (list byte) :=
  do addr <- mmap_bytes_from_shm os file array_bytes type;
  do data <- sys_malloc array_bytes (os_malloc os);
  if negb data then
    do_ sys_unlink file;
    throw (io "read_bytes_from_shm(): malloc() failed")
  else
    do copied <- mem_load addr array_bytes;
    do_ munmap_bytes_from_shm os file array_bytes type addr;
    ret copied.

(** ** Vocabulary of the statements *)

(** The microsecond timestamp as the specification words it. *)
Definition microsecond_timestamp (tv_sec tv_usec : Z) : Z :=
  tv_sec * 1000000 + tv_usec.

(** The shared-memory directory every generated name lies in. *)
Definition base_dir : string := "/dev/shm/".

(** The frame as it lies in the file. *)
Definition frame (t : ArrayType) (payload : list byte) : list byte :=
  HEADER_BYTES ++ [char_of_ArrayType t] ++ payload.

(** A C string constant: NUL occurs only as the last character. *)
Fixpoint nul_only_last (s : list byte) : bool :=
  match s with
  | [] => true
  | c :: r =>
    if Byte.eqb c x00 then match r with [] => true | _ => false end
    else nul_only_last r
  end.

Definition is_mmap (e : event) : bool :=
  match e with EvMmap _ _ _ => true | _ => false end.

(** The world after [open_file_for_write] has created [file] and checked
    the free space. *)
Definition opened (os : OS) (file : string) (w : World) : World :=
  mkWorld (<[file := []]> (files w))
          (<[os_open os := (file, 0)]> (fds w))
          (maps w)
          (EvFstatvfs (os_open os) :: EvOpen file true (os_open os) :: trace w).

(** The world after it has created [file] and given up: descriptor closed,
    file unlinked. *)
Definition abandoned (os : OS) (file : string) (w : World) : World :=
  mkWorld (delete file (<[file := []]> (files w)))
          (delete (os_open os) (<[os_open os := (file, 0)]> (fds w)))
          (maps w)
          (EvUnlink (Some file) :: EvClose (os_open os)
           :: EvFstatvfs (os_open os) :: EvOpen file true (os_open os)
           :: trace w).

(** While a descriptor writes sequentially into a fresh file, the file is
    [w0]'s directory plus [f] with contents [c], the offset sits at the end
    of [c], and no mapping changes. *)
Definition appending (f : string) (fd : Z) (c : list byte) (w0 w : World)
  : Prop :=
  files w = <[f := c]> (files w0)
  /\ fds w = <[fd := (f, Z.of_nat (length c))]> (fds w0)
  /\ maps w = maps w0.

(** Worlds [mmap_bytes_from_shm] leaves behind, by exit path: the
    descriptor it opened is closed again on every one of them. *)
Definition reader_fds (os : OS) (f : string) (w : World) : gmap Z (string * Z) :=
  delete (os_open os) (<[os_open os := (f, 0)]> (fds w)).

Definition too_small_world (os : OS) (f : string) (w : World) : World :=
  mkWorld (files w) (reader_fds os f w) (maps w)
          (EvClose (os_open os) :: EvFstat (os_open os)
           :: EvOpen f false (os_open os) :: trace w).

Definition unmappable_world (os : OS) (f : string) (n : Z) (w : World) : World :=
  mkWorld (delete f (files w)) (reader_fds os f w) (maps w)
          (EvUnlink (Some f) :: EvClose (os_open os)
           :: EvMmap (n + 9) (os_open os) None :: EvFstat (os_open os)
           :: EvOpen f false (os_open os) :: trace w).

Definition mapped_trace (os : OS) (f : string) (n a : Z) (w : World)
  : list event :=
  EvClose (os_open os) :: EvMmap (n + 9) (os_open os) (Some a)
  :: EvFstat (os_open os) :: EvOpen f false (os_open os) :: trace w.

Definition rejected_world (os : OS) (f : string) (n a : Z) (w : World) : World :=
  mkWorld (delete f (files w)) (reader_fds os f w)
          (Mapping a (n + 9) f false :: maps w)
          (EvUnlink (Some f) :: mapped_trace os f n a w).

Definition accepted_world (os : OS) (f : string) (n a : Z) (w : World) : World :=
  mkWorld (files w) (reader_fds os f w)
          (Mapping a (n + 9) f false :: maps w)
          (mapped_trace os f n a w).

(** With the clock readable, the file creatable, enough free space and a
    kernel that takes every write whole, the buffered writer returns. *)
Definition writer_friendly (os : OS) (n : Z) : Prop :=
  os_gettimeofday os <> None
  /\ 0 <= os_open os
  /\ (exists f_bsize f_bavail,
         os_fstatvfs os = Some (f_bsize, f_bavail)
         /\ n + 9 <= size_t (size_t f_bsize * size_t f_bavail))
  /\ os_write os = [].

(** What the kernel must grant for a read to go through. *)
Definition reader_friendly (os : OS) : Prop :=
  0 <= os_open os /\ os_mmap os <> None
  /\ os_malloc os = true /\ os_munmap os = true.

(** ** Concrete systems and worlds *)

(** A kernel that grants everything: descriptor 3, 1000 free blocks of
    4096 bytes, mappings at 65536. *)
Definition os_example : OS :=
  mkOS (Some (1730000000, 123456)) 4242 17 3 (Some (4096, 1000)) []
       true (Some 65536) true true
       (fun _ _ => EmptyString).

(** A file system with no free block. *)
Definition os_full : OS :=
  mkOS (Some (1730000000, 123456)) 4242 17 3 (Some (4096, 0)) []
       true (Some 65536) true true
       (fun _ _ => EmptyString).

(** A system whose clock cannot be read. *)
Definition os_no_clock : OS :=
  mkOS None 4242 17 3 (Some (4096, 1000)) [] true (Some 65536) true true
       (fun _ _ => EmptyString).


(** A system where malloc fails. *)
Definition os_no_malloc : OS :=
  mkOS (Some (1730000000, 123456)) 4242 17 3 (Some (4096, 1000)) []
       true (Some 65536) true false
       (fun _ _ => EmptyString).

Definition empty_world : World := mkWorld ∅ ∅ [] [].

(** The name [create_filename] generates under [os_example]. *)
Definition frame_file : string := "/dev/shm/1730000000123456.4242.17".

(** The bytes of the [bool] array [{true, false, false, true, false}]. *)
Definition five_booleans : list byte := [x01; x00; x00; x01; x00].

(** One five-byte boolean frame on disk. *)
Definition frame_world : World :=
  mkWorld (<[frame_file := frame TYPE_BOOLEAN five_booleans]> ∅) ∅ [] [].

(** The same frame, mapped read-only at 65536. *)
Definition mapped_world : World :=
  mkWorld (<[frame_file := frame TYPE_BOOLEAN five_booleans]> ∅)
          ∅
          [Mapping 65536 14 frame_file false]
          [].

(** A three-byte file where a frame is expected. *)
Definition short_world : World :=
  mkWorld (<[frame_file := [x01; x02; x03]]> ∅) ∅ [] [].

(** ** Pure views of the buffered writer *)

(** Bytes one [write(fd, buf, count)] moves under the kernel's answer: all
    of them, at most [a] of them, or none when the call fails. *)
Definition accepted_bytes (ans : option Z) (count : Z) : Z :=
  match ans with
  | None => count
  | Some a => if a <? 0 then 0 else Z.min a count
  end.

(** Where the payload loop of the buffered writer stops, read off the
    kernel's answers alone. *)
Fixpoint loop_progress (n position : Z) (answers : list Z) : Z :=
  if position <? n then
    match answers with
    | [] => n
    | a :: answers' =>
      if a <? 0 then position
      else loop_progress n (position + Z.min a (n - position)) answers'
    end
  else position.

(** The character ['.'] does not occur in [s]. *)
Fixpoint no_dot (s : string) : bool :=
  match s with
  | EmptyString => true
  | String c s' => negb (Ascii.eqb c ".") && no_dot s'
  end.

(** The timestamp [create_filename] prints, as the code computes it. *)
Definition filename_time (os : OS) : option Z :=
  match os_gettimeofday os with
  | Some (tv_sec, tv_usec) => Some (long (long (tv_sec * 1000000) + tv_usec))
  | None => None
  end.

(** [w1] differs from [w] at most in the file [f] and in the log: same
    descriptors, same other files. *)
Definition same_but (f : string) (w w1 : World) : Prop :=
  fds w1 = fds w
  /\ forall f', f' <> f -> files w1 !! f' = files w !! f'.

(** What the kernel must grant for the lambda writer to return. *)
Definition lambda_friendly (os : OS) (n : Z) : Prop :=
  os_gettimeofday os <> None
  /\ 0 <= os_open os
  /\ (exists f_bsize f_bavail,
         os_fstatvfs os = Some (f_bsize, f_bavail)
         /\ n + 9 <= size_t (size_t f_bsize * size_t f_bavail))
  /\ os_lseek os = true
  /\ n + 9 < 2 ^ 63
  /\ accepted_bytes (head (os_write os)) 1 = 1
  /\ os_mmap os <> None
  /\ os_munmap os = true.

(** ** The test harness (pjrmi_test.cpp) *)

(** [memcmp(a, b, n)]: the difference of the first bytes that differ among
    the first [n], zero when there is none. *)
Fixpoint memcmp (a b : list byte) (n : nat) : Z :=
  match n with
  | O => 0
  | S n' =>
    let c1 := hd x00 a in
    let c2 := hd x00 b in
    if Byte.eqb c1 c2 then memcmp (tl a) (tl b) n'
    else Z.of_N (Byte.to_N c1) - Z.of_N (Byte.to_N c2)
  end.

(** [stat(file, &buffer)]: 0 when the file exists, -1 otherwise. *)
Definition sys_stat (file : string) : M Z :=
  fun w => (Ok (match files w !! file with Some _ => 0 | None => -1 end), w).

(** How a run of the harness ends: every check passed, or an [assert(false)]
    stopped it at the named check. *)
Inductive verdict : Set :=
| Passed
| AssertFailed (check : string).

(** [read_and_write(array_input, array_bytes, type)].  The three calls into
    the library meet the kernel separately: [os_w] during the write, [os_m]
    during open-and-map (and for the harness's own malloc), [os_u] during
    the release. *)
Definition read_and_write (os_w os_m os_u : OS) (array_input : list byte)
           (array_bytes : Z) (type : ArrayType) : M verdict :=
  fun w =>
    match write_bytes_to_shm os_w array_input (size_t array_bytes) type w with
    | (Throw _, w1) => (Ok (AssertFailed "write_bytes_to_shm"), w1)
    | (Fault, w1) => (Fault, w1)
    | (Ok filename, w1) =>
      let file := filename in
      match mmap_bytes_from_shm os_m (Some file) (size_t array_bytes) type w1 with
      | (Throw _, w2) => (Ok (AssertFailed "mmap_bytes_from_shm"), w2)
      | (Fault, w2) => (Fault, w2)
      | (Ok addr, w2) =>
        (do array_output_ok <- sys_malloc (size_t array_bytes) (os_malloc os_m);
         do array_output <-
            (if array_output_ok then mem_load addr (size_t array_bytes)
             else if size_t array_bytes =? 0 then ret [] else
                    fun w => (Fault, w));
         if negb (memcmp array_input array_output
                         (Z.to_nat (size_t array_bytes)) =? 0)
         then ret (AssertFailed "Returned arrays not equal")
         else
           do persisted <- sys_stat file;
           if negb (persisted =? 0) then
             ret (AssertFailed "file was already unlinked")
           else
             do_ munmap_bytes_from_shm os_u (Some file) (size_t array_bytes)
                                       type addr;
             do gone <- sys_stat file;
             if gone =? 0 then ret (AssertFailed "file was not unlinked")
             else ret Passed) w2
      end
    end.

(** [e.what()] *)
Definition what (e : exn) : string :=
  match e with
  | illegal_argument msg => msg
  | io msg => msg
  | out_of_memory msg => msg
  end.

(** ** The JNI layer (com_deshaw_pjrmi_JniPJRmi.cpp) *)

(** A [jobject] is NULL or refers to an object, of which the code only asks
    which fields its class declares.  A primitive array is NULL or a list
    of elements, each the bytes of its native representation.  A [jstring]
    is NULL or a string. *)
Inductive jobject : Set :=
| NULL
| Object (fields : list string).

Definition jarray : Set := option (list (list byte)).
Definition jstring : Set := option string.

(** The calls through [JNIEnv] that change something on the Java side, with
    their arguments.  [SetArrayRegion]: the bytes copied into the array, or
    [None] when the region does not fit the array and the JVM copies
    nothing. *)
Inductive jcall : Set :=
| ThrowNew (exception_class message : string)
| FatalError (message : string)
| SetObjectField (field : string) (value : jstring)
| SetCharField (field : string) (value : Z)
| SetIntField (field : string) (value : Z)
| SetArrayRegion (start len : Z) (buf : option (list byte)).

(** What the JVM answers during one call of a function of this layer. *)
Record JNI : Set := mkJNI {
  jni_FindClass : bool;            (* false: FindClass() returns NULL          *)
  jni_NewStringUTF : bool;         (* false: NewStringUTF() returns NULL       *)
  jni_GetStringUTFChars : bool     (* false: GetStringUTFChars() returns NULL  *)
}.

(** The process: the operating-system side and the calls made into the JVM,
    most recent first. *)
Record Process : Type := mkProcess {
  os_side : World;
  jvm_side : list jcall
}.

(** Native code running in the process.  Here [Throw] is a C++ exception
    that leaves the native method, and [Fault] also stands for the JVM
    ending the process in [FatalError()]. *)
Definition J (A : Type) : Type := Process -> result A * Process.

Definition jret {A} (a : A) : J A := fun p => (Ok a, p).

Definition jbind {A B} (m : J A) (k : A -> J B) : J B :=
  fun p =>
    match m p with
    | (Ok a, p') => k a p'
    | (Throw e, p') => (Throw e, p')
    | (Fault, p') => (Fault, p')
    end.

Notation "'jdo' x <- m ; k" := (jbind m (fun x => k))
  (at level 10, x name, m at level 100, k at level 200).
Notation "'jdo_' m ; k" := (jbind m (fun _ => k))
  (at level 10, m at level 100, k at level 200).

Definition jvm (c : jcall) : J unit :=
  fun p => (Ok tt, mkProcess (os_side p) (c :: jvm_side p)).

Definition die {A} : J A := fun p => (Fault, p).

Definition escape {A} (e : exn) : J A := fun p => (Throw e, p).

(** Library code run from the layer, inside a [try] block: an exception is
    handed to the [catch] clauses as a value. *)
Definition native_try {A} (m : M A) : J (A + exn) :=
  fun p =>
    match m (os_side p) with
    | (Ok a, w) => (Ok (inl a), mkProcess w (jvm_side p))
    | (Throw e, w) => (Ok (inr e), mkProcess w (jvm_side p))
    | (Fault, w) => (Fault, mkProcess w (jvm_side p))
    end.

(** Library code run from the layer outside any [try] block. *)
Definition native {A} (m : M A) : J A :=
  fun p =>
    match m (os_side p) with
    | (r, w) => (r, mkProcess w (jvm_side p))
    end.

(** [env->GetStringUTFChars(s, NULL)]: the characters, or NULL when the JVM
    cannot allocate them; a NULL [jstring] is outside its contract. *)
Definition GetStringUTFChars (jni : JNI) (s : jstring) : J (option string) :=
  match s with
  | None => die
  | Some chars => jret (if jni_GetStringUTFChars jni then Some chars else None)
  end.

(** [strlen(s)]; a NULL pointer faults. *)
Definition strlen (s : option string) : J Z :=
  match s with
  | None => die
  | Some chars => jret (Z.of_nat (String.length chars))
  end.

(** [env->GetArrayLength(data)] *)
Definition GetArrayLength (data : jarray) : J Z :=
  match data with
  | None => die
  | Some elems => jret (Z.of_nat (length elems))
  end.

(** [env->Get<Type>ArrayRegion(data, start, len, buf)]: the bytes it stores
    at [buf]. *)
Definition GetArrayRegion (data : jarray) (start len : Z) : list byte :=
  concat (take (Z.to_nat len) (drop (Z.to_nat start) (default [] data))).

(** Width of one element of a Java primitive array in native memory
    ([jboolean], [jbyte], [jshort], [jint], [jlong], [jfloat], [jdouble]). *)
Definition sizeof_jtype (t : ArrayType) : Z :=
  match t with
  | TYPE_BOOLEAN => 1
  | TYPE_BYTE => 1
  | TYPE_SHORT => 2
  | TYPE_INTEGER => 4
  | TYPE_LONG => 8
  | TYPE_FLOAT => 4
  | TYPE_DOUBLE => 8
  | UNKNOWN => 0
  end.

(** [env->Set<Type>ArrayRegion(result, start, len, buf)]: when the region
    fits the array the JVM reads [len] elements at [buf]; otherwise it
    raises ArrayIndexOutOfBoundsException and reads nothing. *)
Definition SetArrayRegionFrom (t : ArrayType) (result : jarray)
           (start len : Z) (buf : Z) : J unit :=
  match result with
  | None => die
  | Some elems =>
    if (start <? 0) || (len <? 0) || (Z.of_nat (length elems) <? start + len)
    then jvm (SetArrayRegion start len None)
    else
      jdo bytes <- native (mem_load buf (len * sizeof_jtype t));
      jvm (SetArrayRegion start len (Some bytes))
  end.

(** [throw_java_exception(env, exception_class, error_message)] *)
Definition throw_java_exception (jni : JNI)
           (exception_class error_message : string) : J unit :=
  if negb (jni_FindClass jni) then
    let msg := "Cannot find the "%string in
    let msg := (msg ++ exception_class)%string in
    let msg := (msg ++ (" class for reporting " ++ error_message))%string in
    jdo_ jvm (FatalError msg);
    die
  else
    jvm (ThrowNew exception_class error_message).

(** The overloads of [pjrmi_exception_handle]; which one a [catch] clause
    calls is decided by the class of the exception it caught.  The fourth
    overload, for [std::exception], serves none of the library's classes. *)
Definition pjrmi_exception_handle (jni : JNI) (e : exn) : J unit :=
  match e with
  | illegal_argument what =>
    throw_java_exception jni "java/lang/IllegalArgumentException" what
  | io what =>
    throw_java_exception jni "java/io/IOException" what
  | out_of_memory what =>
    throw_java_exception jni "java/lang/OutOfMemoryError" what
  end.

(** [error_check_for_get(env, filename, result, num_elems)] *)
Definition error_check_for_get (jni : JNI) (filename : jstring)
           (result : jarray) (num_elems : Z) : J bool :=
  if bool_decide (filename = None) then
    jdo_ throw_java_exception jni "java/lang/IllegalArgumentException"
                              "Filename input to JNI read method is NULL";
    jret false
  else
    jdo chars <- GetStringUTFChars jni filename;
    jdo len <- strlen chars;
    if len =? 0 then
      jdo_ throw_java_exception jni "java/lang/IllegalArgumentException"
                                "Filename input to JNI read method is empty";
      jret false
    else if bool_decide (result = None) then
      jdo_ throw_java_exception jni "java/lang/IllegalArgumentException"
                                "Result object input to JNI read method is NULL";
      jret false
    else if num_elems <? 0 then
      jdo_ throw_java_exception jni "java/lang/IllegalArgumentException"
                                "Number of elements input to JNI read method is negative";
      jret false
    else
      jret true.

(** [env->GetFieldID(javaClass, name, sig) != NULL] *)
Definition GetFieldID (fields : list string) (name : string) : bool :=
  existsb (String.eqb name) fields.

(** The [char] of an [ArrayType] as the [jchar] passed to the JVM. *)
Definition jchar_of_ArrayType (t : ArrayType) : Z :=
  Z.of_N (Byte.to_N (char_of_ArrayType t)).

(** [pjrmi_array_to_shm(env, result, lambda, type, num_elems, elem_size)] *)
Definition pjrmi_array_to_shm (jni : JNI) (os : OS) (result : jobject)
           (lambda : Z -> list byte) (type : ArrayType)
           (num_elems elem_size : Z) : J unit :=
  match result with
  | NULL =>
    throw_java_exception jni "java/lang/IllegalArgumentException"
                         "Result argument is NULL"
  | Object javaClass =>
    if num_elems <? 0 then
      throw_java_exception jni "java/lang/IllegalArgumentException"
                           "Num_elems is negative"
    else if elem_size =? 0 then
      throw_java_exception jni "java/lang/IllegalArgumentException"
                           "Elem_size is zero"
    else if negb (GetFieldID javaClass "filename") then
      throw_java_exception jni "java/lang/IllegalArgumentException"
                           "Given result object is missing the 'filename' field"
    else if negb (GetFieldID javaClass "type") then
      throw_java_exception jni "java/lang/IllegalArgumentException"
                           "Given result object is missing the 'type' field"
    else if negb (GetFieldID javaClass "numElems") then
      throw_java_exception jni "java/lang/IllegalArgumentException"
                           "Given result object is missing the 'numElems' field"
    else
      let array_bytes := size_t (size_t num_elems * elem_size) in
      jdo returned_filename <-
          native_try (write_bytes_to_shm_lambda os lambda array_bytes type);
      match returned_filename with
      | inr e => pjrmi_exception_handle jni e
      | inl returned_filename =>
        let filename :=
          if jni_NewStringUTF jni then Some returned_filename else None in
        jdo_ jvm (SetObjectField "filename" filename);
        jdo_ jvm (SetCharField "type" (jchar_of_ArrayType type));
        jvm (SetIntField "numElems" num_elems)
      end
  end.

(** [pjrmi_array_from_shm(env, filename, array_bytes, type)]; the pointer
    returned is an address, NULL being 0.  Only [io] has a [catch] clause. *)
Definition pjrmi_array_from_shm (jni : JNI) (os : OS) (filename : jstring)
           (array_bytes : Z) (type : ArrayType) : J Z :=
  jdo file <- GetStringUTFChars jni filename;
  if bool_decide (file = None) then
    jdo_ throw_java_exception jni "java/io/IOException" "Given filename is null";
    jret 0
  else
    jdo addr <- native_try (mmap_bytes_from_shm os file array_bytes type);
    match addr with
    | inl addr => jret addr
    | inr (io what) =>
      jdo_ pjrmi_exception_handle jni (io what);
      jret 0
    | inr e => escape e
    end.

(** [pjrmi_array_from_shm_cleanup(env, filename, array_bytes, type, result)];
    after reporting a NULL file name the function goes on. *)
Definition pjrmi_array_from_shm_cleanup (jni : JNI) (os : OS)
           (filename : jstring) (array_bytes : Z) (type : ArrayType)
           (result : Z) : J unit :=
  jdo file <- GetStringUTFChars jni filename;
  jdo_ (if bool_decide (file = None) then
          throw_java_exception jni "java/io/IOException" "Given filename is null"
        else jret tt);
  jdo unmapped <- native_try (munmap_bytes_from_shm os file array_bytes type
                                                    result);
  match unmapped with
  | inl _ => jret tt
  | inr (io what) => pjrmi_exception_handle jni (io what)
  | inr e => escape e
  end.

(** [char(type)] for a [jchar]: the low eight bits, as a signed [char]. *)
Definition char (type : Z) : Z := (type + 128) mod 256 - 128.

(** The character literal ['c'] as a number. *)
Definition lit (c : byte) : Z := Z.of_N (Byte.to_N c).

Definition nativeIsBooleanArrayType (type : Z) : bool := char type =? lit "z".
Definition nativeIsByteArrayType (type : Z) : bool := char type =? lit "b".
Definition nativeIsShortArrayType (type : Z) : bool := char type =? lit "s".
Definition nativeIsIntegerArrayType (type : Z) : bool := char type =? lit "i".
Definition nativeIsLongArrayType (type : Z) : bool := char type =? lit "j".
Definition nativeIsFloatArrayType (type : Z) : bool := char type =? lit "f".
Definition nativeIsDoubleArrayType (type : Z) : bool := char type =? lit "d".

(** The body the seven [nativePut<Type>Array] functions share; they differ
    in the [ArrayType] and in the [sizeof] they pass on. *)
Definition nativePutArray (type : ArrayType) (elem_size : Z)
           (jni : JNI) (os : OS) (data : jarray) (result : jobject) : J unit :=
  jdo num_elems <- GetArrayLength data;
  let lambda := fun addr : Z => GetArrayRegion data 0 num_elems in
  pjrmi_array_to_shm jni os result lambda type num_elems elem_size.

Definition nativePutBooleanArray := nativePutArray TYPE_BOOLEAN 1.
Definition nativePutByteArray := nativePutArray TYPE_BYTE 1.
Definition nativePutShortArray := nativePutArray TYPE_SHORT 2.
Definition nativePutIntegerArray := nativePutArray TYPE_INTEGER 4.
Definition nativePutLongArray := nativePutArray TYPE_LONG 8.
Definition nativePutFloatArray := nativePutArray TYPE_FLOAT 4.
Definition nativePutDoubleArray := nativePutArray TYPE_DOUBLE 8.

(** The body the seven [nativeGet<Type>Array] functions share.  The three
    helpers meet the JVM and the kernel separately: [jni_c] during the
    argument check, [jni_m] and [os_m] during open-and-map, [jni_u] and
    [os_u] during the cleanup. *)
Definition nativeGetArray (type : ArrayType) (elem_size : Z)
           (jni_c jni_m jni_u : JNI) (os_m os_u : OS)
           (filename : jstring) (result : jarray) (num_elems : Z) : J unit :=
  jdo checked <- error_check_for_get jni_c filename result num_elems;
  if negb checked then jret tt
  else
    let array_bytes := size_t (size_t num_elems * elem_size) in
    jdo data <- pjrmi_array_from_shm jni_m os_m filename array_bytes type;
    if negb (data =? 0) then
      jdo_ SetArrayRegionFrom type result 0 num_elems data;
      pjrmi_array_from_shm_cleanup jni_u os_u filename array_bytes type data
    else jret tt.

Definition nativeGetBooleanArray := nativeGetArray TYPE_BOOLEAN 1.
Definition nativeGetByteArray := nativeGetArray TYPE_BYTE 1.
Definition nativeGetShortArray := nativeGetArray TYPE_SHORT 2.
Definition nativeGetIntegerArray := nativeGetArray TYPE_INTEGER 4.
Definition nativeGetLongArray := nativeGetArray TYPE_LONG 8.
Definition nativeGetFloatArray := nativeGetArray TYPE_FLOAT 4.
Definition nativeGetDoubleArray := nativeGetArray TYPE_DOUBLE 8.

(** The native method the Java side calls to put, or to get, an array of
    the given element type; there is none for [UNKNOWN]. *)
Definition nativePut (t : ArrayType)
  : JNI -> OS -> jarray -> jobject -> J unit :=
  match t with
  | TYPE_BOOLEAN => nativePutBooleanArray
  | TYPE_BYTE => nativePutByteArray
  | TYPE_SHORT => nativePutShortArray
  | TYPE_INTEGER => nativePutIntegerArray
  | TYPE_LONG => nativePutLongArray
  | TYPE_FLOAT => nativePutFloatArray
  | TYPE_DOUBLE => nativePutDoubleArray
  | UNKNOWN => fun _ _ _ _ => jret tt
  end.

Definition nativeGet (t : ArrayType)
  : JNI -> JNI -> JNI -> OS -> OS -> jstring -> jarray -> Z -> J unit :=
  match t with
  | TYPE_BOOLEAN => nativeGetBooleanArray
  | TYPE_BYTE => nativeGetByteArray
  | TYPE_SHORT => nativeGetShortArray
  | TYPE_INTEGER => nativeGetIntegerArray
  | TYPE_LONG => nativeGetLongArray
  | TYPE_FLOAT => nativeGetFloatArray
  | TYPE_DOUBLE => nativeGetDoubleArray
  | UNKNOWN => fun _ _ _ _ _ _ _ _ => jret tt
  end.

(** Library code whose only exceptions are of class [io]. *)
Definition throws_only_io {A} (m : M A) : Prop :=
  forall w e w', m w = (Throw e, w') -> exists what, e = io what.

(** Code of the layer that lets no C++ exception out. *)
Definition contains_exceptions {A} (m : J A) : Prop :=
  forall p e p', m p <> (Throw e, p').

(** A Java array whose elements have the width of the element type. *)
Definition array_of (t : ArrayType) (elems : list (list byte)) : Prop :=
  Forall (fun e => Z.of_nat (length e) = sizeof_jtype t) elems.

(** The class of the result object of a put: [ArrayHandle] has the three
    fields the layer sets. *)
Definition ArrayHandle : jobject := Object ["filename"; "type"; "numElems"]%string.

Definition jni_example : JNI := mkJNI true true true.

(** The Java class each exception class of the library is reported as. *)
Definition java_class (e : exn) : string :=
  match e with
  | illegal_argument _ => "java/lang/IllegalArgumentException"
  | io _ => "java/io/IOException"
  | out_of_memory _ => "java/lang/OutOfMemoryError"
  end.


(** The three fields of the handle as a successful put sets them, most
    recent call first. *)
Definition handle_set (jni : JNI) (f : string) (t : ArrayType) (n : Z)
  : list jcall :=
  [SetIntField "numElems" n;
   SetCharField "type" (jchar_of_ArrayType t);
   SetObjectField "filename" (if jni_NewStringUTF jni then Some f else None)].

Definition five_elements : list (list byte) :=
  [[x01]; [x00]; [x00]; [x01]; [x00]].

(** ** The Python extension (extension.cpp) *)

(** [int] is a 32-bit signed integer. *)
Definition int (z : Z) : Z := (z + 2 ^ 31) mod 2 ^ 32 - 2 ^ 31.

(** numpy's type numbers: the seven the extension handles, and the rest by
    their number. *)
Inductive npy_type : Set :=
| NPY_BOOL | NPY_BYTE | NPY_SHORT | NPY_INT | NPY_LONG | NPY_FLOAT | NPY_DOUBLE
| NPY_other (num : Z).

(** What the extension reads of a numpy array: type number, first
    dimension, first stride and the buffer. *)
Record PyArrayObject : Set := mkArray {
  PyArray_TYPE : npy_type;
  PyArray_DIM : Z;
  PyArray_STRIDE : Z;
  PyArray_DATA : list byte
}.

(** Values handed back to Python: None, NULL, the tuple of
    [Py_BuildValue("slc", ...)], or an array. *)
Inductive PyObject : Set :=
| Py_None
| Py_NULL
| Py_slc (s : string) (l : Z) (c : byte)
| Py_ndarray (array : PyArrayObject).

(** The error indicator: set by [PyErr_SetString(exception, message)], or
    by [PyArg_ParseTuple] when the arguments do not parse. *)
Inductive PyErr : Set :=
| PyErr_SetString (exception message : string)
| PyErr_ParseTuple.

(** Size of one element of an array numpy makes for a type number
    (LP64). *)
Definition npy_itemsize (type : npy_type) : Z :=
  match type with
  | NPY_BOOL => 1
  | NPY_BYTE => 1
  | NPY_SHORT => 2
  | NPY_INT => 4
  | NPY_LONG => 8
  | NPY_FLOAT => 4
  | NPY_DOUBLE => 8
  | NPY_other _ => 0
  end.

(** [PyArray_SimpleNewFromData(1, dims, numpy_type, data)] followed by
    [PyArray_ENABLEFLAGS]: numpy refuses a negative dimension and returns
    NULL, which the macro then dereferences. *)
Definition PyArray_SimpleNewFromData (dim : Z) (numpy_type : npy_type)
           (data : list byte) : M PyObject :=
  if dim <? 0 then (fun w => (Fault, w))
  else ret (Py_ndarray (mkArray numpy_type dim (npy_itemsize numpy_type) data)).

(** [_write_array(self, args)]; [args] is what [PyArg_ParseTuple] extracts,
    [None] when it fails.  The value returned comes with the error
    indicator. *)
Definition _write_array (os : OS) (args : option PyArrayObject)
  : M (PyObject * option PyErr) :=
  match args with
  | None => ret (Py_None, Some PyErr_ParseTuple)
  | Some array =>
    let num_elems := int (PyArray_DIM array) in
    if num_elems <? 0 then
      ret (Py_None,
           Some (PyErr_SetString
                   "IOError" "Write Array failed: number of elements negative"))
    else
      let elem_size := int (PyArray_STRIDE array) in
      if elem_size <? 0 then
        ret (Py_None,
             Some (PyErr_SetString
                     "IOError" "Write Array failed: element size negative"))
      else
        let array_bytes := size_t (size_t num_elems * size_t elem_size) in
        let buf := PyArray_DATA array in
        let type := PyArray_TYPE array in
        let unhandled num :=
          ret (Py_None,
               Some (PyErr_SetString
                       "RuntimeError"
                       ("Write Array failed: Unhandled element type "
                          ++ to_string num))) in
        let write pjrmi_type :=
          try_catch
            (do filename <- write_bytes_to_shm os buf array_bytes pjrmi_type;
             ret (Py_slc filename num_elems (char_of_ArrayType pjrmi_type),
                  None))
            (fun e =>
               ret (Py_None,
                    Some (PyErr_SetString
                            "IOError" ("Write Array failed: " ++ what e)))) in
        match type with
        | NPY_BOOL => write TYPE_BOOLEAN
        | NPY_BYTE => write TYPE_BYTE
        | NPY_SHORT => write TYPE_SHORT
        | NPY_INT => write TYPE_INTEGER
        | NPY_FLOAT => write TYPE_FLOAT
        | NPY_LONG => write TYPE_LONG
        | NPY_DOUBLE => write TYPE_DOUBLE
        | NPY_other num => unhandled num
        end
  end.

(** [_read_array(self, args)]; [args] is the triple [PyArg_ParseTuple]
    extracts with the format "sic".  Only [io] has a [catch] clause. *)
Definition _read_array (os : OS) (args : option (string * Z * byte))
  : M (PyObject * option PyErr) :=
  match args with
  | None => ret (Py_None, Some PyErr_ParseTuple)
  | Some (filename, num_elems, type) =>
    let pjrmi_type := char_to_array_type type in
    let shown := String (ascii_of_byte type) EmptyString in
    let read numpy_type array_bytes :=
      let array_bytes := long array_bytes in
      fun w =>
        match (do data <- read_bytes_from_shm os (Some filename)
                                              (size_t array_bytes) pjrmi_type;
               do result <- PyArray_SimpleNewFromData num_elems numpy_type data;
               ret (result, None)) w with
        | (Throw (io _), w') =>
          (Ok (Py_NULL,
               Some (PyErr_SetString
                       "IOError"
                       ("Read of " ++ to_string num_elems ++ " of type "
                          ++ shown ++ " from " ++ filename ++ " failed."))),
           w')
        | r => r
        end in
    if match pjrmi_type with UNKNOWN => true | _ => false end then
      ret (Py_None,
           Some (PyErr_SetString
                   "IOError" ("Read Array failed: Unknown input type " ++ shown)))
    else
    match pjrmi_type with
    | TYPE_BOOLEAN => read NPY_BOOL (size_t (size_t num_elems * 1))
    | TYPE_BYTE => read NPY_BYTE (size_t (size_t num_elems * 1))
    | TYPE_SHORT => read NPY_SHORT (size_t (size_t num_elems * 2))
    | TYPE_INTEGER => read NPY_INT (size_t (size_t num_elems * 4))
    | TYPE_LONG => read NPY_LONG (size_t (size_t num_elems * 8))
    | TYPE_FLOAT => read NPY_FLOAT (size_t (size_t num_elems * 4))
    | TYPE_DOUBLE => read NPY_DOUBLE (size_t (size_t num_elems * 8))
    | UNKNOWN =>
      ret (Py_None,
           Some (PyErr_SetString
                   "RuntimeError"
                   ("Read Array failed: Unhandled element type " ++ shown)))
    end
  end.

(** A one-dimensional contiguous array of a type the extension handles. *)
Definition contiguous (array : PyArrayObject) : Prop :=
  (forall num, PyArray_TYPE array <> NPY_other num)
  /\ 0 <= PyArray_DIM array < 2 ^ 31
  /\ PyArray_STRIDE array = npy_itemsize (PyArray_TYPE array)
  /\ Z.of_nat (length (PyArray_DATA array))
     = PyArray_DIM array * PyArray_STRIDE array.

Definition five_bools : PyArrayObject := mkArray NPY_BOOL 5 1 five_booleans.

(** ** More concrete systems and worlds *)

(** A kernel that takes the header whole and the five payload bytes in
    pieces of 2, 0, 1, 0 and then everything. *)
Definition os_short_writes : OS :=
  mkOS (Some (1730000000, 123456)) 4242 17 3 (Some (4096, 1000))
       [8; 1; 2; 0; 1; 0] true (Some 65536) true true
       (fun _ _ => EmptyString).

(** A kernel that takes only 7 of the 8 magic bytes. *)
Definition os_short_magic : OS :=
  mkOS (Some (1730000000, 123456)) 4242 17 3 (Some (4096, 1000))
       [7] true (Some 65536) true true
       (fun _ _ => EmptyString).

(** A world with a bystander file and a bystander descriptor. *)
Definition busy_world : World :=
  mkWorld (<["/dev/shm/other" := [x01; x02]]>
             (<[frame_file := frame TYPE_BOOLEAN five_booleans]> ∅))
          (<[7 := ("/dev/shm/other"%string, 0)]> ∅)
          [] [].

(** A name already taken by some other contents. *)
Definition taken_world : World :=
  mkWorld (<["/dev/shm/frame" := [x01; x02; x03]]> ∅) ∅ [] [].

(** A file system with 14 free bytes: 7 blocks of 2. *)
Definition os_tight : OS :=
  mkOS (Some (1730000000, 123456)) 4242 17 3 (Some (2, 7)) []
       true (Some 65536) true true
       (fun _ _ => EmptyString).

(** ** Basic facts about the embedding *)

(** Settle a comparison that linear arithmetic decides, in the goal or in
    a hypothesis. *)
Ltac settle_with b v tac :=
  replace b with v by (symmetry; tac; lia).

Tactic Notation "settle" constr(b) :=
  first [ settle_with b true ltac:(apply Z.ltb_lt)
        | settle_with b true ltac:(apply Z.leb_le)
        | settle_with b true ltac:(apply Z.eqb_eq)
        | settle_with b true ltac:(apply andb_true_iff; split; apply Z.leb_le)
        | settle_with b false ltac:(apply Z.ltb_ge)
        | settle_with b false ltac:(apply Z.eqb_neq) ].

Tactic Notation "settle" constr(b) "in" hyp(H) :=
  first [ replace b with true in H by (symmetry; apply Z.ltb_lt; lia)
        | replace b with false in H by (symmetry; apply Z.ltb_ge; lia) ].

(** A writer that has created its file and now gives up with [io]: the
    call is the second alternative of the case lemmas below. *)
Ltac writer_gives_up :=
  do 2 eexists; split; [reflexivity|]; right; eexists;
  split; [reflexivity|]; cbn [files maps];
  rewrite ?delete_insert_eq; auto.

Lemma sizeof_HEADER_BYTES_eq : sizeof_HEADER_BYTES = 8.
Proof. reflexivity. Qed.

Lemma two64 : 2 ^ 64 = 18446744073709551616.
Proof. reflexivity. Qed.

Lemma size_t_small z : 0 <= z < 2 ^ 64 -> size_t z = z.
Proof. intros H. unfold size_t, SIZE_MAX1. now apply Z.mod_small. Qed.

Lemma long_small z : - 2 ^ 63 <= z < 2 ^ 63 -> long z = z.
Proof.
  intros H. unfold long. rewrite Z.mod_small; [lia|].
  change (2 ^ 64) with (2 ^ 63 + 2 ^ 63). lia.
Qed.

(** The frame length both sides compute: [array_bytes + sizeof(HEADER_BYTES)
    + sizeof(ArrayType)], which is [array_bytes + 9] short of wrap-around. *)
Lemma frame_bytes n :
  0 <= n -> n + 9 < 2 ^ 64 ->
  size_t (size_t (n + sizeof_HEADER_BYTES) + sizeof_ArrayType) = n + 9.
Proof.
  intros H0 H1. rewrite sizeof_HEADER_BYTES_eq. unfold sizeof_ArrayType.
  rewrite (size_t_small (n + 8)) by lia. rewrite size_t_small by lia. lia.
Qed.

Lemma header_size_t : size_t (sizeof_HEADER_BYTES + sizeof_ArrayType) = 9.
Proof. reflexivity. Qed.


Lemma char_to_array_type_of t : char_to_array_type (char_of_ArrayType t) = t.
Proof. now destruct t. Qed.

Lemma byte_eqb_eq (a b : byte) : Byte.eqb a b = true <-> a = b.
Proof. split; [apply byte_dec_bl | apply byte_dec_lb]. Qed.

Lemma byte_eqb_neq (a b : byte) : Byte.eqb a b = false <-> a <> b.
Proof.
  rewrite <- byte_eqb_eq. destruct (Byte.eqb a b); split; congruence.
Qed.

Lemma string_app_assoc (a b c : string) :
  (a ++ (b ++ c) = (a ++ b) ++ c)%string.
Proof.
  induction a as [|ch a IH]; [reflexivity|].
  change (String ch (a ++ (b ++ c)) = String ch ((a ++ b) ++ c))%string.
  now rewrite IH.
Qed.

(** A generated file name is never the empty string. *)
Lemma create_filename_nonempty os f : create_filename os = Ok f -> f <> ""%string.
Proof.
  unfold create_filename. destruct (os_gettimeofday os) as [[sec usec]|];
    [|discriminate].
  intros [= <-]. discriminate.
Qed.

(** The only exception of [create_filename] is the clock error. *)
Lemma create_filename_throws os e :
  create_filename os = Throw e ->
  os_gettimeofday os = None
  /\ e = illegal_argument "create_filename(): Error in ::gettimeofday()".
Proof.
  unfold create_filename. destruct (os_gettimeofday os) as [[sec usec]|];
    [discriminate|]. now intros [= <-].
Qed.

Lemma create_filename_not_fault os : create_filename os <> Fault.
Proof.
  unfold create_filename. now destruct (os_gettimeofday os) as [[sec usec]|].
Qed.

(** ** Handle allocator *)

(** C9.  [create_filename] returns base_dir + microsecond_timestamp + '.' +
    thread_id + '.' + random_value with base_dir = "/dev/shm/" (the
    timestamp being exact as long as it fits the [long] it is computed in),
    and it fails only when the clock cannot be read, with
    [illegal_argument]. *)
Theorem create_filename_spec (os : OS) :
  (forall sec usec,
      os_gettimeofday os = Some (sec, usec) ->
      - 2 ^ 63 <= sec * 1000000 < 2 ^ 63 ->
      - 2 ^ 63 <= microsecond_timestamp sec usec < 2 ^ 63 ->
      create_filename os =
      Ok (base_dir ++ to_string (microsecond_timestamp sec usec) ++ "."
          ++ to_string (os_gettid os) ++ "." ++ to_string (os_rand os))%string)
  /\ (os_gettimeofday os = None <->
      create_filename os =
      Throw (illegal_argument "create_filename(): Error in ::gettimeofday()"))
  /\ (forall e, create_filename os = Throw e ->
                os_gettimeofday os = None
                /\ e = illegal_argument
                         "create_filename(): Error in ::gettimeofday()")
  /\ create_filename os <> Fault.
Proof.
  split; [|split; [|split]].
  - intros sec usec Hclock Hmul Hsum. unfold create_filename.
    rewrite Hclock. unfold microsecond_timestamp in *.
    rewrite (long_small (sec * 1000000)) by assumption.
    rewrite long_small by assumption.
    f_equal. unfold base_dir.
    rewrite <- !string_app_assoc. reflexivity.
  - unfold create_filename.
    destruct (os_gettimeofday os) as [[sec usec]|]; split; try easy.
  - apply create_filename_throws.
  - apply create_filename_not_fault.
Qed.

Lemma create_filename_spec_witness :
  create_filename os_example = Ok "/dev/shm/1730000000123456.4242.17"%string.
Proof.
  apply (proj1 (create_filename_spec os_example) 1730000000 123456).
  - reflexivity.
  - lia.
  - unfold microsecond_timestamp. lia.
Defined.

(** ** Space-checked file opener *)

Lemma open_file_for_write_eq os file n w :
  file <> ""%string ->
  open_file_for_write os file n w =
  if os_open os <? 0 then
    (Throw (io "open_file_for_write(): Could not open file for writing"),
     log (EvOpen file true (-1)) w)
  else
    match os_fstatvfs os with
    | None =>
      (Throw (io "open_file_for_write(): Could not check file with fstatvfs()"),
       abandoned os file w)
    | Some (f_bsize, f_bavail) =>
      if size_t (size_t f_bsize * size_t f_bavail) <? n then
        (Throw (out_of_memory
                  "open_file_for_write(): Insufficient available space in file"),
         abandoned os file w)
      else (Ok (os_open os), opened os file w)
    end.
Proof.
  intros Hne. unfold open_file_for_write.
  rewrite bool_decide_eq_false_2 by assumption.
  unfold bind, sys_open. cbn [negb andb]. rewrite orb_false_r.
  destruct (os_open os <? 0) eqn:Hfd; [reflexivity|].
  apply Z.ltb_ge in Hfd.
  settle (os_open os =? -1).
  unfold sys_fstatvfs, log. cbn [files fds maps trace].
  destruct (os_fstatvfs os) as [[f_bsize f_bavail]|]; [|reflexivity].
  destruct (size_t (size_t f_bsize * size_t f_bavail) <? n); reflexivity.
Qed.

(** C6.  [open_file_for_write] checks the free space after it has created
    the file and before anything is written: when the file system reports
    fewer free bytes ([f_bsize * f_bavail]) than requested, the calls issued
    are open (creating), fstatvfs, close, unlink, with no write among them;
    the file is gone and [out_of_memory] is raised. *)
Theorem open_file_for_write_out_of_space
        (os : OS) (file : string) (bytes_to_write : Z) (w : World)
        (f_bsize f_bavail : Z) :
  file <> ""%string ->
  0 <= os_open os ->
  os_fstatvfs os = Some (f_bsize, f_bavail) ->
  0 <= f_bsize -> 0 <= f_bavail ->
  f_bsize * f_bavail < bytes_to_write ->
  bytes_to_write < 2 ^ 64 ->
  exists w',
    open_file_for_write os file bytes_to_write w =
    (Throw (out_of_memory
              "open_file_for_write(): Insufficient available space in file"),
     w')
    /\ files w' !! file = None
    /\ fds w' !! os_open os = None
    /\ maps w' = maps w
    /\ trace w' = EvUnlink (Some file) :: EvClose (os_open os)
                  :: EvFstatvfs (os_open os)
                  :: EvOpen file true (os_open os) :: trace w.
Proof.
  intros Hne Hfd Hvfs Hbs Hba Hfree Hmax.
  exists (abandoned os file w).
  rewrite open_file_for_write_eq by assumption.
  settle (os_open os <? 0).
  rewrite Hvfs.
  assert (Hprod : 0 <= f_bsize * f_bavail) by nia.
  assert (Hb1 : f_bsize < 2 ^ 64 \/ f_bavail = 0) by nia.
  assert (Hb2 : f_bavail < 2 ^ 64 \/ f_bsize = 0) by nia.
  assert (Hwrap : size_t (size_t f_bsize * size_t f_bavail)
                  = f_bsize * f_bavail).
  { destruct Hb1 as [Hb1| ->]; [|unfold size_t at 3; rewrite Z.mod_0_l by easy;
                                  rewrite !Z.mul_0_r; reflexivity].
    destruct Hb2 as [Hb2| ->]; [|unfold size_t at 2; rewrite Z.mod_0_l by easy;
                                  rewrite !Z.mul_0_l; reflexivity].
    rewrite (size_t_small f_bsize), (size_t_small f_bavail) by lia.
    apply size_t_small. lia. }
  rewrite Hwrap.
  settle (f_bsize * f_bavail <? bytes_to_write).
  split; [reflexivity|]. unfold abandoned; cbn [files fds maps trace].
  repeat split.
  - apply lookup_delete_eq.
  - apply lookup_delete_eq.
Qed.

Lemma open_file_for_write_out_of_space_witness :
  exists w',
    open_file_for_write os_full "/dev/shm/frame" 14 empty_world =
    (Throw (out_of_memory
              "open_file_for_write(): Insufficient available space in file"),
     w')
    /\ files w' !! "/dev/shm/frame"%string = None
    /\ fds w' !! os_open os_full = None
    /\ maps w' = maps empty_world
    /\ trace w' = EvUnlink (Some "/dev/shm/frame"%string)
                  :: EvClose (os_open os_full)
                  :: EvFstatvfs (os_open os_full)
                  :: EvOpen "/dev/shm/frame" true (os_open os_full)
                  :: trace empty_world.
Proof.
  apply (open_file_for_write_out_of_space
           os_full "/dev/shm/frame" 14 empty_world 4096 0).
  - discriminate.
  - simpl; lia.
  - reflexivity.
  - lia.
  - lia.
  - lia.
  - lia.
Defined.

(** ** Release *)

Lemma munmap_bytes_from_shm_eq os file n t addr w :
  0 <= n -> n + 9 < 2 ^ 64 ->
  munmap_bytes_from_shm os file n t addr w =
  if os_munmap os then
    (Ok tt,
     mkWorld (match file with Some f => delete f (files w) | None => files w end)
             (fds w)
             (filter (fun m => same_region (addr - 9) (n + 9) m = false) (maps w))
             (EvUnlink file :: EvMunmap (addr - 9) (n + 9) 0 :: trace w))
  else
    (Throw (io "munmap_bytes_from_shm(): Error in munmaping the file"),
     mkWorld (match file with Some f => delete f (files w) | None => files w end)
             (fds w) (maps w)
             (EvUnlink file :: EvMunmap (addr - 9) (n + 9) (-1) :: trace w)).
Proof.
  intros H0 H1. unfold munmap_bytes_from_shm.
  rewrite frame_bytes, header_size_t by assumption.
  unfold bind, sys_munmap, sys_unlink, throw, log.
  destruct (os_munmap os); reflexivity.
Qed.

(** C8.  [munmap_bytes_from_shm], given the pointer [addr] handed out for a
    frame of [n] payload bytes, calls munmap on [addr - 9] with length
    [9 + n] and then unlinks the file; whether munmap succeeds (normal
    return) or fails ([io] raised), the file no longer exists afterwards. *)
Theorem munmap_bytes_from_shm_spec
        (os : OS) (file : string) (n : Z) (t : ArrayType) (addr : Z)
        (w : World) :
  0 <= n -> n + 9 < 2 ^ 64 ->
  exists r w' ret,
    munmap_bytes_from_shm os (Some file) n t addr w = (r, w')
    /\ trace w' = EvUnlink (Some file) :: EvMunmap (addr - 9) (9 + n) ret
                  :: trace w
    /\ files w' !! file = None
    /\ (forall f, f <> file -> files w' !! f = files w !! f)
    /\ (if os_munmap os
        then r = Ok tt /\ ret = 0
             /\ maps w' = filter (fun m => same_region (addr - 9) (9 + n) m = false)
                                 (maps w)
        else r = Throw (io "munmap_bytes_from_shm(): Error in munmaping the file")
             /\ ret = -1 /\ maps w' = maps w).
Proof.
  intros H0 H1. rewrite munmap_bytes_from_shm_eq by assumption.
  replace (n + 9) with (9 + n) by lia.
  destruct (os_munmap os); do 3 eexists;
    (split; [reflexivity|]); cbn [files fds maps trace];
    (split; [reflexivity|]);
    (split; [apply lookup_delete_eq|]);
    (split; [intros f Hf; now apply lookup_delete_ne|]); auto.
Qed.

Lemma munmap_bytes_from_shm_spec_witness :
  exists r w' ret,
    munmap_bytes_from_shm os_example (Some frame_file) 5 TYPE_BOOLEAN 65545
                          mapped_world = (r, w')
    /\ trace w' = EvUnlink (Some frame_file) :: EvMunmap (65545 - 9) (9 + 5) ret
                  :: trace mapped_world
    /\ files w' !! frame_file = None
    /\ (forall f, f <> frame_file -> files w' !! f = files mapped_world !! f)
    /\ (if os_munmap os_example
        then r = Ok tt /\ ret = 0
             /\ maps w' = filter (fun m => same_region (65545 - 9) (9 + 5) m = false)
                                 (maps mapped_world)
        else r = Throw (io "munmap_bytes_from_shm(): Error in munmaping the file")
             /\ ret = -1 /\ maps w' = maps mapped_world).
Proof.
  apply (munmap_bytes_from_shm_spec os_example frame_file 5 TYPE_BOOLEAN 65545
                                    mapped_world); lia.
Defined.

(** ** Open-and-map *)

Lemma mmap_bytes_from_shm_missing os f n t w :
  files w !! f = None ->
  exists w',
    mmap_bytes_from_shm os (Some f) n t w =
    (Throw (io (if bool_decide (f = ""%string)
                then "mmap_bytes_from_shm(): Empty filename received"
                else "mmap_bytes_from_shm(): Could not open file for reading")),
     w')
    /\ files w' = files w /\ maps w' = maps w.
Proof.
  intros Hf. unfold mmap_bytes_from_shm.
  rewrite (bool_decide_eq_false_2 (Some f = None)) by discriminate.
  cbn [orb]. destruct (decide (f = ""%string)) as [->|Hne].
  - rewrite !bool_decide_eq_true_2 by reflexivity. now exists w.
  - rewrite (bool_decide_eq_false_2 (Some f = Some ""%string)) by congruence.
    rewrite (bool_decide_eq_false_2 (f = ""%string)) by assumption.
    unfold bind, sys_open. cbn [from_option id negb andb].
    rewrite (bool_decide_eq_true_2 _ Hf), orb_true_r. cbn.
    eexists; split; [reflexivity|]. split; reflexivity.
Qed.

Lemma mmap_bytes_from_shm_eq os f n t w c :
  f <> ""%string ->
  files w !! f = Some c ->
  0 <= n -> n + 9 < 2 ^ 64 ->
  Z.of_nat (length c) < 2 ^ 64 ->
  mmap_bytes_from_shm os (Some f) n t w =
  if os_open os <? 0 then
    (Throw (io "mmap_bytes_from_shm(): Could not open file for reading"),
     log (EvOpen f false (-1)) w)
  else if Z.of_nat (length c) <? 9 then
    (Throw (io "mmap_bytes_from_shm(): File size is insufficient for reading"),
     too_small_world os f w)
  else
    match os_mmap os with
    | None =>
      (Throw (io "mmap_bytes_from_shm(): Error in mmaping the file"),
       unmappable_world os f n w)
    | Some a =>
      if negb (strncmp (take 8 c) HEADER_BYTES 8 =? 0) then
        (Throw (io (magic_message (take 8 c) f)), rejected_world os f n a w)
      else if negb (Byte.eqb (hd x00 (drop 8 c)) (char_of_ArrayType t)) then
        (Throw (io (type_message os (hd x00 (drop 8 c)) (char_of_ArrayType t) f)),
         rejected_world os f n a w)
      else (Ok (a + 9), accepted_world os f n a w)
    end.
Proof.
  intros Hne Hf H0 H1 Hc. unfold mmap_bytes_from_shm.
  rewrite (bool_decide_eq_false_2 (Some f = None)) by discriminate.
  rewrite (bool_decide_eq_false_2 (Some f = Some ""%string)) by congruence.
  cbn [orb from_option id]. rewrite frame_bytes by assumption.
  change sizeof_HEADER_BYTES with 8. change (size_t (8 + 1)) with 9.
  change (Z.to_nat 8) with 8%nat.
  unfold bind at 1. unfold sys_open. cbn [negb andb].
  rewrite (bool_decide_eq_false_2 (files w !! f = None)) by congruence.
  rewrite orb_false_r.
  destruct (os_open os <? 0) eqn:Hfd; [reflexivity|].
  apply Z.ltb_ge in Hfd.
  settle (os_open os =? -1).
  unfold bind at 1. unfold sys_fstat, fd_contents, log.
  cbn [files fds maps trace]. rewrite lookup_insert_eq, Hf. cbn [from_option id].
  rewrite size_t_small by lia.
  destruct (Z.of_nat (length c) <? 9) eqn:Hsz; [reflexivity|].
  apply Z.ltb_ge in Hsz.
  unfold bind at 1. unfold sys_mmap, log. cbn [files fds maps trace].
  rewrite lookup_insert_eq.
  destruct (os_mmap os) as [a|]; [|reflexivity].
  settle (n + 9 =? 0).
  unfold bind at 1. unfold sys_close at 1. cbn [files fds maps trace].
  unfold bind at 1. unfold mem_load at 1. change (8 <=? 0) with false.
  cbn [files fds maps trace find].
  unfold covers at 1. cbn [m_base m_len m_file].
  settle ((a <=? a) && (a + 8 <=? a + (n + 9))).
  cbn [m_base m_len m_file].
  rewrite Hf. cbn [from_option id]. rewrite Z.sub_diag.
  settle (Z.of_nat (length c) <? 0 + 8).
  change (Z.to_nat 0) with 0%nat. change (Z.to_nat 8) with 8%nat.
  rewrite drop_0.
  destruct (negb (strncmp (take 8 c) HEADER_BYTES 8 =? 0)); [reflexivity|].
  unfold bind at 1. unfold mem_load at 1. change (1 <=? 0) with false.
  cbn [files fds maps trace find].
  unfold covers at 1. cbn [m_base m_len m_file].
  settle ((a <=? a + 8) && (a + 8 + 1 <=? a + (n + 9))).
  cbn [m_base m_len m_file].
  rewrite Hf. cbn [from_option id].
  replace (a + 8 - a) with 8 by lia.
  settle (Z.of_nat (length c) <? 8 + 1).
  change (Z.to_nat 8) with 8%nat. change (Z.to_nat 1) with 1%nat.
  assert (Hhd : hd x00 (take 1 (drop 8 c)) = hd x00 (drop 8 c))
    by (now destruct (drop 8 c)).
  rewrite Hhd.
  destruct (negb (Byte.eqb (hd x00 (drop 8 c)) (char_of_ArrayType t)));
    [reflexivity|].
  unfold ret, accepted_world, mapped_trace, reader_fds.
  replace (a + 8 + 1) with (a + 9) by lia. reflexivity.
Qed.

(** ** [strncmp] against the magic bytes *)

Lemma byte_to_N_inj (a b : byte) : Byte.to_N a = Byte.to_N b -> a = b.
Proof.
  intros H. assert (Ha := Byte.of_to_N a). rewrite H, Byte.of_to_N in Ha.
  congruence.
Qed.

Lemma strncmp_refl s n : strncmp s s n = 0.
Proof.
  revert s. induction n as [|n IH]; intros s; [reflexivity|].
  cbn [strncmp]. rewrite (byte_dec_lb (eq_refl (hd x00 s))).
  destruct (Byte.eqb (hd x00 s) x00); [reflexivity | apply IH].
Qed.

Lemma strncmp_0_eq s2 :
  nul_only_last s2 = true ->
  forall s1, length s1 = length s2 ->
             strncmp s1 s2 (length s2) = 0 -> s1 = s2.
Proof.
  induction s2 as [|c2 r2 IH]; intros Hnul s1 Hlen Hcmp.
  - now destruct s1.
  - destruct s1 as [|c1 r1]; [discriminate|].
    cbn [length strncmp hd tl] in *.
    destruct (Byte.eqb c1 c2) eqn:Hc.
    + apply byte_eqb_eq in Hc. subst c2. cbn [nul_only_last] in Hnul.
      destruct (Byte.eqb c1 x00).
      * destruct r2; [|discriminate]. destruct r1; [reflexivity|discriminate].
      * f_equal. apply IH; [assumption | congruence | assumption].
    + apply byte_eqb_neq in Hc. exfalso. apply Hc. apply byte_to_N_inj. lia.
Qed.

Lemma magic_check (l : list byte) :
  length l = 8%nat ->
  (strncmp l HEADER_BYTES 8 =? 0) = true <-> l = HEADER_BYTES.
Proof.
  intros Hlen. rewrite Z.eqb_eq. split.
  - intros H. now apply (strncmp_0_eq HEADER_BYTES).
  - intros ->. apply strncmp_refl.
Qed.

(** ** Buffered writer *)

Lemma frame_length t payload :
  Z.of_nat (length (frame t payload)) = 9 + Z.of_nat (length payload).
Proof. unfold frame. rewrite !length_app. cbn [length HEADER_BYTES]. simpl. lia. Qed.

Lemma file_write_end c b : file_write c (length c) b = c ++ b.
Proof.
  unfold file_write. destruct b as [|x b]; [now rewrite app_nil_r|].
  rewrite firstn_all, Nat.sub_diag, drop_ge by lia.
  cbn [replicate app]. now rewrite app_nil_r.
Qed.

Lemma appending_opened os f w : appending f (os_open os) [] w (opened os f w).
Proof. repeat split. Qed.

(** Writes through a descriptor that appends to a fresh file [f], seen from
    the world [w0] the file was created in. *)
Section Appending.

Variables (f : string) (fd : Z) (w0 : World).

Lemma sys_write_appending c w buf count ans :
  appending f fd c w0 w ->
  Z.of_nat (length buf) = count ->
  exists r k w',
    sys_write fd buf count ans w = (Ok r, w')
    /\ (k <= length buf)%nat
    /\ appending f fd (c ++ take k buf) w0 w'
    /\ (r < 0 /\ k = 0%nat \/ r = Z.of_nat k)
    /\ (ans = None -> k = length buf).
Proof.
  intros (Hfiles & Hfds & Hmaps) Hcount. unfold sys_write.
  rewrite Hfds, lookup_insert_eq.
  set (accepted := match ans with None => count | Some a => Z.min a count end).
  assert (Hacc : accepted <= count) by (subst accepted; destruct ans; lia).
  destruct (accepted <? 0) eqn:Hneg.
  - apply Z.ltb_lt in Hneg. exists (-1), 0%nat. eexists. split; [reflexivity|].
    split; [lia|]. split.
    + rewrite take_0, app_nil_r. repeat split; assumption.
    + split; [left; lia|]. intros ->. subst accepted. lia.
  - apply Z.ltb_ge in Hneg. exists accepted, (Z.to_nat accepted). eexists.
    split; [reflexivity|]. split; [lia|]. split.
    + unfold appending. cbn [files fds maps].
      rewrite Hfiles, lookup_insert_eq. cbn [from_option id].
      rewrite Nat2Z.id, file_write_end, !insert_insert_eq.
      repeat split; [|assumption].
      rewrite length_app, length_take. do 3 f_equal. lia.
    + split; [right; lia|]. intros ->. subst accepted. lia.
Qed.

Lemma write_loop_appending pre data n answers :
  n = Z.of_nat (length data) -> n < 2 ^ 64 ->
  forall position w,
    0 <= position <= n ->
    appending f fd (pre ++ take (Z.to_nat position) data) w0 w ->
    exists p' w',
      write_loop fd data n position answers w = (Ok tt, w')
      /\ position <= p' <= n
      /\ appending f fd (pre ++ take (Z.to_nat p') data) w0 w'
      /\ (answers = [] -> p' = n).
Proof.
  intros Hn Hmax. induction answers as [|a answers IH]; intros position w Hpos Happ.
  - cbn [write_loop]. destruct (position <? n) eqn:Hlt.
    + apply Z.ltb_lt in Hlt. rewrite size_t_small by lia.
      destruct (sys_write_appending _ w
                  (drop (Z.to_nat position) data) (n - position) None Happ)
        as (r & k & w' & Hw & Hk & Happ' & _ & Hfull).
      { rewrite length_drop. lia. }
      specialize (Hfull eq_refl). rewrite length_drop in Hfull.
      unfold bind. rewrite Hw. exists n, w'. split; [reflexivity|].
      split; [lia|]. split; [|reflexivity].
      rewrite <- app_assoc, take_take_drop in Happ'.
      replace (Z.to_nat n) with (Z.to_nat position + k)%nat by lia.
      exact Happ'.
    + apply Z.ltb_ge in Hlt. exists position, w. split; [reflexivity|].
      split; [lia|]. split; [assumption|]. intros _. lia.
  - cbn [write_loop]. destruct (position <? n) eqn:Hlt.
    + apply Z.ltb_lt in Hlt. rewrite size_t_small by lia.
      destruct (sys_write_appending _ w
                  (drop (Z.to_nat position) data) (n - position) (Some a) Happ)
        as (r & k & w' & Hw & Hk & Happ' & Hr & _).
      { rewrite length_drop. lia. }
      rewrite length_drop in Hk.
      rewrite <- app_assoc, take_take_drop in Happ'.
      unfold bind. rewrite Hw.
      destruct Hr as [[Hr ->]| ->].
      * settle (r <? 0).
        exists position, w'. split; [reflexivity|]. split; [lia|].
        rewrite Nat.add_0_r in Happ'. split; [assumption|discriminate].
      * settle (Z.of_nat k <? 0).
        rewrite size_t_small by lia.
        destruct (IH (position + Z.of_nat k) w') as (p' & w'' & Hloop & Hp' & Happ'' & _).
        { lia. }
        { replace (Z.to_nat (position + Z.of_nat k))
            with (Z.to_nat position + k)%nat by lia. exact Happ'. }
        exists p', w''. split; [assumption|]. split; [lia|].
        split; [assumption|discriminate].
    + apply Z.ltb_ge in Hlt. exists position, w. split; [reflexivity|].
      split; [lia|]. split; [assumption|discriminate].
Qed.

End Appending.

(** Every way a call of the buffered writer can end.  The frame is on disk
    exactly when the call returns; an exception leaves the directory
    without the generated file. *)
Lemma write_bytes_to_shm_cases os data n t w :
  n = Z.of_nat (length data) -> n + 9 < 2 ^ 64 ->
  exists r w1,
    write_bytes_to_shm os data n t w = (r, w1)
    /\ maps w1 = maps w
    /\ match create_filename os with
       | Ok f =>
         if os_open os <? 0 then
           r = Throw (io "open_file_for_write(): Could not open file for writing")
           /\ files w1 = files w
         else
           match os_fstatvfs os with
           | None =>
             r = Throw (io "open_file_for_write(): Could not check file with fstatvfs()")
             /\ files w1 = delete f (files w)
           | Some (f_bsize, f_bavail) =>
             if size_t (size_t f_bsize * size_t f_bavail) <? n + 9 then
               r = Throw (out_of_memory
                            "open_file_for_write(): Insufficient available space in file")
               /\ files w1 = delete f (files w)
             else
               (r = Ok f /\ files w1 = <[f := frame t data]> (files w))
               \/ (exists msg, r = Throw (io msg)
                               /\ files w1 = delete f (files w)
                               /\ os_write os <> [])
           end
       | Throw e => r = Throw e /\ w1 = w /\ os_gettimeofday os = None
       | Fault => False
       end.
Proof.
  intros Hn Hmax. assert (H0 : 0 <= n) by lia.
  unfold write_bytes_to_shm. rewrite frame_bytes by assumption.
  unfold bind at 1. unfold try_catch at 1. unfold lift.
  destruct (create_filename os) as [f|e|] eqn:Hcf.
  2:{ destruct (create_filename_throws os e Hcf) as [Hclock ->].
      do 2 eexists. split; [reflexivity|]. auto. }
  2:{ now apply create_filename_not_fault in Hcf. }
  assert (Hne := create_filename_nonempty os f Hcf).
  unfold bind at 1. unfold try_catch at 1.
  rewrite open_file_for_write_eq by assumption.
  destruct (os_open os <? 0) eqn:Hfd.
  { do 2 eexists. split; [reflexivity|]. auto. }
  destruct (os_fstatvfs os) as [[f_bsize f_bavail]|].
  2:{ do 2 eexists. split; [reflexivity|]. cbn [files maps abandoned].
      rewrite delete_insert_eq. auto. }
  destruct (size_t (size_t f_bsize * size_t f_bavail) <? n + 9).
  { do 2 eexists. split; [reflexivity|]. cbn [files maps abandoned].
    rewrite delete_insert_eq. auto. }
  change sizeof_HEADER_BYTES with 8.
  destruct (sys_write_appending f (os_open os) w [] (opened os f w)
              HEADER_BYTES 8 (head (os_write os)) (appending_opened os f w)
              eq_refl)
    as (r1 & k1 & w2 & Hw1 & Hk1 & Happ1 & _ & Hfull1).
  unfold bind at 1. rewrite Hw1.
  destruct (sys_write_appending f (os_open os) w _ w2
              [char_of_ArrayType t] 1 (head (tail (os_write os))) Happ1
              eq_refl)
    as (r2 & k2 & w3 & Hw2 & Hk2 & Happ2 & _ & Hfull2).
  unfold bind at 1. rewrite Hw2.
  destruct (write_loop_appending f (os_open os) w
              (([] ++ take k1 HEADER_BYTES) ++ take k2 [char_of_ArrayType t])
              data n (tail (tail (os_write os))) Hn ltac:(lia) 0 w3)
    as (p' & w4 & Hloop & Hp' & Happ3 & Hfull3).
  { lia. }
  { change (Z.to_nat 0) with 0%nat. rewrite take_0, app_nil_r. exact Happ2. }
  unfold bind at 1. rewrite Hloop.
  destruct Happ3 as (Hfiles & Hfds & Hmaps).
  unfold bind at 1. unfold sys_fstat, fd_contents, log.
  rewrite Hfds, Hfiles, !lookup_insert_eq. cbn [from_option id].
  change (length HEADER_BYTES) with 8%nat in Hk1, Hfull1.
  cbn [length] in Hk2, Hfull2.
  assert (Hlen : Z.of_nat (length ((([] ++ take k1 HEADER_BYTES)
                                      ++ take k2 [char_of_ArrayType t])
                                     ++ take (Z.to_nat p') data))
                 = Z.of_nat k1 + Z.of_nat k2 + p').
  { rewrite !length_app, !length_take.
    change (length HEADER_BYTES) with 8%nat. cbn [length]. lia. }
  rewrite Hlen. rewrite size_t_small by lia.
  destruct (Z.of_nat k1 + Z.of_nat k2 + p' =? n + 9) eqn:Hsize.
  - apply Z.eqb_eq in Hsize.
    assert (k1 = 8%nat) by lia. assert (k2 = 1%nat) by lia.
    assert (p' = n) by lia. subst k1 k2 p'.
    cbn [negb]. do 2 eexists. split; [reflexivity|].
    cbn [files maps]. split; [assumption|]. left. split; [reflexivity|].
    f_equal. unfold frame.
    rewrite Hn, Nat2Z.id, firstn_all. reflexivity.
  - apply Z.eqb_neq in Hsize. cbn [negb]. do 2 eexists. split; [reflexivity|].
    cbn [files maps]. split; [assumption|]. right. eexists.
    split; [reflexivity|]. rewrite delete_insert_eq.
    split; [reflexivity|]. intros Hnil. rewrite Hnil in *.
    specialize (Hfull1 eq_refl). specialize (Hfull2 eq_refl).
    specialize (Hfull3 eq_refl). lia.
Qed.

Lemma write_bytes_to_shm_ok os data n t w f w1 :
  n = Z.of_nat (length data) -> n + 9 < 2 ^ 64 ->
  write_bytes_to_shm os data n t w = (Ok f, w1) ->
  create_filename os = Ok f
  /\ files w1 = <[f := frame t data]> (files w)
  /\ maps w1 = maps w.
Proof.
  intros Hn Hmax Hw.
  destruct (write_bytes_to_shm_cases os data n t w Hn Hmax)
    as (r & w1' & Hrun & Hmaps & Hcases).
  rewrite Hw in Hrun. injection Hrun as <- <-.
  destruct (create_filename os) as [f'|e|]; [|now destruct Hcases|easy].
  destruct (os_open os <? 0); [now destruct Hcases|].
  destruct (os_fstatvfs os) as [[f_bsize f_bavail]|]; [|now destruct Hcases].
  destruct (size_t (size_t f_bsize * size_t f_bavail) <? n + 9);
    [now destruct Hcases|].
  destruct Hcases as [[[= ->] Hfiles]|(msg & [=] & _)]. auto.
Qed.

Lemma write_bytes_to_shm_succeeds os data n t w :
  n = Z.of_nat (length data) -> n + 9 < 2 ^ 64 ->
  writer_friendly os n ->
  exists f w1, write_bytes_to_shm os data n t w = (Ok f, w1).
Proof.
  intros Hn Hmax (Hclock & Hfd & (f_bsize & f_bavail & Hvfs & Hfree) & Hwr).
  destruct (write_bytes_to_shm_cases os data n t w Hn Hmax)
    as (r & w1 & Hrun & Hmaps & Hcases).
  destruct (create_filename os) as [f|e|] eqn:Hcf; [|now destruct Hcases|easy].
  settle (os_open os <? 0) in Hcases.
  rewrite Hvfs in Hcases.
  settle (size_t (size_t f_bsize * size_t f_bavail) <? n + 9) in Hcases.
  destruct Hcases as [[-> _]|(msg & _ & _ & Hnil)]; [|contradiction].
  now exists f, w1.
Qed.

(** ** Copy-out read *)

Lemma mmap_bytes_from_shm_frame os f n t w payload extra :
  f <> ""%string ->
  files w !! f = Some (frame t payload ++ extra) ->
  0 <= n -> n + 9 < 2 ^ 64 ->
  Z.of_nat (length (frame t payload ++ extra)) < 2 ^ 64 ->
  0 <= os_open os ->
  forall a, os_mmap os = Some a ->
  mmap_bytes_from_shm os (Some f) n t w = (Ok (a + 9), accepted_world os f n a w).
Proof.
  intros Hne Hf H0 H1 Hc Hfd a Hmap.
  rewrite (mmap_bytes_from_shm_eq os f n t w _ Hne Hf H0 H1 Hc).
  settle (os_open os <? 0).
  replace (Z.of_nat (length (frame t payload ++ extra)) <? 9) with false.
  2:{ symmetry; apply Z.ltb_ge. rewrite length_app, Nat2Z.inj_add, frame_length.
      lia. }
  rewrite Hmap.
  change (take 8 (frame t payload ++ extra)) with HEADER_BYTES.
  change (hd x00 (drop 8 (frame t payload ++ extra))) with (char_of_ArrayType t).
  rewrite strncmp_refl, (byte_dec_lb (eq_refl (char_of_ArrayType t))).
  reflexivity.
Qed.

Lemma read_bytes_from_shm_frame os f n t w payload extra :
  f <> ""%string ->
  files w !! f = Some (frame t payload ++ extra) ->
  n = Z.of_nat (length payload) -> n + 9 < 2 ^ 64 ->
  Z.of_nat (length (frame t payload ++ extra)) < 2 ^ 64 ->
  reader_friendly os ->
  exists w2,
    read_bytes_from_shm os (Some f) n t w = (Ok payload, w2)
    /\ files w2 = delete f (files w)
    /\ exists a,
        os_mmap os = Some a
        /\ maps w2 = filter (fun m => same_region a (n + 9) m = false)
                            (Mapping a (n + 9) f false :: maps w).
Proof.
  intros Hne Hf Hn Hmax Hc (Hfd & Hmap & Hmalloc & Hmunmap).
  assert (H0 : 0 <= n) by lia.
  destruct (os_mmap os) as [a|] eqn:Ha; [clear Hmap|congruence].
  unfold read_bytes_from_shm. unfold bind at 1.
  rewrite (mmap_bytes_from_shm_frame os f n t w payload extra Hne Hf H0 Hmax Hc
             Hfd a Ha).
  unfold bind at 1. unfold sys_malloc, log. rewrite Hmalloc. cbn [negb].
  assert (Hload : mem_load (a + 9) n
                    (mkWorld (files (accepted_world os f n a w))
                             (fds (accepted_world os f n a w))
                             (maps (accepted_world os f n a w))
                             (EvMalloc n true :: trace (accepted_world os f n a w)))
                  = (Ok payload,
                     mkWorld (files (accepted_world os f n a w))
                             (fds (accepted_world os f n a w))
                             (maps (accepted_world os f n a w))
                             (EvMalloc n true
                              :: trace (accepted_world os f n a w)))).
  { unfold mem_load. destruct (n <=? 0) eqn:Hz.
    - apply Z.leb_le in Hz. destruct payload; [reflexivity|].
      cbn [length] in Hn. lia.
    - cbn [files fds maps trace accepted_world find].
      unfold covers. cbn [m_base m_len m_file].
      settle ((a <=? a + 9) && (a + 9 + n <=? a + (n + 9))).
      cbn [m_base m_len m_file].
      rewrite Hf. cbn [from_option id]. replace (a + 9 - a) with 9 by lia.
      replace (Z.of_nat (length (frame t payload ++ extra)) <? 9 + n) with false.
      2:{ symmetry; apply Z.ltb_ge.
          rewrite length_app, Nat2Z.inj_add, frame_length. lia. }
      change (Z.to_nat 9) with 9%nat.
      change (drop 9 (frame t payload ++ extra)) with (payload ++ extra).
      rewrite Hn, Nat2Z.id, take_app_length. reflexivity. }
  unfold bind at 1. rewrite Hload.
  unfold bind at 1. rewrite munmap_bytes_from_shm_eq by assumption.
  rewrite Hmunmap. cbn [files fds maps trace accepted_world].
  replace (a + 9 - 9) with a by lia.
  eexists. split; [reflexivity|]. cbn [files maps].
  split; [reflexivity|]. exists a. split; reflexivity.
Qed.

(** C2.  Composing the buffered write with the copy-out read gives back the
    payload byte for byte, for every element type and every size, zero
    included: whenever [write_bytes_to_shm] returns a file name,
    [read_bytes_from_shm] on that name with the same size and type returns
    the bytes written and removes the file; and the write does return when
    the kernel cooperates. *)
Theorem read_write_roundtrip
        (os1 os2 : OS) (data : list byte) (n : Z) (t : ArrayType) (w : World) :
  n = Z.of_nat (length data) -> n + 9 < 2 ^ 64 ->
  reader_friendly os2 ->
  (forall f w1,
      write_bytes_to_shm os1 data n t w = (Ok f, w1) ->
      exists w2,
        read_bytes_from_shm os2 (Some f) n t w1 = (Ok data, w2)
        /\ files w2 !! f = None)
  /\ (writer_friendly os1 n ->
      exists f w1 w2,
        write_bytes_to_shm os1 data n t w = (Ok f, w1)
        /\ read_bytes_from_shm os2 (Some f) n t w1 = (Ok data, w2)
        /\ files w2 !! f = None).
Proof.
  intros Hn Hmax Hread.
  assert (Hfirst : forall f w1,
             write_bytes_to_shm os1 data n t w = (Ok f, w1) ->
             exists w2,
               read_bytes_from_shm os2 (Some f) n t w1 = (Ok data, w2)
               /\ files w2 !! f = None).
  { intros f w1 Hw.
    destruct (write_bytes_to_shm_ok os1 data n t w f w1 Hn Hmax Hw)
      as (Hcf & Hfiles & Hmaps).
    assert (Hne := create_filename_nonempty os1 f Hcf).
    destruct (read_bytes_from_shm_frame os2 f n t w1 data [] Hne) as
        (w2 & Hr & Hfiles2 & _).
    - rewrite Hfiles, lookup_insert_eq, app_nil_r. reflexivity.
    - assumption.
    - assumption.
    - rewrite app_nil_r, frame_length. lia.
    - assumption.
    - exists w2. split; [assumption|]. rewrite Hfiles2. apply lookup_delete_eq. }
  split; [exact Hfirst|].
  intros Hwrite.
  destruct (write_bytes_to_shm_succeeds os1 data n t w Hn Hmax Hwrite)
    as (f & w1 & Hw).
  destruct (Hfirst f w1 Hw) as (w2 & Hr & Hgone).
  now exists f, w1, w2.
Qed.

Lemma read_write_roundtrip_witness :
  exists f w1 w2,
    write_bytes_to_shm os_example [x01; x00; x00; x01; x00] 5 TYPE_BOOLEAN
                       empty_world = (Ok f, w1)
    /\ read_bytes_from_shm os_example (Some f) 5 TYPE_BOOLEAN w1
       = (Ok [x01; x00; x00; x01; x00], w2)
    /\ files w2 !! f = None.
Proof.
  apply (read_write_roundtrip os_example os_example [x01; x00; x00; x01; x00] 5
                              TYPE_BOOLEAN empty_world).
  - reflexivity.
  - lia.
  - split; [simpl; lia|]. split; [discriminate|]. split; reflexivity.
  - split; [discriminate|]. split; [simpl; lia|]. split; [|reflexivity].
    exists 4096, 1000. split; [reflexivity | vm_compute; discriminate].
Defined.

(** ** What open-and-map checks *)

Lemma mmap_bytes_from_shm_checked os f n t w c p w' :
  f <> ""%string ->
  files w !! f = Some c ->
  Z.of_nat (length c) < 2 ^ 64 ->
  0 <= n -> n + 9 < 2 ^ 64 ->
  mmap_bytes_from_shm os (Some f) n t w = (Ok p, w') ->
  take 8 c = HEADER_BYTES
  /\ c !! 8%nat = Some (char_of_ArrayType t)
  /\ 0 <= os_open os
  /\ exists a, os_mmap os = Some a /\ p = a + 9
               /\ w' = accepted_world os f n a w.
Proof.
  intros Hne Hf Hc H0 H1.
  rewrite (mmap_bytes_from_shm_eq os f n t w c Hne Hf H0 H1 Hc).
  destruct (os_open os <? 0) eqn:Hfd; [discriminate|].
  destruct (Z.of_nat (length c) <? 9) eqn:Hsz; [discriminate|].
  apply Z.ltb_ge in Hfd, Hsz.
  destruct (os_mmap os) as [a|]; [|discriminate].
  destruct (strncmp (take 8 c) HEADER_BYTES 8 =? 0) eqn:Hmagic; [|discriminate].
  destruct (Byte.eqb (hd x00 (drop 8 c)) (char_of_ArrayType t)) eqn:Htag;
    [|discriminate].
  cbn [negb]. intros [= <- <-].
  apply magic_check in Hmagic; [|rewrite length_take; lia].
  apply byte_eqb_eq in Htag.
  split; [assumption|]. split.
  - assert (Hlk : c !! 8%nat = drop 8 c !! 0%nat)
      by (rewrite lookup_drop; f_equal; lia).
    rewrite Hlk, <- Htag. destruct (drop 8 c) eqn:Hd; [|reflexivity].
    apply (f_equal length) in Hd. rewrite length_drop in Hd. cbn in Hd. lia.
  - split; [assumption|]. now exists a.
Qed.


(** C5.  [mmap_bytes_from_shm] turns away, with [io] and before any mmap
    call, every file shorter than [sizeof(HEADER_BYTES) + 1] = 9 bytes; a
    zero-length frame, exactly the 8 magic bytes and the tag, passes the
    check, is mapped, and a zero-length buffered write reads back as the
    empty payload. *)
Theorem mmap_bytes_from_shm_size_check
        (os : OS) (f : string) (n : Z) (t : ArrayType) (w : World)
        (c : list byte) :
  f <> ""%string ->
  files w !! f = Some c ->
  0 <= n -> n + 9 < 2 ^ 64 ->
  (Z.of_nat (length c) < sizeof_HEADER_BYTES + 1 ->
   exists msg w' evs,
     mmap_bytes_from_shm os (Some f) n t w = (Throw (io msg), w')
     /\ maps w' = maps w
     /\ trace w' = evs ++ trace w
     /\ existsb is_mmap evs = false
     /\ (0 <= os_open os ->
         msg = "mmap_bytes_from_shm(): File size is insufficient for reading"%string))
  /\ (c = frame t [] -> n = 0 -> reader_friendly os ->
      Z.of_nat (length c) = 9
      /\ (exists a, os_mmap os = Some a
                    /\ mmap_bytes_from_shm os (Some f) n t w
                       = (Ok (a + 9), accepted_world os f n a w))
      /\ exists w2, read_bytes_from_shm os (Some f) n t w = (Ok [], w2)
                    /\ files w2 !! f = None)
  /\ (forall os1 w0 f1 w1,
         reader_friendly os ->
         write_bytes_to_shm os1 [] 0 t w0 = (Ok f1, w1) ->
         files w1 !! f1 = Some (frame t [])
         /\ exists w2, read_bytes_from_shm os (Some f1) 0 t w1 = (Ok [], w2)
                       /\ files w2 !! f1 = None).
Proof.
  intros Hne Hf H0 H1. split; [|split].
  - change (sizeof_HEADER_BYTES + 1) with 9. intros Hsmall.
    rewrite (mmap_bytes_from_shm_eq os f n t w c Hne Hf H0 H1) by lia.
    destruct (os_open os <? 0) eqn:Hfd.
    + apply Z.ltb_lt in Hfd.
      exists "mmap_bytes_from_shm(): Could not open file for reading"%string,
             (log (EvOpen f false (-1)) w), [EvOpen f false (-1)].
      repeat split; lia.
    + settle (Z.of_nat (length c) <? 9).
      exists "mmap_bytes_from_shm(): File size is insufficient for reading"%string,
             (too_small_world os f w),
             [EvClose (os_open os); EvFstat (os_open os);
              EvOpen f false (os_open os)].
      repeat split.
  - intros -> -> Hread. split; [reflexivity|].
    assert (Hf' : files w !! f = Some (frame t [] ++ []))
      by (now rewrite app_nil_r).
    split.
    + destruct Hread as (Hfd & Hmap & _).
      destruct (os_mmap os) as [a|] eqn:Ha; [|congruence].
      exists a. split; [reflexivity|].
      apply (mmap_bytes_from_shm_frame os f 0 t w [] [] Hne Hf'); try lia.
      * reflexivity.
      * assumption.
    + destruct (read_bytes_from_shm_frame os f 0 t w [] [] Hne Hf')
        as (w2 & Hr & Hfiles & _); try reflexivity; try assumption.
      exists w2. split; [assumption|]. rewrite Hfiles. apply lookup_delete_eq.
  - intros os1 w0 f1 w1 Hread Hw.
    destruct (write_bytes_to_shm_ok os1 [] 0 t w0 f1 w1 eq_refl eq_refl Hw)
      as (Hcf & Hfiles & _).
    assert (Hne1 := create_filename_nonempty os1 f1 Hcf).
    assert (Hf1 : files w1 !! f1 = Some (frame t [] ++ []))
      by (rewrite Hfiles, lookup_insert_eq, app_nil_r; reflexivity).
    split; [now rewrite app_nil_r in Hf1|].
    destruct (read_bytes_from_shm_frame os f1 0 t w1 [] [] Hne1 Hf1)
      as (w2 & Hr & Hfiles2 & _); try reflexivity; try assumption.
    exists w2. split; [assumption|]. rewrite Hfiles2. apply lookup_delete_eq.
Qed.

Lemma mmap_bytes_from_shm_size_check_witness :
  exists msg w' evs,
    mmap_bytes_from_shm os_example (Some frame_file) 5 TYPE_BOOLEAN short_world
    = (Throw (io msg), w')
    /\ maps w' = maps short_world
    /\ trace w' = evs ++ trace short_world
    /\ existsb is_mmap evs = false
    /\ (0 <= os_open os_example ->
        msg = "mmap_bytes_from_shm(): File size is insufficient for reading"%string).
Proof.
  apply (mmap_bytes_from_shm_size_check os_example frame_file 5 TYPE_BOOLEAN
                                        short_world [x01; x02; x03]).
  - discriminate.
  - vm_compute. reflexivity.
  - lia.
  - lia.
  - vm_compute. reflexivity.
Defined.

(** ** Reader and releaser agree on the pointer convention *)

(** C10.  The pointer [mmap_bytes_from_shm] returns is the mapping base plus
    8 (magic) plus 1 (tag); [munmap_bytes_from_shm] with the same size and
    type subtracts the same 9 and unmaps the same length [n + 9], so the
    munmap call names exactly the region of the mmap call, and after it the
    mapping that open-and-map created is gone. *)
Theorem release_unmaps_what_was_mapped
        (os1 os2 : OS) (f : string) (n : Z) (t : ArrayType) (w : World)
        (c : list byte) (p : Z) (w1 : World) :
  f <> ""%string ->
  files w !! f = Some c ->
  Z.of_nat (length c) < 2 ^ 64 ->
  0 <= n -> n + 9 < 2 ^ 64 ->
  mmap_bytes_from_shm os1 (Some f) n t w = (Ok p, w1) ->
  exists base len r ret w2,
    p = base + (sizeof_HEADER_BYTES + sizeof_ArrayType)
    /\ len = n + 9
    /\ trace w1 = EvClose (os_open os1)
                  :: EvMmap len (os_open os1) (Some base)
                  :: EvFstat (os_open os1) :: EvOpen f false (os_open os1)
                  :: trace w
    /\ maps w1 = Mapping base len f false :: maps w
    /\ munmap_bytes_from_shm os2 (Some f) n t p w1 = (r, w2)
    /\ trace w2 = EvUnlink (Some f) :: EvMunmap base len ret :: trace w1
    /\ (os_munmap os2 = true ->
        r = Ok tt /\ ret = 0
        /\ ~ In (Mapping base len f false) (maps w2)
        /\ maps w2 = filter (fun m => same_region base len m = false) (maps w)).
Proof.
  intros Hne Hf Hc H0 H1 Hopen.
  destruct (mmap_bytes_from_shm_checked os1 f n t w c p w1 Hne Hf Hc H0 H1 Hopen)
    as (_ & _ & _ & a & Ha & -> & ->).
  rewrite munmap_bytes_from_shm_eq by assumption.
  replace (a + 9 - 9) with a by lia.
  exists a, (n + 9).
  destruct (os_munmap os2); do 3 eexists;
    (split; [reflexivity|]); (split; [reflexivity|]);
    (split; [reflexivity|]); (split; [reflexivity|]);
    (split; [reflexivity|]); (split; [reflexivity|]);
    [|discriminate].
  intros _. cbn [maps accepted_world].
  assert (Hsame : same_region a (n + 9) (Mapping a (n + 9) f false) = true).
  { unfold same_region. cbn [m_base m_len]. now rewrite !Z.eqb_refl. }
  split; [reflexivity|]. split; [reflexivity|].
  rewrite filter_cons_False by (rewrite Hsame; discriminate).
  split; [|reflexivity].
  intros Hin. apply list_elem_of_In, list_elem_of_filter in Hin as [Hin _].
  rewrite Hsame in Hin. discriminate.
Qed.

Lemma release_unmaps_what_was_mapped_witness :
  exists base len r ret w2,
    65545 = base + (sizeof_HEADER_BYTES + sizeof_ArrayType)
    /\ len = 5 + 9
    /\ trace (snd (mmap_bytes_from_shm os_example (Some frame_file) 5
                                       TYPE_BOOLEAN frame_world))
       = EvClose (os_open os_example)
         :: EvMmap len (os_open os_example) (Some base)
         :: EvFstat (os_open os_example)
         :: EvOpen frame_file false (os_open os_example)
         :: trace frame_world
    /\ maps (snd (mmap_bytes_from_shm os_example (Some frame_file) 5
                                      TYPE_BOOLEAN frame_world))
       = Mapping base len frame_file false :: maps frame_world
    /\ munmap_bytes_from_shm
         os_example (Some frame_file) 5 TYPE_BOOLEAN 65545
         (snd (mmap_bytes_from_shm os_example (Some frame_file) 5
                                   TYPE_BOOLEAN frame_world))
       = (r, w2)
    /\ trace w2
       = EvUnlink (Some frame_file) :: EvMunmap base len ret
         :: trace (snd (mmap_bytes_from_shm os_example (Some frame_file) 5
                                            TYPE_BOOLEAN frame_world))
    /\ (os_munmap os_example = true ->
        r = Ok tt /\ ret = 0
        /\ ~ In (Mapping base len frame_file false) (maps w2)
        /\ maps w2 = filter (fun m => same_region base len m = false)
                            (maps frame_world)).
Proof.
  apply (release_unmaps_what_was_mapped
           os_example os_example frame_file 5 TYPE_BOOLEAN frame_world
           (frame TYPE_BOOLEAN five_booleans)).
  - discriminate.
  - vm_compute. reflexivity.
  - vm_compute. reflexivity.
  - lia.
  - lia.
  - vm_compute. reflexivity.
Defined.

(** ** Mapped write-through *)

Lemma mem_store_head w m rest c addr b :
  maps w = m :: rest ->
  files w !! m_file m = Some c ->
  m_write m = true ->
  m_base m <= addr ->
  addr + Z.of_nat (length b) <= m_base m + m_len m ->
  addr - m_base m + Z.of_nat (length b) <= Z.of_nat (length c) ->
  mem_store addr b w =
  (Ok tt,
   mkWorld (<[m_file m := poke c (Z.to_nat (addr - m_base m)) b]> (files w))
           (fds w) (maps w) (trace w)).
Proof.
  intros Hmaps Hf Hw Hlo Hhi Hlen. unfold mem_store.
  destruct (Z.of_nat (length b) <=? 0) eqn:Hz.
  - apply Z.leb_le in Hz. destruct b; [|cbn [length] in Hz; lia].
    unfold poke. cbn [app length].
    rewrite Nat.add_0_r, take_drop, insert_id by assumption.
    now destruct w.
  - rewrite Hmaps. cbn [find]. unfold covers.
    settle ((m_base m <=? addr)
             && (addr + Z.of_nat (length b) <=? m_base m + m_len m)).
    rewrite Hf, Hw. cbn [from_option id negb orb].
    replace (Z.of_nat (length c) <? addr - m_base m + Z.of_nat (length b))
      with false by (symmetry; apply Z.ltb_ge; lia).
    reflexivity.
Qed.

Lemma poke_mid (a m z b : list byte) (off : nat) :
  off = length a -> length b = length m ->
  poke (a ++ m ++ z) off b = a ++ b ++ z.
Proof.
  intros -> Hb. unfold poke.
  rewrite take_app_length, Hb, drop_app_add, drop_app_length.
  reflexivity.
Qed.

(** Header, tag and payload stored over the stretched file give the frame
    followed by the byte that stretched it. *)
Lemma poke_frame t (payload : list byte) :
  poke (poke (poke (replicate 8 x00 ++ replicate 1 x00
                    ++ replicate (length payload) x00 ++ [x00])
                   0 HEADER_BYTES)
             8 [char_of_ArrayType t])
       9 payload
  = frame t payload ++ [x00].
Proof.
  rewrite (poke_mid [] (replicate 8 x00) _ HEADER_BYTES 0 eq_refl eq_refl
           : poke (replicate 8 x00 ++ _) 0 HEADER_BYTES = HEADER_BYTES ++ _).
  rewrite (poke_mid HEADER_BYTES (replicate 1 x00) _ [char_of_ArrayType t] 8
                    eq_refl eq_refl).
  exact (poke_mid (HEADER_BYTES ++ [char_of_ArrayType t])
                  (replicate (length payload) x00) [x00] payload 9 eq_refl
                  (eq_sym (length_replicate _ _))).
Qed.

Lemma off_t_nonneg z : 0 <= z < 2 ^ 64 -> 0 <= off_t z -> off_t z = z.
Proof.
  intros Hz. unfold off_t, long.
  destruct (Z_lt_le_dec z (2 ^ 63)) as [Hlt|Hge].
  - rewrite Z.mod_small; [lia|]. change (2 ^ 64) with (2 ^ 63 + 2 ^ 63). lia.
  - replace (z + 2 ^ 63) with (z - 2 ^ 63 + 1 * 2 ^ 64)
      by (change (2 ^ 64) with (2 ^ 63 + 2 ^ 63); lia).
    rewrite Z_mod_plus_full, Z.mod_small;
      change (2 ^ 64) with (2 ^ 63 + 2 ^ 63); lia.
Qed.

(** The file the lambda writer stretches: [n + 9] zero bytes from the seek
    and the one zero byte written at the end. *)
Lemma stretched_file n :
  0 <= n ->
  file_write [] (Z.to_nat (n + 9)) [x00]
  = replicate 8 x00 ++ replicate 1 x00 ++ replicate (Z.to_nat n) x00 ++ [x00].
Proof.
  intros H0. unfold file_write. rewrite take_nil, drop_nil, app_nil_r.
  cbn [length app]. rewrite Nat.sub_0_r.
  replace (Z.to_nat (n + 9)) with (8 + (1 + Z.to_nat n))%nat by lia.
  rewrite !replicate_add, <- !app_assoc. reflexivity.
Qed.

Lemma poke_length c off b :
  (off + length b <= length c)%nat -> length (poke c off b) = length c.
Proof.
  intros H. unfold poke. rewrite !length_app, length_take, length_drop. lia.
Qed.

(** Every way a call of the lambda writer can end, for a callback that
    fills the [n] payload bytes. *)
Lemma write_bytes_to_shm_lambda_cases os lambda n t w :
  0 <= n -> n + 9 < 2 ^ 64 ->
  (forall dest, Z.of_nat (length (lambda dest)) = n) ->
  exists r w1,
    write_bytes_to_shm_lambda os lambda n t w = (r, w1)
    /\ match create_filename os with
       | Ok f =>
         if os_open os <? 0 then
           r = Throw (io "open_file_for_write(): Could not open file for writing")
           /\ files w1 = files w /\ maps w1 = maps w
         else
           match os_fstatvfs os with
           | None =>
             r = Throw (io "open_file_for_write(): Could not check file with fstatvfs()")
             /\ files w1 = delete f (files w) /\ maps w1 = maps w
           | Some (f_bsize, f_bavail) =>
             if size_t (size_t f_bsize * size_t f_bavail) <? n + 9 then
               r = Throw (out_of_memory
                            "open_file_for_write(): Insufficient available space in file")
               /\ files w1 = delete f (files w) /\ maps w1 = maps w
             else
               (exists a,
                   os_mmap os = Some a /\ os_munmap os = true /\ r = Ok f
                   /\ files w1 = <[f := frame t (lambda (a + 9)) ++ [x00]]> (files w)
                   /\ maps w1 = filter (fun m => same_region a (n + 9) m = false)
                                       (maps w))
               \/ (exists msg,
                      r = Throw (io msg)
                      /\ files w1 = delete f (files w)
                      /\ (maps w1 = maps w
                          \/ exists a,
                              os_mmap os = Some a /\ os_munmap os = false
                              /\ maps w1 = Mapping a (n + 9) f true :: maps w))
           end
       | Throw e => r = Throw e /\ w1 = w /\ os_gettimeofday os = None
       | Fault => False
       end.
Proof.
  intros H0 Hmax Hfill.
  unfold write_bytes_to_shm_lambda. rewrite frame_bytes by assumption.
  unfold bind at 1. unfold try_catch at 1. unfold lift.
  destruct (create_filename os) as [f|e|] eqn:Hcf.
  2:{ destruct (create_filename_throws os e Hcf) as [Hclock ->].
      do 2 eexists. split; [reflexivity|]. auto. }
  2:{ now apply create_filename_not_fault in Hcf. }
  assert (Hne := create_filename_nonempty os f Hcf).
  unfold bind at 1. unfold try_catch at 1.
  rewrite open_file_for_write_eq by assumption.
  destruct (os_open os <? 0) eqn:Hfd.
  { do 2 eexists. split; [reflexivity|]. auto. }
  destruct (os_fstatvfs os) as [[f_bsize f_bavail]|].
  2:{ do 2 eexists. split; [reflexivity|]. cbn [files maps abandoned].
      rewrite delete_insert_eq. auto. }
  destruct (size_t (size_t f_bsize * size_t f_bavail) <? n + 9).
  { do 2 eexists. split; [reflexivity|]. cbn [files maps abandoned].
    rewrite delete_insert_eq. auto. }
  unfold bind at 1. unfold sys_lseek, opened, log. cbn [files fds maps trace].
  rewrite lookup_insert_eq.
  destruct (os_lseek os && (0 <=? off_t (n + 9))) eqn:Hseek.
  2:{ change (-1 =? -1) with true. cbn iota.
      writer_gives_up. }
  apply andb_true_iff in Hseek as [_ Hoff]. apply Z.leb_le in Hoff.
  rewrite (off_t_nonneg (n + 9)) by (assumption || lia).
  settle (n + 9 =? -1).
  unfold bind at 1. unfold sys_write, log. cbn [files fds maps trace].
  rewrite !lookup_insert_eq. cbn [from_option id].
  set (accepted := match head (os_write os) with
                   | Some a => Z.min a 1
                   | None => 1
                   end).
  clearbody accepted.
  destruct (accepted <? 0) eqn:Hneg.
  { change (-1 =? 1) with false. cbn [negb].
    writer_gives_up. }
  destruct (accepted =? 1) eqn:Hone.
  2:{ cbn [negb]. writer_gives_up. }
  apply Z.eqb_eq in Hone. subst accepted. cbn [negb].
  change (take (Z.to_nat 1) [x00]) with [x00].
  rewrite !insert_insert_eq, stretched_file by assumption.
  unfold bind at 1. unfold sys_fstat, fd_contents, log.
  cbn [files fds maps trace]. rewrite !lookup_insert_eq. cbn [from_option id].
  assert (Hlen : Z.of_nat (length (replicate 8 x00 ++ replicate 1 x00
                                   ++ replicate (Z.to_nat n) x00 ++ [x00]))
                 = n + 9 + 1).
  { rewrite !length_app, !length_replicate. cbn [length]. lia. }
  rewrite Hlen, Z.eqb_refl. cbn [negb].
  unfold bind at 1. unfold sys_mmap, log. cbn [files fds maps trace].
  rewrite lookup_insert_eq.
  destruct (os_mmap os) as [a|].
  2:{ writer_gives_up. }
  settle (n + 9 =? 0).
  unfold bind at 1. unfold sys_close at 1. cbn [files fds maps trace].
  change sizeof_HEADER_BYTES with 8.
  unfold bind at 1.
  rewrite (mem_store_head _ (Mapping a (n + 9) f true) (maps w)
             (replicate 8 x00 ++ replicate 1 x00
              ++ replicate (Z.to_nat n) x00 ++ [x00]) a HEADER_BYTES);
    [ | reflexivity | apply lookup_insert_eq | reflexivity
      | cbn [m_base m_len]; lia
      | cbn [m_base m_len]; change (length HEADER_BYTES) with 8%nat; lia
      | cbn [m_base m_len]; change (length HEADER_BYTES) with 8%nat; lia ].
  cbn [files fds maps trace m_base m_len m_file]. rewrite insert_insert_eq.
  unfold bind at 1.
  erewrite (mem_store_head _ (Mapping a (n + 9) f true) (maps w)
              _ (a + 8) [char_of_ArrayType t]);
    [ | reflexivity | apply lookup_insert_eq | reflexivity
      | cbn [m_base m_len]; lia
      | cbn [m_base m_len length]; lia
      | cbn [m_base m_len length];
        rewrite poke_length, Hlen
          by (rewrite Z.sub_diag; change (length HEADER_BYTES) with 8%nat; lia);
        lia ].
  cbn [files fds maps trace m_base m_len m_file]. rewrite insert_insert_eq.
  unfold bind at 1. unfold call_lambda. unfold bind at 1.
  cbn [files fds maps trace log].
  erewrite (mem_store_head _ (Mapping a (n + 9) f true) (maps w)
              _ (a + 8 + 1) (lambda (a + 8 + 1)));
    [ | reflexivity | apply lookup_insert_eq | reflexivity
      | cbn [m_base m_len]; lia
      | cbn [m_base m_len]; rewrite Hfill; lia
      | cbn [m_base m_len]; rewrite Hfill, !poke_length, Hlen;
        rewrite ?poke_length;
        change (length HEADER_BYTES) with 8%nat; cbn [length]; lia ].
  unfold log. cbn [files fds maps trace m_base m_len m_file].
  rewrite insert_insert_eq.
  rewrite Z.sub_diag. replace (a + 8 - a) with 8 by lia.
  replace (a + 8 + 1 - a) with 9 by lia. replace (a + 8 + 1) with (a + 9) by lia.
  change (Z.to_nat 0) with 0%nat. change (Z.to_nat 8) with 8%nat.
  change (Z.to_nat 9) with 9%nat.
  replace (Z.to_nat n) with (length (lambda (a + 9)))
    by (rewrite <- (Hfill (a + 9)); symmetry; apply Nat2Z.id).
  rewrite poke_frame.
  unfold bind at 1. unfold sys_munmap, log. cbn [files fds maps trace].
  destruct (os_munmap os).
  - change (0 =? -1) with false. cbn iota. do 2 eexists.
    split; [reflexivity|]. left. exists a. cbn [files maps].
    repeat (split; [reflexivity|]).
    rewrite filter_cons_False; [reflexivity|].
    unfold same_region. cbn [m_base m_len]. rewrite !Z.eqb_refl. discriminate.
  - change (-1 =? -1) with true. cbn iota. do 2 eexists.
    split; [reflexivity|]. right. eexists. split; [reflexivity|].
    cbn [files maps]. rewrite delete_insert_eq. split; [reflexivity|].
    right. exists a. auto.
Qed.

Lemma write_bytes_to_shm_lambda_ok os lambda n t w f w1 :
  0 <= n -> n + 9 < 2 ^ 64 ->
  (forall dest, Z.of_nat (length (lambda dest)) = n) ->
  write_bytes_to_shm_lambda os lambda n t w = (Ok f, w1) ->
  create_filename os = Ok f
  /\ exists a,
      os_mmap os = Some a
      /\ files w1 = <[f := frame t (lambda (a + 9)) ++ [x00]]> (files w)
      /\ maps w1 = filter (fun m => same_region a (n + 9) m = false) (maps w).
Proof.
  intros H0 Hmax Hfill Hw.
  destruct (write_bytes_to_shm_lambda_cases os lambda n t w H0 Hmax Hfill)
    as (r & w1' & Hrun & Hcases).
  rewrite Hw in Hrun. injection Hrun as <- <-.
  destruct (create_filename os) as [f'|e|]; [|now destruct Hcases|easy].
  destruct (os_open os <? 0); [now destruct Hcases|].
  destruct (os_fstatvfs os) as [[f_bsize f_bavail]|]; [|now destruct Hcases].
  destruct (size_t (size_t f_bsize * size_t f_bavail) <? n + 9);
    [now destruct Hcases|].
  destruct Hcases as [(a & Ha & _ & [= ->] & Hfiles & Hmaps)|(msg & [=] & _)].
  split; [reflexivity|]. now exists a.
Qed.

(** ** Frame layout of the two writers *)

(** C1, as stated, fails for the lambda writer: the file it publishes for a
    5-byte payload is 15 bytes long, not 9 + 5. *)
Lemma lambda_writer_file_size_counterexample :
  exists w1 c,
    write_bytes_to_shm_lambda os_example (fun _ => five_booleans) 5
                              TYPE_BOOLEAN empty_world = (Ok frame_file, w1)
    /\ files w1 !! frame_file = Some c
    /\ Z.of_nat (length c) = 15
    /\ Z.of_nat (length c) <> 9 + Z.of_nat (length five_booleans).
Proof.
  eexists. eexists. split; [vm_compute; reflexivity|].
  split; [vm_compute; reflexivity|]. split; [reflexivity|]. discriminate.
Qed.

(** C1, amended.  A successful buffered write leaves exactly the frame:
    8 magic bytes, the tag, the [n] payload bytes, [9 + n] bytes in all.  A
    successful lambda write leaves the same frame followed by the one zero
    byte that stretched the file, [10 + n] bytes in all, so the first
    [9 + n] bytes of the two files have the same layout. *)
Theorem writers_frame_layout
        (os : OS) (data : list byte) (lambda : Z -> list byte) (n : Z)
        (t : ArrayType) (w : World) :
  n = Z.of_nat (length data) -> n + 9 < 2 ^ 64 ->
  (forall dest, Z.of_nat (length (lambda dest)) = n) ->
  (forall f w1,
      write_bytes_to_shm os data n t w = (Ok f, w1) ->
      files w1 !! f = Some (frame t data)
      /\ Z.of_nat (length (frame t data)) = 9 + n)
  /\ (forall f w1,
         write_bytes_to_shm_lambda os lambda n t w = (Ok f, w1) ->
         exists a c,
           os_mmap os = Some a
           /\ files w1 !! f = Some c
           /\ c = frame t (lambda (a + 9)) ++ [x00]
           /\ Z.of_nat (length c) = 10 + n
           /\ take (Z.to_nat (9 + n)) c = frame t (lambda (a + 9))).
Proof.
  intros Hn Hmax Hfill. split.
  - intros f w1 Hw.
    destruct (write_bytes_to_shm_ok os data n t w f w1 Hn Hmax Hw)
      as (_ & Hfiles & _).
    rewrite Hfiles, lookup_insert_eq, frame_length. split; [reflexivity|lia].
  - intros f w1 Hw.
    destruct (write_bytes_to_shm_lambda_ok os lambda n t w f w1
                ltac:(lia) Hmax Hfill Hw) as (_ & a & Ha & Hfiles & _).
    exists a, (frame t (lambda (a + 9)) ++ [x00]).
    split; [assumption|]. rewrite Hfiles, lookup_insert_eq.
    split; [reflexivity|]. split; [reflexivity|].
    assert (Hlen := frame_length t (lambda (a + 9))). rewrite Hfill in Hlen.
    split.
    + rewrite length_app, Nat2Z.inj_add, Hlen. cbn [length]. lia.
    + apply take_app_length'. lia.
Qed.

Lemma writers_frame_layout_witness :
  files (snd (write_bytes_to_shm os_example five_booleans 5 TYPE_BOOLEAN
                                 empty_world)) !! frame_file
  = Some (frame TYPE_BOOLEAN five_booleans)
  /\ Z.of_nat (length (frame TYPE_BOOLEAN five_booleans)) = 9 + 5.
Proof.
  apply (proj1 (writers_frame_layout os_example five_booleans
                                     (fun _ => five_booleans) 5 TYPE_BOOLEAN
                                     empty_world eq_refl eq_refl
                                     (fun _ => eq_refl))).
  vm_compute. reflexivity.
Defined.

(** ** Type discrimination *)




(** ** Empty or missing file names *)

(** C7, as stated, fails for open-and-map: an empty file name does not
    raise [illegal_argument]. *)
Lemma empty_handle_counterexample :
  ~ (exists msg,
        fst (mmap_bytes_from_shm os_example (Some ""%string) 5 TYPE_BOOLEAN
                                 empty_world)
        = Throw (illegal_argument msg))
  /\ ~ (exists msg,
           fst (read_bytes_from_shm os_example None 5 TYPE_BOOLEAN empty_world)
           = Throw (illegal_argument msg)).
Proof. split; intros [msg H]; vm_compute in H; discriminate H. Qed.

(** C7, amended.  [open_file_for_write] raises [illegal_argument] on an
    empty file name; the writers hand it a generated name, which is never
    empty, so the only [illegal_argument] they raise is the clock error of
    [create_filename]; [mmap_bytes_from_shm] and [read_bytes_from_shm] given
    an empty or NULL file name raise [io], without touching the system. *)
Theorem empty_handle_errors
        (os : OS) (data : list byte) (lambda : Z -> list byte) (n : Z)
        (t : ArrayType) (w : World) :
  n = Z.of_nat (length data) -> n + 9 < 2 ^ 64 ->
  (forall dest, Z.of_nat (length (lambda dest)) = n) ->
  (forall bytes_to_write,
      open_file_for_write os "" bytes_to_write w
      = (Throw (illegal_argument "open_file_for_write(): Empty filename received"),
         w))
  /\ (forall f, create_filename os = Ok f -> f <> ""%string)
  /\ (forall msg w1,
         write_bytes_to_shm os data n t w = (Throw (illegal_argument msg), w1)
         \/ write_bytes_to_shm_lambda os lambda n t w
            = (Throw (illegal_argument msg), w1) ->
         os_gettimeofday os = None
         /\ msg = "create_filename(): Error in ::gettimeofday()"%string)
  /\ (forall file,
         file = None \/ file = Some ""%string ->
         mmap_bytes_from_shm os file n t w
         = (Throw (io "mmap_bytes_from_shm(): Empty filename received"), w)
         /\ read_bytes_from_shm os file n t w
            = (Throw (io "mmap_bytes_from_shm(): Empty filename received"), w)).
Proof.
  intros Hn Hmax Hfill. split; [reflexivity|].
  split; [apply create_filename_nonempty|]. split.
  - intros msg w1 Hw.
    assert (Hcf : create_filename os = Throw (illegal_argument msg)).
    { destruct Hw as [Hw|Hw].
      - destruct (write_bytes_to_shm_cases os data n t w Hn Hmax)
          as (r & w1' & Hrun & _ & Hcases).
        rewrite Hw in Hrun. injection Hrun as <- <-.
        destruct (create_filename os) as [f|e|]; [|now destruct Hcases|easy].
        destruct (os_open os <? 0); [now destruct Hcases|].
        destruct (os_fstatvfs os) as [[f_bsize f_bavail]|];
          [|now destruct Hcases].
        destruct (size_t (size_t f_bsize * size_t f_bavail) <? n + 9);
          [now destruct Hcases|].
        now destruct Hcases as [[[=] _]|(msg' & [=] & _)].
      - destruct (write_bytes_to_shm_lambda_cases os lambda n t w
                    ltac:(lia) Hmax Hfill) as (r & w1' & Hrun & Hcases).
        rewrite Hw in Hrun. injection Hrun as <- <-.
        destruct (create_filename os) as [f|e|]; [|now destruct Hcases|easy].
        destruct (os_open os <? 0); [now destruct Hcases|].
        destruct (os_fstatvfs os) as [[f_bsize f_bavail]|];
          [|now destruct Hcases].
        destruct (size_t (size_t f_bsize * size_t f_bavail) <? n + 9);
          [now destruct Hcases|].
        now destruct Hcases as [(a & _ & _ & [=] & _)|(msg' & [=] & _)]. }
    destruct (create_filename_throws os _ Hcf) as [Hclock [= ->]].
    now split.
  - intros file [-> | ->]; split; reflexivity.
Qed.

Lemma empty_handle_errors_witness :
  os_gettimeofday os_no_clock = None
  /\ "create_filename(): Error in ::gettimeofday()"%string
     = "create_filename(): Error in ::gettimeofday()"%string.
Proof.
  apply (proj1 (proj2 (proj2 (empty_handle_errors
                                os_no_clock five_booleans
                                (fun _ => five_booleans) 5 TYPE_BOOLEAN
                                empty_world eq_refl eq_refl
                                (fun _ => eq_refl))))
               "create_filename(): Error in ::gettimeofday()"%string
               empty_world).
  left. vm_compute. reflexivity.
Defined.

(** ** Cleanup on failure *)

(** C4, as stated, fails: the too-small rejection leaves the file in place,
    and the failed allocation of the copy-out read, like a tag mismatch,
    leaves the mapping active. *)
Lemma failure_cleanup_counterexample :
  (exists msg w1,
      mmap_bytes_from_shm os_example (Some frame_file) 5 TYPE_BOOLEAN
                          short_world = (Throw (io msg), w1)
      /\ files w1 !! frame_file = Some [x01; x02; x03])
  /\ (exists msg w1,
         read_bytes_from_shm os_no_malloc (Some frame_file) 5 TYPE_BOOLEAN
                             frame_world = (Throw (io msg), w1)
         /\ maps frame_world = []
         /\ maps w1 = [Mapping 65536 14 frame_file false])
  /\ (exists msg w1,
         mmap_bytes_from_shm os_example (Some frame_file) 5 TYPE_INTEGER
                             frame_world = (Throw (io msg), w1)
         /\ maps w1 = [Mapping 65536 14 frame_file false]).
Proof.
  split; [|split]; do 2 eexists; (split; [vm_compute; reflexivity|]);
    repeat split; vm_compute; reflexivity.
Qed.

(** C4, amended.  Whenever a writer raises [io] after the file was created,
    the file is deleted before the exception propagates; the buffered writer
    has no mapping, and the lambda writer leaves one only when munmap itself
    failed.  Whenever [mmap_bytes_from_shm] raises [io] on a file that passed
    the size check (mmap failure, magic mismatch, tag mismatch), and when the
    allocation of [read_bytes_from_shm] fails, the file is deleted and the
    descriptor closed, but a mapping that was created stays: these paths do
    not unmap. *)
Theorem failure_cleanup
        (os : OS) (data : list byte) (lambda : Z -> list byte) (n : Z)
        (t : ArrayType) (w : World) :
  n = Z.of_nat (length data) -> n + 9 < 2 ^ 64 ->
  (forall dest, Z.of_nat (length (lambda dest)) = n) ->
  0 <= os_open os ->
  (forall msg w1,
      write_bytes_to_shm os data n t w = (Throw (io msg), w1) ->
      maps w1 = maps w
      /\ exists f, create_filename os = Ok f /\ files w1 = delete f (files w))
  /\ (forall msg w1,
         write_bytes_to_shm_lambda os lambda n t w = (Throw (io msg), w1) ->
         exists f,
           create_filename os = Ok f /\ files w1 = delete f (files w)
           /\ (maps w1 = maps w
               \/ exists a, os_mmap os = Some a /\ os_munmap os = false
                            /\ maps w1 = Mapping a (n + 9) f true :: maps w))
  /\ (forall f c msg w1,
         f <> ""%string ->
         files w !! f = Some c ->
         9 <= Z.of_nat (length c) < 2 ^ 64 ->
         mmap_bytes_from_shm os (Some f) n t w = (Throw (io msg), w1) ->
         files w1 = delete f (files w)
         /\ fds w1 !! os_open os = None
         /\ (os_mmap os = None /\ maps w1 = maps w
             \/ exists a, os_mmap os = Some a
                          /\ maps w1 = Mapping a (n + 9) f false :: maps w))
  /\ (forall f p w1,
         mmap_bytes_from_shm os (Some f) n t w = (Ok p, w1) ->
         os_malloc os = false ->
         exists w2,
           read_bytes_from_shm os (Some f) n t w
           = (Throw (io "read_bytes_from_shm(): malloc() failed"), w2)
           /\ files w2 = delete f (files w1)
           /\ maps w2 = maps w1).
Proof.
  intros Hn Hmax Hfill Hfd.
  assert (Hfd' : (os_open os <? 0) = false) by (apply Z.ltb_ge; lia).
  split; [|split; [|split]].
  - intros msg w1 Hw.
    destruct (write_bytes_to_shm_cases os data n t w Hn Hmax)
      as (r & w1' & Hrun & Hmaps & Hcases).
    rewrite Hw in Hrun. injection Hrun as <- <-. split; [assumption|].
    rewrite Hfd' in Hcases.
    destruct (create_filename os) as [f|e|] eqn:Hcf; [| |easy].
    2:{ exfalso. destruct Hcases as ([= <-] & _).
        apply create_filename_throws in Hcf as [_ Hcf]. discriminate Hcf. }
    exists f. split; [reflexivity|].
    destruct (os_fstatvfs os) as [[f_bsize f_bavail]|]; [|now destruct Hcases].
    destruct (size_t (size_t f_bsize * size_t f_bavail) <? n + 9);
      [now destruct Hcases|].
    now destruct Hcases as [[[=] _]|(msg' & _ & Hfiles & _)].
  - intros msg w1 Hw.
    destruct (write_bytes_to_shm_lambda_cases os lambda n t w
                ltac:(lia) Hmax Hfill) as (r & w1' & Hrun & Hcases).
    rewrite Hw in Hrun. injection Hrun as <- <-.
    rewrite Hfd' in Hcases.
    destruct (create_filename os) as [f|e|] eqn:Hcf; [| |easy].
    2:{ exfalso. destruct Hcases as ([= <-] & _).
        apply create_filename_throws in Hcf as [_ Hcf]. discriminate Hcf. }
    exists f. split; [reflexivity|].
    destruct (os_fstatvfs os) as [[f_bsize f_bavail]|].
    2:{ destruct Hcases as (_ & Hfiles & Hmaps). auto. }
    destruct (size_t (size_t f_bsize * size_t f_bavail) <? n + 9).
    { now destruct Hcases as ([=] & _). }
    destruct Hcases as [(a & _ & _ & [=] & _)|(msg' & _ & Hfiles & Hmaps)].
    auto.
  - intros f c msg w1 Hne Hf [Hc9 Hc].
    rewrite (mmap_bytes_from_shm_eq os f n t w c Hne Hf ltac:(lia) Hmax Hc).
    rewrite Hfd'.
    settle (Z.of_nat (length c) <? 9).
    destruct (os_mmap os) as [a|].
    + destruct (negb (strncmp (take 8 c) HEADER_BYTES 8 =? 0)).
      * intros [= <- <-]. cbn [files fds maps rejected_world].
        split; [reflexivity|]. split; [apply lookup_delete_eq|].
        right. now exists a.
      * destruct (negb (Byte.eqb (hd x00 (drop 8 c)) (char_of_ArrayType t)));
          [|discriminate].
        intros [= <- <-]. cbn [files fds maps rejected_world].
        split; [reflexivity|]. split; [apply lookup_delete_eq|].
        right. now exists a.
    + intros [= <- <-]. cbn [files fds maps unmappable_world].
      split; [reflexivity|]. split; [apply lookup_delete_eq|]. now left.
  - intros f p w1 Hopen Hmalloc. unfold read_bytes_from_shm.
    unfold bind at 1. rewrite Hopen.
    unfold bind at 1. unfold sys_malloc, log. rewrite Hmalloc. cbn [negb].
    eexists. split; [reflexivity|]. split; reflexivity.
Qed.

Lemma failure_cleanup_witness :
  exists w2,
    read_bytes_from_shm os_no_malloc (Some frame_file) 5 TYPE_BOOLEAN frame_world
    = (Throw (io "read_bytes_from_shm(): malloc() failed"), w2)
    /\ files w2
       = delete frame_file
                (files (snd (mmap_bytes_from_shm os_no_malloc (Some frame_file)
                                                 5 TYPE_BOOLEAN frame_world)))
    /\ maps w2
       = maps (snd (mmap_bytes_from_shm os_no_malloc (Some frame_file)
                                        5 TYPE_BOOLEAN frame_world)).
Proof.
  apply (proj2 (proj2 (proj2 (failure_cleanup
                                os_no_malloc five_booleans
                                (fun _ => five_booleans) 5 TYPE_BOOLEAN
                                frame_world eq_refl eq_refl (fun _ => eq_refl)
                                ltac:(simpl; lia))))
               frame_file 65545).
  - vm_compute. reflexivity.
  - reflexivity.
Defined.
(** ** Element-type tags *)

(** X1.  [char_to_array_type] decodes what the cast [char(type)] encodes:
    every element type comes back from its own character; a character that
    decodes to a known type is the character of that type; and exactly the
    characters other than ['z' 'b' 's' 'i' 'j' 'f' 'd'] decode to
    [UNKNOWN]. *)
Theorem char_to_array_type_roundtrip :
  (forall t, char_to_array_type (char_of_ArrayType t) = t)
  /\ (forall c, char_to_array_type c <> UNKNOWN ->
                char_of_ArrayType (char_to_array_type c) = c)
  /\ (forall c, char_to_array_type c = UNKNOWN <->
                ~ In c ["z"; "b"; "s"; "i"; "j"; "f"; "d"]%byte).
Proof.
  split; [|split].
  - now destruct t.
  - intros c. destruct c; cbn; congruence.
  - intros c. destruct c; cbn; split; intros H; try reflexivity;
      try discriminate H; try (exfalso; apply H; tauto);
      intros Hin; repeat (destruct Hin as [Hin|Hin]; [discriminate Hin|]);
      exact Hin.
Qed.

Lemma char_to_array_type_roundtrip_witness :
  char_of_ArrayType (char_to_array_type "j"%byte) = "j"%byte.
Proof.
  apply (proj1 (proj2 char_to_array_type_roundtrip) "j"%byte).
  vm_compute. discriminate.
Defined.

(** ** Generated names tell their ingredients apart *)

Lemma no_dot_app a b : no_dot (a ++ b) = no_dot a && no_dot b.
Proof.
  induction a as [|c a IH]; [reflexivity|].
  change (no_dot (String c (a ++ b))
          = (negb (Ascii.eqb c ".") && no_dot a) && no_dot b)%string.
  cbn [no_dot]. rewrite IH. now rewrite andb_assoc.
Qed.

Lemma no_dot_uint d : no_dot (NilEmpty.string_of_uint d) = true.
Proof. induction d; cbn [NilEmpty.string_of_uint no_dot]; auto. Qed.

Lemma no_dot_to_string z : no_dot (to_string z) = true.
Proof.
  unfold to_string. destruct (Z.to_int z) as [d|d]; cbn [NilZero.string_of_int].
  - destruct d; try apply no_dot_uint. reflexivity.
  - change (no_dot (NilZero.string_of_uint d) = true).
    destruct d; try apply no_dot_uint. reflexivity.
Qed.

Lemma to_string_inj a b : to_string a = to_string b -> a = b.
Proof.
  unfold to_string. intros H. apply to_int_inj.
  assert (Hnil : forall z, Z.to_int z <> Decimal.Pos Decimal.Nil
                           /\ Z.to_int z <> Decimal.Neg Decimal.Nil).
  { intros z. destruct z as [|p|p]; cbn; split; try discriminate;
      intros [= Hp]; now apply Unsigned.to_uint_nonnil in Hp. }
  destruct (Hnil a) as [Ha1 Ha2]. destruct (Hnil b) as [Hb1 Hb2].
  assert (Hsome : Some (Z.to_int a) = Some (Z.to_int b)).
  { rewrite <- (NilZero.isi _ Ha1 Ha2), <- (NilZero.isi _ Hb1 Hb2).
    now rewrite H. }
  now injection Hsome.
Qed.

(** Two texts without a dot, each followed by a dot and a rest, are equal
    only part by part. *)
Lemma dotted_inj a a' r r' :
  no_dot a = true -> no_dot a' = true ->
  (a ++ "." ++ r = a' ++ "." ++ r')%string -> a = a' /\ r = r'.
Proof.
  revert a'. induction a as [|c a IH]; intros a' Ha Ha' H.
  - destruct a' as [|c' a']; [now injection H|].
    injection H as <- _. cbn in Ha'. discriminate Ha'.
  - destruct a' as [|c' a'].
    + injection H as -> _. cbn in Ha. discriminate Ha.
    + injection H as <- H. cbn [no_dot] in Ha, Ha'.
      apply andb_true_iff in Ha as [_ Ha]. apply andb_true_iff in Ha' as [_ Ha'].
      destruct (IH a' Ha Ha' H) as [-> ->]. now split.
Qed.

Lemma create_filename_shape os f :
  create_filename os = Ok f ->
  exists time,
    filename_time os = Some time
    /\ f = (base_dir ++ to_string time ++ "." ++ to_string (os_gettid os)
            ++ "." ++ to_string (os_rand os))%string.
Proof.
  unfold create_filename, filename_time.
  destruct (os_gettimeofday os) as [[sec usec]|]; [|discriminate].
  intros [= <-]. eexists. split; [reflexivity|].
  unfold base_dir. now rewrite <- !string_app_assoc.
Qed.

(** X2.  A generated name lies in [/dev/shm/] (what the test harness checks
    on one name) and determines the timestamp, the thread id and the random
    number it was made from: two calls of [create_filename] return the same
    name only if all three agree. *)
Theorem create_filename_injective (os1 os2 : OS) (f : string) :
  create_filename os1 = Ok f ->
  create_filename os2 = Ok f ->
  String.prefix "/dev/shm" f = true
  /\ filename_time os1 = filename_time os2
  /\ os_gettid os1 = os_gettid os2
  /\ os_rand os1 = os_rand os2.
Proof.
  intros H1 H2.
  destruct (create_filename_shape os1 f H1) as (t1 & Ht1 & Hf1).
  destruct (create_filename_shape os2 f H2) as (t2 & Ht2 & Hf2).
  split.
  - rewrite Hf1. reflexivity.
  - rewrite Hf1 in Hf2. unfold base_dir in Hf2.
    apply (inj (String.app "/dev/shm/")) in Hf2.
    apply dotted_inj in Hf2 as [Ht Hrest]; try apply no_dot_to_string.
    apply dotted_inj in Hrest as [Hd Hr]; try apply no_dot_to_string.
    apply to_string_inj in Ht, Hd, Hr. rewrite Ht1, Ht2. now subst.
Qed.

Lemma create_filename_injective_witness :
  String.prefix "/dev/shm" frame_file = true
  /\ filename_time os_example = filename_time os_full
  /\ os_gettid os_example = os_gettid os_full
  /\ os_rand os_example = os_rand os_full.
Proof.
  apply (create_filename_injective os_example os_full frame_file);
    vm_compute; reflexivity.
Defined.

(** ** The buffered writer under short and failing writes *)

Lemma accepted_bytes_bounds ans count :
  0 <= count -> 0 <= accepted_bytes ans count <= count.
Proof.
  intros H. unfold accepted_bytes. destruct ans as [a|]; [|lia].
  destruct (a <? 0) eqn:Ha; [lia|]. apply Z.ltb_ge in Ha. lia.
Qed.

Lemma loop_progress_bounds n answers :
  forall position, 0 <= position <= n ->
                   position <= loop_progress n position answers <= n.
Proof.
  induction answers as [|a answers IH]; intros position Hpos;
    cbn [loop_progress]; destruct (position <? n) eqn:Hlt; try lia.
  apply Z.ltb_lt in Hlt. destruct (a <? 0) eqn:Ha; [lia|].
  apply Z.ltb_ge in Ha.
  specialize (IH (position + Z.min a (n - position)) ltac:(lia)). lia.
Qed.

(** A loop whose writes never fail runs to the end of the payload. *)
Lemma loop_progress_complete n answers :
  Forall (fun a => 0 <= a) answers ->
  forall position, 0 <= position <= n -> loop_progress n position answers = n.
Proof.
  induction 1 as [|a answers Ha _ IH]; intros position Hpos;
    cbn [loop_progress]; destruct (position <? n) eqn:Hlt;
    try reflexivity; try (apply Z.ltb_ge in Hlt; lia).
  settle (a <? 0). apply IH. apply Z.ltb_lt in Hlt. lia.
Qed.

Section AppendingExactly.

Variables (f : string) (fd : Z) (w0 : World).

Lemma sys_write_appending_exact c w buf count ans :
  appending f fd c w0 w ->
  Z.of_nat (length buf) = count ->
  exists r w',
    sys_write fd buf count ans w = (Ok r, w')
    /\ appending f fd (c ++ take (Z.to_nat (accepted_bytes ans count)) buf) w0 w'
    /\ (r < 0 -> exists a, ans = Some a /\ a < 0)
    /\ (0 <= r -> r = accepted_bytes ans count).
Proof.
  intros (Hfiles & Hfds & Hmaps) Hcount. unfold sys_write.
  rewrite Hfds, lookup_insert_eq.
  assert (H0 : 0 <= count) by lia.
  destruct ans as [a|]; cbn [accepted_bytes].
  - destruct (a <? 0) eqn:Ha.
    + apply Z.ltb_lt in Ha. settle (Z.min a count <? 0).
      do 2 eexists. split; [reflexivity|]. split.
      * change (Z.to_nat 0) with 0%nat. rewrite take_0, app_nil_r.
        repeat split; assumption.
      * split; [intros _; now exists a | lia].
    + apply Z.ltb_ge in Ha. settle (Z.min a count <? 0).
      do 2 eexists. split; [reflexivity|]. split.
      * unfold appending. cbn [files fds maps].
        rewrite Hfiles, lookup_insert_eq. cbn [from_option id].
        rewrite Nat2Z.id, file_write_end, !insert_insert_eq.
        repeat split; [|assumption].
        rewrite length_app, length_take. do 3 f_equal. lia.
      * split; [lia | reflexivity].
  - settle (count <? 0). do 2 eexists. split; [reflexivity|]. split.
    + unfold appending. cbn [files fds maps].
      rewrite Hfiles, lookup_insert_eq. cbn [from_option id].
      rewrite Nat2Z.id, file_write_end, !insert_insert_eq.
      repeat split; [|assumption].
      rewrite length_app, length_take. do 3 f_equal. lia.
    + split; [lia | reflexivity].
Qed.

Lemma write_loop_exact pre data n answers :
  n = Z.of_nat (length data) -> n < 2 ^ 64 ->
  forall position w,
    0 <= position <= n ->
    appending f fd (pre ++ take (Z.to_nat position) data) w0 w ->
    exists w',
      write_loop fd data n position answers w = (Ok tt, w')
      /\ appending f fd
           (pre ++ take (Z.to_nat (loop_progress n position answers)) data)
           w0 w'.
Proof.
  intros Hn Hmax. induction answers as [|a answers IH];
    intros position w Hpos Happ; cbn [write_loop loop_progress];
    destruct (position <? n) eqn:Hlt;
    try (exists w; split; [reflexivity | assumption]).
  - apply Z.ltb_lt in Hlt. rewrite size_t_small by lia.
    destruct (sys_write_appending_exact _ w (drop (Z.to_nat position) data)
                (n - position) None Happ)
      as (r & w' & Hw & Happ' & _ & _); [rewrite length_drop; lia|].
    unfold bind. rewrite Hw. exists w'. split; [reflexivity|].
    cbn [accepted_bytes] in Happ'.
    rewrite <- app_assoc, take_take_drop in Happ'.
    replace (Z.to_nat n) with (Z.to_nat position + Z.to_nat (n - position))%nat
      by lia.
    exact Happ'.
  - apply Z.ltb_lt in Hlt. rewrite size_t_small by lia.
    destruct (sys_write_appending_exact _ w (drop (Z.to_nat position) data)
                (n - position) (Some a) Happ)
      as (r & w' & Hw & Happ' & Hneg & Hpos'); [rewrite length_drop; lia|].
    unfold bind. rewrite Hw. cbn [accepted_bytes] in Happ', Hpos'.
    rewrite <- app_assoc, take_take_drop in Happ'.
    destruct (a <? 0) eqn:Ha.
    + apply Z.ltb_lt in Ha.
      assert (Hr : r < 0).
      { unfold sys_write in Hw. destruct Happ as (_ & Hfds & _).
        rewrite Hfds, lookup_insert_eq in Hw. cbn in Hw.
        settle (Z.min a (n - position) <? 0) in Hw. injection Hw as <- _. lia. }
      settle (r <? 0). exists w'. split; [reflexivity|].
      change (Z.to_nat 0) with 0%nat in Happ'. now rewrite Nat.add_0_r in Happ'.
    + apply Z.ltb_ge in Ha.
      assert (Hr : 0 <= r).
      { destruct (Z_lt_le_dec r 0) as [Hr|Hr]; [|assumption].
        destruct (Hneg Hr) as (a' & [= <-] & Ha'). lia. }
      rewrite (Hpos' Hr). settle (Z.min a (n - position) <? 0).
      rewrite size_t_small by lia.
      destruct (IH (position + Z.min a (n - position)) w') as (w'' & Hloop & Happ'').
      { lia. }
      { replace (Z.to_nat (position + Z.min a (n - position)))
          with (Z.to_nat position + Z.to_nat (Z.min a (n - position)))%nat by lia.
        exact Happ'. }
      exists w''. split; assumption.
Qed.

End AppendingExactly.

(** The outcome of the buffered writer once the file is open, read off the
    kernel's answers to its writes. *)
Lemma write_bytes_to_shm_run os data n t w f f_bsize f_bavail :
  n = Z.of_nat (length data) -> n + 9 < 2 ^ 64 ->
  create_filename os = Ok f ->
  0 <= os_open os ->
  os_fstatvfs os = Some (f_bsize, f_bavail) ->
  n + 9 <= size_t (size_t f_bsize * size_t f_bavail) ->
  exists r w1,
    write_bytes_to_shm os data n t w = (r, w1)
    /\ maps w1 = maps w
    /\ fds w1 = delete (os_open os) (fds w)
    /\ if (accepted_bytes (head (os_write os)) 8 =? 8)
          && (accepted_bytes (head (tail (os_write os))) 1 =? 1)
          && (loop_progress n 0 (tail (tail (os_write os))) =? n)
       then r = Ok f /\ files w1 = <[f := frame t data]> (files w)
       else (exists msg, r = Throw (io msg)) /\ files w1 = delete f (files w).
Proof.
  intros Hn Hmax Hcf Hfd Hvfs Hfree. assert (H0 : 0 <= n) by lia.
  unfold write_bytes_to_shm. rewrite frame_bytes by assumption.
  unfold bind at 1. unfold try_catch at 1. unfold lift. rewrite Hcf.
  assert (Hne := create_filename_nonempty os f Hcf).
  unfold bind at 1. unfold try_catch at 1.
  rewrite open_file_for_write_eq by assumption.
  settle (os_open os <? 0). rewrite Hvfs.
  settle (size_t (size_t f_bsize * size_t f_bavail) <? n + 9).
  change sizeof_HEADER_BYTES with 8.
  set (k1 := accepted_bytes (head (os_write os)) 8).
  set (k2 := accepted_bytes (head (tail (os_write os))) 1).
  set (p := loop_progress n 0 (tail (tail (os_write os)))).
  assert (Hk1 : 0 <= k1 <= 8) by (apply accepted_bytes_bounds; lia).
  assert (Hk2 : 0 <= k2 <= 1) by (apply accepted_bytes_bounds; lia).
  assert (Hp : 0 <= p <= n) by (apply loop_progress_bounds; lia).
  destruct (sys_write_appending_exact f (os_open os) w [] (opened os f w)
              HEADER_BYTES 8 (head (os_write os)) (appending_opened os f w)
              eq_refl)
    as (r1 & w2 & Hw1 & Happ1 & _).
  unfold bind at 1. rewrite Hw1.
  destruct (sys_write_appending_exact f (os_open os) w _ w2
              [char_of_ArrayType t] 1 (head (tail (os_write os))) Happ1
              eq_refl)
    as (r2 & w3 & Hw2 & Happ2 & _).
  unfold bind at 1. rewrite Hw2.
  fold k1 in Happ1, Happ2. fold k2 in Happ2.
  destruct (write_loop_exact f (os_open os) w
              (([] ++ take (Z.to_nat k1) HEADER_BYTES)
                 ++ take (Z.to_nat k2) [char_of_ArrayType t])
              data n (tail (tail (os_write os))) Hn ltac:(lia) 0 w3)
    as (w4 & Hloop & Happ3).
  { lia. }
  { change (Z.to_nat 0) with 0%nat. rewrite take_0, app_nil_r. exact Happ2. }
  unfold bind at 1. rewrite Hloop. fold p in Happ3.
  destruct Happ3 as (Hfiles & Hfds & Hmaps).
  unfold bind at 1. unfold sys_fstat, fd_contents, log.
  rewrite Hfds, Hfiles, !lookup_insert_eq. cbn [from_option id].
  assert (Hlen : Z.of_nat (length ((([] ++ take (Z.to_nat k1) HEADER_BYTES)
                                      ++ take (Z.to_nat k2) [char_of_ArrayType t])
                                     ++ take (Z.to_nat p) data))
                 = k1 + k2 + p).
  { rewrite !length_app, !length_take.
    change (length HEADER_BYTES) with 8%nat. cbn [length]. lia. }
  rewrite Hlen, size_t_small by lia.
  destruct (k1 + k2 + p =? n + 9) eqn:Hsize.
  - apply Z.eqb_eq in Hsize.
    assert (Hk1' : k1 = 8) by lia. assert (Hk2' : k2 = 1) by lia.
    assert (Hp' : p = n) by lia. rewrite Hk1', Hk2', Hp', !Z.eqb_refl.
    cbn [negb andb]. do 2 eexists. split; [reflexivity|].
    cbn [files fds maps]. split; [assumption|].
    split; [apply delete_insert_eq|]. split; [reflexivity|].
    f_equal. unfold frame. rewrite Hn, Nat2Z.id, firstn_all. reflexivity.
  - apply Z.eqb_neq in Hsize.
    replace ((k1 =? 8) && (k2 =? 1) && (p =? n)) with false.
    2:{ symmetry. apply not_true_iff_false. intros Hall.
        apply andb_true_iff in Hall as [Hall Hp'].
        apply andb_true_iff in Hall as [Hk1' Hk2']. lia. }
    cbn [negb]. do 2 eexists. split; [reflexivity|].
    cbn [files fds maps]. split; [assumption|].
    split; [apply delete_insert_eq|]. split; [eexists; reflexivity|].
    apply delete_insert_eq.
Qed.

(** X3.  Short writes of the payload are retried: when the kernel takes the
    magic bytes and the tag whole and no payload write fails, however few
    bytes (even none) each of them accepts, [write_bytes_to_shm] returns the
    generated name and the file holds the whole frame. *)
Theorem write_bytes_to_shm_retries_payload
        (os : OS) (data : list byte) (n : Z) (t : ArrayType) (w : World)
        (a_magic a_tag : Z) (payload_answers : list Z) :
  n = Z.of_nat (length data) -> n + 9 < 2 ^ 64 ->
  os_gettimeofday os <> None ->
  0 <= os_open os ->
  (exists f_bsize f_bavail,
      os_fstatvfs os = Some (f_bsize, f_bavail)
      /\ n + 9 <= size_t (size_t f_bsize * size_t f_bavail)) ->
  os_write os = a_magic :: a_tag :: payload_answers ->
  8 <= a_magic -> 1 <= a_tag ->
  Forall (fun a => 0 <= a) payload_answers ->
  exists f w1,
    write_bytes_to_shm os data n t w = (Ok f, w1)
    /\ files w1 !! f = Some (frame t data)
    /\ fds w1 = delete (os_open os) (fds w)
    /\ maps w1 = maps w.
Proof.
  intros Hn Hmax Hclock Hfd (f_bsize & f_bavail & Hvfs & Hfree) Hwr Hmagic Htag
         Hpayload.
  destruct (create_filename os) as [f|e|] eqn:Hcf.
  2:{ now apply create_filename_throws in Hcf as [Hcf _]. }
  2:{ now apply create_filename_not_fault in Hcf. }
  destruct (write_bytes_to_shm_run os data n t w f f_bsize f_bavail
              Hn Hmax Hcf Hfd Hvfs Hfree) as (r & w1 & Hrun & Hmaps & Hfds & Hout).
  rewrite Hwr in Hout. cbn [head tail accepted_bytes] in Hout.
  settle (a_magic <? 0) in Hout. settle (a_tag <? 0) in Hout.
  rewrite (Z.min_r a_magic 8), (Z.min_r a_tag 1) in Hout by lia.
  rewrite loop_progress_complete in Hout by (assumption || lia).
  rewrite !Z.eqb_refl in Hout. cbn [andb] in Hout. destruct Hout as [-> Hfiles].
  exists f, w1. split; [assumption|]. rewrite Hfiles, lookup_insert_eq. auto.
Qed.

Lemma write_bytes_to_shm_retries_payload_witness :
  exists f w1,
    write_bytes_to_shm os_short_writes five_booleans 5 TYPE_BOOLEAN empty_world
    = (Ok f, w1)
    /\ files w1 !! f = Some (frame TYPE_BOOLEAN five_booleans)
    /\ fds w1 = delete (os_open os_short_writes) (fds empty_world)
    /\ maps w1 = maps empty_world.
Proof.
  apply (write_bytes_to_shm_retries_payload
           os_short_writes five_booleans 5 TYPE_BOOLEAN empty_world
           8 1 [2; 0; 1; 0]).
  - reflexivity.
  - lia.
  - discriminate.
  - simpl. lia.
  - exists 4096, 1000. split; [reflexivity | vm_compute; discriminate].
  - reflexivity.
  - lia.
  - lia.
  - repeat constructor; lia.
Defined.

(** X4.  The writes of the magic bytes and of the tag are not retried and a
    failed payload write ends the loop: when the kernel accepts fewer than
    8 bytes of the magic, or none of the tag, or fails a payload write
    before the payload is out, [write_bytes_to_shm] raises [io], and the
    file it created is gone and its descriptor closed. *)
Theorem write_bytes_to_shm_incomplete
        (os : OS) (data : list byte) (n : Z) (t : ArrayType) (w : World)
        (f : string) :
  n = Z.of_nat (length data) -> n + 9 < 2 ^ 64 ->
  create_filename os = Ok f ->
  0 <= os_open os ->
  (exists f_bsize f_bavail,
      os_fstatvfs os = Some (f_bsize, f_bavail)
      /\ n + 9 <= size_t (size_t f_bsize * size_t f_bavail)) ->
  (exists a, head (os_write os) = Some a /\ a < 8)
  \/ (exists a, head (tail (os_write os)) = Some a /\ a < 1)
  \/ loop_progress n 0 (tail (tail (os_write os))) < n ->
  exists msg w1,
    write_bytes_to_shm os data n t w = (Throw (io msg), w1)
    /\ files w1 !! f = None
    /\ fds w1 = delete (os_open os) (fds w)
    /\ maps w1 = maps w.
Proof.
  intros Hn Hmax Hcf Hfd (f_bsize & f_bavail & Hvfs & Hfree) Hshort.
  destruct (write_bytes_to_shm_run os data n t w f f_bsize f_bavail
              Hn Hmax Hcf Hfd Hvfs Hfree) as (r & w1 & Hrun & Hmaps & Hfds & Hout).
  replace ((accepted_bytes (head (os_write os)) 8 =? 8)
           && (accepted_bytes (head (tail (os_write os))) 1 =? 1)
           && (loop_progress n 0 (tail (tail (os_write os))) =? n))
    with false in Hout.
  - destruct Hout as [[msg ->] Hfiles]. exists msg, w1.
    split; [assumption|]. rewrite Hfiles. split; [apply lookup_delete_eq|auto].
  - symmetry. apply not_true_iff_false. intros Hall.
    apply andb_true_iff in Hall as [Hall Hp].
    apply andb_true_iff in Hall as [Hk1 Hk2].
    apply Z.eqb_eq in Hk1, Hk2, Hp.
    destruct Hshort as [(a & Ha & Hlt)|[(a & Ha & Hlt)|Hlt]].
    + rewrite Ha in Hk1. cbn [accepted_bytes] in Hk1.
      destruct (a <? 0); lia.
    + rewrite Ha in Hk2. cbn [accepted_bytes] in Hk2.
      destruct (a <? 0); lia.
    + lia.
Qed.

Lemma write_bytes_to_shm_incomplete_witness :
  exists msg w1,
    write_bytes_to_shm os_short_magic five_booleans 5 TYPE_BOOLEAN empty_world
    = (Throw (io msg), w1)
    /\ files w1 !! frame_file = None
    /\ fds w1 = delete (os_open os_short_magic) (fds empty_world)
    /\ maps w1 = maps empty_world.
Proof.
  apply (write_bytes_to_shm_incomplete
           os_short_magic five_booleans 5 TYPE_BOOLEAN empty_world frame_file).
  - reflexivity.
  - lia.
  - vm_compute. reflexivity.
  - simpl. lia.
  - exists 4096, 1000. split; [reflexivity | vm_compute; discriminate].
  - left. exists 7. split; [reflexivity | lia].
Defined.

(** ** The lambda writer and the kernel *)

(** The outcome of the lambda writer once the file is open, read off the
    kernel's answers. *)
Lemma write_bytes_to_shm_lambda_run os lambda n t w f f_bsize f_bavail :
  0 <= n -> n + 9 < 2 ^ 64 ->
  (forall dest, Z.of_nat (length (lambda dest)) = n) ->
  create_filename os = Ok f ->
  0 <= os_open os ->
  os_fstatvfs os = Some (f_bsize, f_bavail) ->
  n + 9 <= size_t (size_t f_bsize * size_t f_bavail) ->
  exists r w1,
    write_bytes_to_shm_lambda os lambda n t w = (r, w1)
    /\ fds w1 = delete (os_open os) (fds w)
    /\ if os_lseek os && (0 <=? off_t (n + 9))
          && (accepted_bytes (head (os_write os)) 1 =? 1)
       then
         match os_mmap os with
         | Some a =>
           if os_munmap os then
             r = Ok f
             /\ files w1 = <[f := frame t (lambda (a + 9)) ++ [x00]]> (files w)
             /\ maps w1 = filter (fun m => same_region a (n + 9) m = false)
                                 (maps w)
           else
             r = Throw (io "write_bytes_to_shm(): Error in munmaping the file")
             /\ files w1 = delete f (files w)
             /\ maps w1 = Mapping a (n + 9) f true :: maps w
         | None =>
           r = Throw (io "write_bytes_to_shm(): Error in mmaping the file")
           /\ files w1 = delete f (files w) /\ maps w1 = maps w
         end
       else
         (exists msg, r = Throw (io msg))
         /\ files w1 = delete f (files w) /\ maps w1 = maps w.
Proof.
  intros H0 Hmax Hfill Hcf Hfd Hvfs Hfree.
  unfold write_bytes_to_shm_lambda. rewrite frame_bytes by assumption.
  unfold bind at 1. unfold try_catch at 1. unfold lift. rewrite Hcf.
  assert (Hne := create_filename_nonempty os f Hcf).
  unfold bind at 1. unfold try_catch at 1.
  rewrite open_file_for_write_eq by assumption.
  settle (os_open os <? 0). rewrite Hvfs.
  settle (size_t (size_t f_bsize * size_t f_bavail) <? n + 9).
  unfold bind at 1. unfold sys_lseek, opened, log. cbn [files fds maps trace].
  rewrite lookup_insert_eq.
  destruct (os_lseek os && (0 <=? off_t (n + 9))) eqn:Hseek.
  2:{ change (-1 =? -1) with true. cbn iota. cbn [andb].
      do 2 eexists. split; [reflexivity|]. cbn [files fds maps].
      rewrite !delete_insert_eq. eauto. }
  apply andb_true_iff in Hseek as [_ Hoff]. apply Z.leb_le in Hoff.
  rewrite (off_t_nonneg (n + 9)) by (assumption || lia).
  settle (n + 9 =? -1).
  unfold bind at 1. unfold sys_write, log. cbn [files fds maps trace].
  rewrite !lookup_insert_eq. cbn [from_option id andb].
  assert (Hacc : (match head (os_write os) with
                  | Some a => Z.min a 1
                  | None => 1
                  end <? 0) = false
                 -> accepted_bytes (head (os_write os)) 1
                    = match head (os_write os) with
                      | Some a => Z.min a 1
                      | None => 1
                      end).
  { unfold accepted_bytes. destruct (head (os_write os)) as [a|]; [|reflexivity].
    intros Ha. apply Z.ltb_ge in Ha. now settle (a <? 0). }
  assert (Hrej : (match head (os_write os) with
                  | Some a => Z.min a 1
                  | None => 1
                  end <? 0) = true
                 -> accepted_bytes (head (os_write os)) 1 = 0).
  { unfold accepted_bytes. destruct (head (os_write os)) as [a|]; [|discriminate].
    intros Ha. apply Z.ltb_lt in Ha. now settle (a <? 0). }
  set (accepted := match head (os_write os) with
                   | Some a => Z.min a 1
                   | None => 1
                   end) in *.
  clearbody accepted.
  destruct (accepted <? 0) eqn:Hneg.
  { rewrite (Hrej eq_refl). change (-1 =? 1) with false.
    change (0 =? 1) with false. cbn [negb].
    do 2 eexists. split; [reflexivity|]. cbn [files fds maps].
    rewrite !delete_insert_eq. eauto. }
  rewrite (Hacc eq_refl).
  destruct (accepted =? 1) eqn:Hone.
  2:{ cbn [negb]. do 2 eexists. split; [reflexivity|]. cbn [files fds maps].
      rewrite !delete_insert_eq. eauto. }
  apply Z.eqb_eq in Hone. subst accepted. cbn [negb].
  change (take (Z.to_nat 1) [x00]) with [x00].
  rewrite !insert_insert_eq, stretched_file by assumption.
  unfold bind at 1. unfold sys_fstat, fd_contents, log.
  cbn [files fds maps trace]. rewrite !lookup_insert_eq. cbn [from_option id].
  assert (Hlen : Z.of_nat (length (replicate 8 x00 ++ replicate 1 x00
                                   ++ replicate (Z.to_nat n) x00 ++ [x00]))
                 = n + 9 + 1).
  { rewrite !length_app, !length_replicate. cbn [length]. lia. }
  rewrite Hlen, Z.eqb_refl. cbn [negb].
  unfold bind at 1. unfold sys_mmap, log. cbn [files fds maps trace].
  rewrite lookup_insert_eq.
  destruct (os_mmap os) as [a|].
  2:{ do 2 eexists. split; [reflexivity|]. cbn [files fds maps].
      rewrite !delete_insert_eq. auto. }
  settle (n + 9 =? 0).
  unfold bind at 1. unfold sys_close at 1. cbn [files fds maps trace].
  change sizeof_HEADER_BYTES with 8.
  unfold bind at 1.
  rewrite (mem_store_head _ (Mapping a (n + 9) f true) (maps w)
             (replicate 8 x00 ++ replicate 1 x00
              ++ replicate (Z.to_nat n) x00 ++ [x00]) a HEADER_BYTES);
    [ | reflexivity | apply lookup_insert_eq | reflexivity
      | cbn [m_base m_len]; lia
      | cbn [m_base m_len]; change (length HEADER_BYTES) with 8%nat; lia
      | cbn [m_base m_len]; change (length HEADER_BYTES) with 8%nat; lia ].
  cbn [files fds maps trace m_base m_len m_file]. rewrite insert_insert_eq.
  unfold bind at 1.
  erewrite (mem_store_head _ (Mapping a (n + 9) f true) (maps w)
              _ (a + 8) [char_of_ArrayType t]);
    [ | reflexivity | apply lookup_insert_eq | reflexivity
      | cbn [m_base m_len]; lia
      | cbn [m_base m_len length]; lia
      | cbn [m_base m_len length];
        rewrite poke_length, Hlen
          by (rewrite Z.sub_diag; change (length HEADER_BYTES) with 8%nat; lia);
        lia ].
  cbn [files fds maps trace m_base m_len m_file]. rewrite insert_insert_eq.
  unfold bind at 1. unfold call_lambda. unfold bind at 1.
  cbn [files fds maps trace log].
  erewrite (mem_store_head _ (Mapping a (n + 9) f true) (maps w)
              _ (a + 8 + 1) (lambda (a + 8 + 1)));
    [ | reflexivity | apply lookup_insert_eq | reflexivity
      | cbn [m_base m_len]; lia
      | cbn [m_base m_len]; rewrite Hfill; lia
      | cbn [m_base m_len]; rewrite Hfill, !poke_length, Hlen;
        rewrite ?poke_length;
        change (length HEADER_BYTES) with 8%nat; cbn [length]; lia ].
  unfold log. cbn [files fds maps trace m_base m_len m_file].
  rewrite insert_insert_eq.
  rewrite Z.sub_diag. replace (a + 8 - a) with 8 by lia.
  replace (a + 8 + 1 - a) with 9 by lia. replace (a + 8 + 1) with (a + 9) by lia.
  change (Z.to_nat 0) with 0%nat. change (Z.to_nat 8) with 8%nat.
  change (Z.to_nat 9) with 9%nat.
  replace (Z.to_nat n) with (length (lambda (a + 9)))
    by (rewrite <- (Hfill (a + 9)); symmetry; apply Nat2Z.id).
  rewrite poke_frame.
  unfold bind at 1. unfold sys_munmap, log. cbn [files fds maps trace].
  destruct (os_munmap os).
  - change (0 =? -1) with false. cbn iota. do 2 eexists.
    split; [reflexivity|]. cbn [files fds maps].
    split; [apply delete_insert_eq|]. repeat (split; [reflexivity|]).
    rewrite filter_cons_False; [reflexivity|].
    unfold same_region. cbn [m_base m_len]. rewrite !Z.eqb_refl. discriminate.
  - change (-1 =? -1) with true. cbn iota. do 2 eexists.
    split; [reflexivity|]. cbn [files fds maps].
    split; [apply delete_insert_eq|]. rewrite delete_insert_eq. auto.
Qed.

(** X5.  What the lambda writer publishes, the copy-out read gives back:
    whenever [write_bytes_to_shm] with a callback returns a name,
    [read_bytes_from_shm] on that name with the same size and type returns
    exactly the bytes the callback stored, although the file carries one
    byte more than the frame, and removes the file; and the writer does
    return when the kernel cooperates. *)
Theorem lambda_write_read_roundtrip
        (os1 os2 : OS) (lambda : Z -> list byte) (n : Z) (t : ArrayType)
        (w : World) :
  0 <= n -> n + 10 < 2 ^ 64 ->
  (forall dest, Z.of_nat (length (lambda dest)) = n) ->
  reader_friendly os2 ->
  (forall f w1,
      write_bytes_to_shm_lambda os1 lambda n t w = (Ok f, w1) ->
      exists a w2,
        os_mmap os1 = Some a
        /\ read_bytes_from_shm os2 (Some f) n t w1 = (Ok (lambda (a + 9)), w2)
        /\ files w2 !! f = None)
  /\ (lambda_friendly os1 n ->
      exists f w1 a w2,
        write_bytes_to_shm_lambda os1 lambda n t w = (Ok f, w1)
        /\ os_mmap os1 = Some a
        /\ read_bytes_from_shm os2 (Some f) n t w1 = (Ok (lambda (a + 9)), w2)
        /\ files w2 !! f = None).
Proof.
  intros H0 Hmax Hfill Hread.
  assert (Hfirst : forall f w1,
             write_bytes_to_shm_lambda os1 lambda n t w = (Ok f, w1) ->
             exists a w2,
               os_mmap os1 = Some a
               /\ read_bytes_from_shm os2 (Some f) n t w1
                  = (Ok (lambda (a + 9)), w2)
               /\ files w2 !! f = None).
  { intros f w1 Hw.
    destruct (write_bytes_to_shm_lambda_ok os1 lambda n t w f w1 H0
                ltac:(lia) Hfill Hw) as (Hcf & a & Ha & Hfiles & _).
    assert (Hne := create_filename_nonempty os1 f Hcf).
    destruct (read_bytes_from_shm_frame os2 f n t w1 (lambda (a + 9)) [x00] Hne)
      as (w2 & Hr & Hfiles2 & _).
    - rewrite Hfiles. apply lookup_insert_eq.
    - now rewrite Hfill.
    - lia.
    - rewrite length_app, Nat2Z.inj_add, frame_length, Hfill. cbn [length]. lia.
    - assumption.
    - exists a, w2. split; [assumption|]. split; [assumption|].
      rewrite Hfiles2. apply lookup_delete_eq. }
  split; [exact Hfirst|].
  intros (Hclock & Hfd & (f_bsize & f_bavail & Hvfs & Hfree) & Hseek & Hoff
          & Hstretch & Hmap & Hunmap).
  destruct (create_filename os1) as [f|e|] eqn:Hcf.
  2:{ now apply create_filename_throws in Hcf as [Hcf _]. }
  2:{ now apply create_filename_not_fault in Hcf. }
  destruct (write_bytes_to_shm_lambda_run os1 lambda n t w f f_bsize f_bavail
              H0 ltac:(lia) Hfill Hcf Hfd Hvfs Hfree)
    as (r & w1 & Hrun & _ & Hout).
  rewrite Hseek, Hstretch, Hunmap in Hout.
  unfold off_t in Hout. rewrite long_small in Hout by lia.
  replace (0 <=? n + 9) with true in Hout by (symmetry; apply Z.leb_le; lia).
  cbn [andb Z.eqb Pos.eqb] in Hout.
  destruct (os_mmap os1) as [a|] eqn:Ha; [|congruence].
  destruct Hout as (-> & _).
  destruct (Hfirst f w1 Hrun) as (a' & w2 & Ha' & Hr & Hgone).
  injection Ha' as <-.
  now exists f, w1, a, w2.
Qed.

Lemma lambda_write_read_roundtrip_witness :
  exists f w1 a w2,
    write_bytes_to_shm_lambda os_example (fun _ => five_booleans) 5 TYPE_BOOLEAN
                              empty_world = (Ok f, w1)
    /\ os_mmap os_example = Some a
    /\ read_bytes_from_shm os_example (Some f) 5 TYPE_BOOLEAN w1
       = (Ok five_booleans, w2)
    /\ files w2 !! f = None.
Proof.
  apply (proj2 (lambda_write_read_roundtrip
                  os_example os_example (fun _ => five_booleans) 5 TYPE_BOOLEAN
                  empty_world ltac:(lia) ltac:(lia) (fun _ => eq_refl)
                  ltac:(split; [simpl; lia|]; split; [discriminate|];
                        split; reflexivity))).
  split; [discriminate|]. split; [simpl; lia|]. split.
  - exists 4096, 1000. split; [reflexivity | vm_compute; discriminate].
  - split; [reflexivity|]. split; [lia|]. split; [reflexivity|].
    split; [discriminate | reflexivity].
Defined.

(** ** What a call leaves behind *)

Lemma same_but_refl f w : same_but f w w.
Proof. now split. Qed.

Lemma same_but_log f w w1 e : same_but f w w1 -> same_but f w (log e w1).
Proof. now intros [? ?]. Qed.

Lemma same_but_abandoned os f w :
  fds w !! os_open os = None -> same_but f w (abandoned os f w).
Proof.
  intros Hfresh. unfold abandoned. split; cbn [files fds].
  - rewrite delete_insert_eq. now apply delete_id.
  - intros f' Hf'. now rewrite delete_insert_eq, lookup_delete_ne.
Qed.

Lemma write_bytes_to_shm_same_but os data n t w f :
  n = Z.of_nat (length data) -> n + 9 < 2 ^ 64 ->
  fds w !! os_open os = None ->
  create_filename os = Ok f ->
  same_but f w (snd (write_bytes_to_shm os data n t w)).
Proof.
  intros Hn Hmax Hfresh Hcf.
  assert (Hne := create_filename_nonempty os f Hcf).
  destruct (os_open os <? 0) eqn:Hfd;
    [|destruct (os_fstatvfs os) as [[f_bsize f_bavail]|] eqn:Hvfs;
      [destruct (size_t (size_t f_bsize * size_t f_bavail) <? n + 9) eqn:Hfree|]].
  4:{ apply Z.ltb_ge in Hfd. unfold write_bytes_to_shm, bind, try_catch, lift.
      rewrite Hcf, open_file_for_write_eq by assumption.
      settle (os_open os <? 0). rewrite Hvfs. cbn [snd].
      now apply same_but_abandoned. }
  - unfold write_bytes_to_shm, bind, try_catch, lift.
    rewrite Hcf, open_file_for_write_eq, Hfd by assumption. cbn. now split.
  - apply Z.ltb_ge in Hfd. unfold write_bytes_to_shm, bind, try_catch, lift.
    rewrite Hcf, frame_bytes, open_file_for_write_eq by (assumption || lia).
    settle (os_open os <? 0). rewrite Hvfs, Hfree. cbn [snd].
    now apply same_but_abandoned.
  - apply Z.ltb_ge in Hfd, Hfree.
    destruct (write_bytes_to_shm_run os data n t w f f_bsize f_bavail
                Hn Hmax Hcf Hfd Hvfs Hfree) as (r & w1 & Hrun & _ & Hfds & Hout).
    rewrite Hrun. cbn [snd]. split.
    + rewrite Hfds. now apply delete_id.
    + intros f' Hf'.
      destruct ((accepted_bytes (head (os_write os)) 8 =? 8)
                && (accepted_bytes (head (tail (os_write os))) 1 =? 1)
                && (loop_progress n 0 (tail (tail (os_write os))) =? n));
        destruct Hout as [_ ->].
      * now apply lookup_insert_ne.
      * now apply lookup_delete_ne.
Qed.

Lemma write_bytes_to_shm_lambda_same_but os lambda n t w f :
  0 <= n -> n + 9 < 2 ^ 64 ->
  (forall dest, Z.of_nat (length (lambda dest)) = n) ->
  fds w !! os_open os = None ->
  create_filename os = Ok f ->
  same_but f w (snd (write_bytes_to_shm_lambda os lambda n t w)).
Proof.
  intros H0 Hmax Hfill Hfresh Hcf.
  assert (Hne := create_filename_nonempty os f Hcf).
  destruct (os_open os <? 0) eqn:Hfd;
    [|destruct (os_fstatvfs os) as [[f_bsize f_bavail]|] eqn:Hvfs;
      [destruct (size_t (size_t f_bsize * size_t f_bavail) <? n + 9) eqn:Hfree|]].
  4:{ apply Z.ltb_ge in Hfd.
      unfold write_bytes_to_shm_lambda, bind, try_catch, lift.
      rewrite Hcf, open_file_for_write_eq by assumption.
      settle (os_open os <? 0). rewrite Hvfs. cbn [snd].
      now apply same_but_abandoned. }
  - unfold write_bytes_to_shm_lambda, bind, try_catch, lift.
    rewrite Hcf, open_file_for_write_eq, Hfd by assumption. cbn. now split.
  - apply Z.ltb_ge in Hfd.
    unfold write_bytes_to_shm_lambda, bind, try_catch, lift.
    rewrite Hcf, frame_bytes, open_file_for_write_eq by (assumption || lia).
    settle (os_open os <? 0). rewrite Hvfs, Hfree. cbn [snd].
    now apply same_but_abandoned.
  - apply Z.ltb_ge in Hfd, Hfree.
    destruct (write_bytes_to_shm_lambda_run os lambda n t w f f_bsize f_bavail
                H0 Hmax Hfill Hcf Hfd Hvfs Hfree) as (r & w1 & Hrun & Hfds & Hout).
    rewrite Hrun. cbn [snd]. split.
    + rewrite Hfds. now apply delete_id.
    + intros f' Hf'.
      destruct (os_lseek os && (0 <=? off_t (n + 9))
                && (accepted_bytes (head (os_write os)) 1 =? 1)).
      * destruct (os_mmap os) as [a|]; [destruct (os_munmap os)|];
          destruct Hout as (_ & -> & _);
          first [now apply lookup_insert_ne | now apply lookup_delete_ne].
      * destruct Hout as (_ & -> & _). now apply lookup_delete_ne.
Qed.

Lemma mmap_bytes_from_shm_same_but os f n t w :
  0 <= n -> n + 9 < 2 ^ 64 ->
  (forall c, files w !! f = Some c -> Z.of_nat (length c) < 2 ^ 64) ->
  fds w !! os_open os = None ->
  same_but f w (snd (mmap_bytes_from_shm os (Some f) n t w)).
Proof.
  intros H0 Hmax Hsize Hfresh.
  assert (Hfds : reader_fds os f w = fds w)
    by (unfold reader_fds; rewrite delete_insert_eq; now apply delete_id).
  destruct (files w !! f) as [c|] eqn:Hf.
  - destruct (decide (f = ""%string)) as [->|Hne]; [apply same_but_refl|].
    rewrite (mmap_bytes_from_shm_eq os f n t w c Hne Hf H0 Hmax (Hsize c eq_refl)).
    destruct (os_open os <? 0); [now split|].
    destruct (Z.of_nat (length c) <? 9); [now split|].
    destruct (os_mmap os) as [a|].
    + destruct (negb (strncmp (take 8 c) HEADER_BYTES 8 =? 0));
        [|destruct (negb (Byte.eqb (hd x00 (drop 8 c)) (char_of_ArrayType t)))];
        (split; [exact Hfds|]); intros f' Hf'; cbn;
          first [now apply lookup_delete_ne | reflexivity].
    + split; [exact Hfds|]. intros f' Hf'. cbn. now apply lookup_delete_ne.
  - destruct (decide (f = ""%string)) as [->|Hne]; [apply same_but_refl|].
    unfold mmap_bytes_from_shm.
    rewrite (bool_decide_eq_false_2 (Some f = None)) by discriminate.
    rewrite (bool_decide_eq_false_2 (Some f = Some ""%string)) by congruence.
    unfold bind, sys_open. cbn [orb from_option id negb andb].
    rewrite (bool_decide_eq_true_2 _ Hf), orb_true_r. cbn. now split.
Qed.

Lemma mem_load_world addr n w : snd (mem_load addr n w) = w.
Proof.
  unfold mem_load. destruct (n <=? 0); [reflexivity|].
  destruct (find (covers addr n) (maps w)) as [m|]; [|reflexivity].
  now destruct (Z.of_nat (length (default [] (files w !! m_file m)))
                <? addr - m_base m + n).
Qed.

Lemma munmap_bytes_from_shm_same_but os f n t addr w :
  0 <= n -> n + 9 < 2 ^ 64 ->
  same_but f w (snd (munmap_bytes_from_shm os (Some f) n t addr w)).
Proof.
  intros H0 Hmax. rewrite munmap_bytes_from_shm_eq by assumption.
  destruct (os_munmap os); (split; [reflexivity|]); intros f' Hf'; cbn;
    now apply lookup_delete_ne.
Qed.

Lemma same_but_trans f w w1 w2 :
  same_but f w w1 -> same_but f w1 w2 -> same_but f w w2.
Proof.
  intros [Hfds Hfiles] [Hfds' Hfiles']. split; [congruence|].
  intros f' Hf'. now rewrite Hfiles', Hfiles.
Qed.

Lemma read_bytes_from_shm_same_but os f n t w :
  0 <= n -> n + 9 < 2 ^ 64 ->
  (forall c, files w !! f = Some c -> Z.of_nat (length c) < 2 ^ 64) ->
  fds w !! os_open os = None ->
  same_but f w (snd (read_bytes_from_shm os (Some f) n t w)).
Proof.
  intros H0 Hmax Hsize Hfresh.
  assert (Hopen := mmap_bytes_from_shm_same_but os f n t w H0 Hmax Hsize Hfresh).
  unfold read_bytes_from_shm. unfold bind at 1.
  destruct (mmap_bytes_from_shm os (Some f) n t w) as [[p|e|] w1];
    cbn [snd] in *; try assumption.
  unfold bind at 1. unfold sys_malloc, log.
  destruct (os_malloc os); cbn [negb].
  - unfold bind at 1.
    assert (Hload := mem_load_world p n
                       (mkWorld (files w1) (fds w1) (maps w1)
                                (EvMalloc n true :: trace w1))).
    destruct (mem_load p n _) as [[copied|e|] w2]; cbn [snd] in Hload; subst w2;
      try (destruct Hopen; now split).
    unfold bind at 1.
    assert (Hrel := munmap_bytes_from_shm_same_but os f n t p
                      (mkWorld (files w1) (fds w1) (maps w1)
                               (EvMalloc n true :: trace w1)) H0 Hmax).
    destruct (munmap_bytes_from_shm os (Some f) n t p _) as [[[]|e|] w3];
      cbn [snd] in *; (eapply same_but_trans; [|exact Hrel]);
      destruct Hopen; now split.
  - cbn. destruct Hopen as [Hfds Hfiles]. split; [assumption|].
    intros f' Hf'. cbn. rewrite lookup_delete_ne by congruence. now apply Hfiles.
Qed.

(** X6.  No entry point leaks a descriptor or touches another file: after
    a call of either writer, of [mmap_bytes_from_shm], of
    [read_bytes_from_shm] or of [munmap_bytes_from_shm], whatever the kernel
    answered and whether the call returned or raised, the table of open
    descriptors is what it was before and every file other than the frame's
    own has the contents it had. *)
Theorem calls_leave_descriptors_and_other_files
        (os : OS) (data : list byte) (lambda : Z -> list byte) (n : Z)
        (t : ArrayType) (w : World) (file : string) :
  n = Z.of_nat (length data) -> n + 9 < 2 ^ 64 ->
  (forall dest, Z.of_nat (length (lambda dest)) = n) ->
  fds w !! os_open os = None ->
  (forall c, files w !! file = Some c -> Z.of_nat (length c) < 2 ^ 64) ->
  (forall f, create_filename os = Ok f ->
             same_but f w (snd (write_bytes_to_shm os data n t w))
             /\ same_but f w (snd (write_bytes_to_shm_lambda os lambda n t w)))
  /\ (create_filename os = Throw
        (illegal_argument "create_filename(): Error in ::gettimeofday()") ->
      snd (write_bytes_to_shm os data n t w) = w
      /\ snd (write_bytes_to_shm_lambda os lambda n t w) = w)
  /\ same_but file w (snd (mmap_bytes_from_shm os (Some file) n t w))
  /\ same_but file w (snd (read_bytes_from_shm os (Some file) n t w))
  /\ forall addr,
      same_but file w (snd (munmap_bytes_from_shm os (Some file) n t addr w)).
Proof.
  intros Hn Hmax Hfill Hfresh Hsize. assert (H0 : 0 <= n) by lia.
  split; [|split; [|split; [|split]]].
  - intros f Hcf. split.
    + now apply write_bytes_to_shm_same_but.
    + now apply write_bytes_to_shm_lambda_same_but.
  - intros Hcf. unfold write_bytes_to_shm, write_bytes_to_shm_lambda,
                  bind, try_catch, lift.
    rewrite Hcf. now split.
  - now apply mmap_bytes_from_shm_same_but.
  - now apply read_bytes_from_shm_same_but.
  - intros addr. now apply munmap_bytes_from_shm_same_but.
Qed.

Lemma calls_leave_descriptors_and_other_files_witness :
  same_but frame_file busy_world
           (snd (read_bytes_from_shm os_example (Some frame_file) 5 TYPE_BOOLEAN
                                     busy_world)).
Proof.
  apply (calls_leave_descriptors_and_other_files
           os_example five_booleans (fun _ => five_booleans) 5 TYPE_BOOLEAN
           busy_world frame_file).
  - reflexivity.
  - lia.
  - reflexivity.
  - vm_compute. reflexivity.
  - intros c Hc. vm_compute in Hc. injection Hc as <-. vm_compute. reflexivity.
Defined.

(** ** Expected size, free space, and consumption *)



(** X8.  [open_file_for_write] accepts a request that the free space just
    covers: with [bytes_to_write <= f_bsize * f_bavail] it returns the
    descriptor, positioned at offset 0 of the file, which exists and is
    empty whatever was stored under that name before; only open and fstatvfs
    were called. *)
Theorem open_file_for_write_creates
        (os : OS) (file : string) (bytes_to_write : Z) (w : World)
        (f_bsize f_bavail : Z) :
  file <> ""%string ->
  0 <= os_open os ->
  os_fstatvfs os = Some (f_bsize, f_bavail) ->
  0 <= f_bsize < 2 ^ 64 -> 0 <= f_bavail < 2 ^ 64 ->
  f_bsize * f_bavail < 2 ^ 64 ->
  bytes_to_write <= f_bsize * f_bavail ->
  exists w',
    open_file_for_write os file bytes_to_write w = (Ok (os_open os), w')
    /\ files w' !! file = Some []
    /\ (forall f', f' <> file -> files w' !! f' = files w !! f')
    /\ fds w' !! os_open os = Some (file, 0)
    /\ maps w' = maps w
    /\ trace w' = EvFstatvfs (os_open os) :: EvOpen file true (os_open os)
                  :: trace w.
Proof.
  intros Hne Hfd Hvfs Hbs Hba Hprod Hfree.
  rewrite open_file_for_write_eq by assumption.
  settle (os_open os <? 0). rewrite Hvfs.
  rewrite (size_t_small f_bsize), (size_t_small f_bavail) by assumption.
  rewrite size_t_small by nia.
  settle (f_bsize * f_bavail <? bytes_to_write).
  exists (opened os file w). split; [reflexivity|]. cbn.
  split; [apply lookup_insert_eq|].
  split; [intros f' Hf'; now apply lookup_insert_ne|].
  split; [apply lookup_insert_eq|]. now split.
Qed.

Lemma open_file_for_write_creates_witness :
  exists w',
    open_file_for_write os_tight "/dev/shm/frame" 14 taken_world
    = (Ok (os_open os_tight), w')
    /\ files w' !! "/dev/shm/frame"%string = Some []
    /\ (forall f', f' <> "/dev/shm/frame"%string ->
                   files w' !! f' = files taken_world !! f')
    /\ fds w' !! os_open os_tight = Some ("/dev/shm/frame"%string, 0)
    /\ maps w' = maps taken_world
    /\ trace w' = EvFstatvfs (os_open os_tight)
                  :: EvOpen "/dev/shm/frame" true (os_open os_tight)
                  :: trace taken_world.
Proof.
  apply (open_file_for_write_creates os_tight "/dev/shm/frame" 14 taken_world
                                     2 7).
  - discriminate.
  - simpl. lia.
  - reflexivity.
  - lia.
  - lia.
  - lia.
  - lia.
Defined.

Lemma read_bytes_from_shm_ok_gone os f n t w copied w2 :
  0 <= n -> n + 9 < 2 ^ 64 ->
  read_bytes_from_shm os (Some f) n t w = (Ok copied, w2) ->
  files w2 !! f = None.
Proof.
  intros H0 Hmax. unfold read_bytes_from_shm. unfold bind at 1.
  destruct (mmap_bytes_from_shm os (Some f) n t w) as [[p|e|] w1];
    try discriminate.
  unfold bind at 1. unfold sys_malloc, log.
  destruct (os_malloc os); cbn [negb]; [|discriminate].
  unfold bind at 1.
  destruct (mem_load p n _) as [[bytes|e|] w1']; try discriminate.
  unfold bind at 1. rewrite munmap_bytes_from_shm_eq by assumption.
  destruct (os_munmap os); [|discriminate].
  intros [= <- <-]. cbn. apply lookup_delete_eq.
Qed.

(** X9.  A frame is consumed once: after [read_bytes_from_shm] has returned,
    and after [munmap_bytes_from_shm] whether it returned or raised, every
    further [mmap_bytes_from_shm] or [read_bytes_from_shm] on the same name
    raises [io] and changes neither the files nor the mappings. *)
Theorem frame_is_consumed_once
        (os os' : OS) (f : string) (n n' : Z) (t t' : ArrayType) (w : World) :
  0 <= n -> n + 9 < 2 ^ 64 ->
  f <> ""%string ->
  (forall copied w2,
      read_bytes_from_shm os (Some f) n t w = (Ok copied, w2) ->
      exists msg w3,
        mmap_bytes_from_shm os' (Some f) n' t' w2 = (Throw (io msg), w3)
        /\ read_bytes_from_shm os' (Some f) n' t' w2 = (Throw (io msg), w3)
        /\ files w3 = files w2 /\ maps w3 = maps w2)
  /\ (forall addr r w2,
         munmap_bytes_from_shm os (Some f) n t addr w = (r, w2) ->
         exists msg w3,
           mmap_bytes_from_shm os' (Some f) n' t' w2 = (Throw (io msg), w3)
           /\ read_bytes_from_shm os' (Some f) n' t' w2 = (Throw (io msg), w3)
           /\ files w3 = files w2 /\ maps w3 = maps w2).
Proof.
  intros H0 Hmax Hne.
  assert (Hgone : forall w2, files w2 !! f = None ->
            exists msg w3,
              mmap_bytes_from_shm os' (Some f) n' t' w2 = (Throw (io msg), w3)
              /\ read_bytes_from_shm os' (Some f) n' t' w2 = (Throw (io msg), w3)
              /\ files w3 = files w2 /\ maps w3 = maps w2).
  { intros w2 Hf.
    destruct (mmap_bytes_from_shm_missing os' f n' t' w2 Hf)
      as (w3 & Hr & Hfiles & Hmaps).
    do 2 eexists. split; [exact Hr|].
    unfold read_bytes_from_shm, bind. rewrite Hr. auto. }
  split.
  - intros copied w2 Hr. apply Hgone.
    now apply (read_bytes_from_shm_ok_gone os f n t w copied w2).
  - intros addr r w2. rewrite munmap_bytes_from_shm_eq by assumption.
    destruct (os_munmap os); intros [= <- <-]; apply Hgone; cbn;
      apply lookup_delete_eq.
Qed.

Lemma frame_is_consumed_once_witness :
  exists msg w3,
    mmap_bytes_from_shm
      os_example (Some frame_file) 5 TYPE_BOOLEAN
      (snd (read_bytes_from_shm os_example (Some frame_file) 5 TYPE_BOOLEAN
                                frame_world))
    = (Throw (io msg), w3)
    /\ read_bytes_from_shm
         os_example (Some frame_file) 5 TYPE_BOOLEAN
         (snd (read_bytes_from_shm os_example (Some frame_file) 5 TYPE_BOOLEAN
                                   frame_world))
       = (Throw (io msg), w3)
    /\ files w3
       = files (snd (read_bytes_from_shm os_example (Some frame_file) 5
                                         TYPE_BOOLEAN frame_world))
    /\ maps w3
       = maps (snd (read_bytes_from_shm os_example (Some frame_file) 5
                                        TYPE_BOOLEAN frame_world)).
Proof.
  apply (proj1 (frame_is_consumed_once
                  os_example os_example frame_file 5 5 TYPE_BOOLEAN TYPE_BOOLEAN
                  frame_world ltac:(lia) ltac:(lia) ltac:(discriminate))
               five_booleans).
  vm_compute. reflexivity.
Defined.

(** ** The test harness *)

Lemma memcmp_refl a n : memcmp a a n = 0.
Proof.
  revert a. induction n as [|n IH]; intros a; [reflexivity|].
  cbn [memcmp]. now rewrite (byte_dec_lb (eq_refl (hd x00 a))).
Qed.

(** Reading the payload through the mapping open-and-map has just made. *)
Lemma mem_load_payload a n f t payload extra fs fdt rest tr :
  n = Z.of_nat (length payload) ->
  fs !! f = Some (frame t payload ++ extra) ->
  mem_load (a + 9) n (mkWorld fs fdt (Mapping a (n + 9) f false :: rest) tr)
  = (Ok payload, mkWorld fs fdt (Mapping a (n + 9) f false :: rest) tr).
Proof.
  intros Hn Hf. unfold mem_load. destruct (n <=? 0) eqn:Hz.
  - apply Z.leb_le in Hz. destruct payload; [reflexivity|].
    cbn [length] in Hn. lia.
  - apply Z.leb_gt in Hz. cbn [files fds maps trace find].
    unfold covers. cbn [m_base m_len m_file].
    settle ((a <=? a + 9) && (a + 9 + n <=? a + (n + 9))).
    cbn [m_base m_len m_file]. rewrite Hf. cbn [from_option id].
    replace (a + 9 - a) with 9 by lia.
    replace (Z.of_nat (length (frame t payload ++ extra)) <? 9 + n) with false.
    2:{ symmetry; apply Z.ltb_ge.
        rewrite length_app, Nat2Z.inj_add, frame_length. lia. }
    change (Z.to_nat 9) with 9%nat.
    change (drop 9 (frame t payload ++ extra)) with (payload ++ extra).
    rewrite Hn, Nat2Z.id, take_app_length. reflexivity.
Qed.

(** X10.  The harness's [read_and_write] can fail only where the kernel
    fails: for every array and element type its verdict is [Passed], or the
    assertion after a failed write or a failed open-and-map, or the [io] of
    a failed munmap, or a crash after a failed malloc; the comparison of the
    bytes read with the bytes written and the two checks on the file's
    existence never fail.  With a cooperating kernel the verdict is
    [Passed] and the file is gone. *)
Theorem read_and_write_verdict
        (os_w os_m os_u : OS) (data : list byte) (n : Z) (t : ArrayType)
        (w : World) :
  n = Z.of_nat (length data) -> n + 9 < 2 ^ 64 ->
  exists r w',
    read_and_write os_w os_m os_u data n t w = (r, w')
    /\ (r = Ok Passed
        \/ r = Ok (AssertFailed "write_bytes_to_shm")
        \/ r = Ok (AssertFailed "mmap_bytes_from_shm")
        \/ (os_munmap os_u = false
            /\ r = Throw (io "munmap_bytes_from_shm(): Error in munmaping the file"))
        \/ (os_malloc os_m = false /\ r = Fault))
    /\ (writer_friendly os_w n -> 0 <= os_open os_m -> os_mmap os_m <> None ->
        os_malloc os_m = true -> os_munmap os_u = true ->
        r = Ok Passed
        /\ forall f, create_filename os_w = Ok f -> files w' !! f = None).
Proof.
  intros Hn Hmax. assert (H0 : 0 <= n) by lia.
  unfold read_and_write. rewrite (size_t_small n) by lia.
  destruct (write_bytes_to_shm os_w data n t w) as [[f|e|] w1] eqn:Hw.
  2:{ do 2 eexists. split; [reflexivity|]. split; [auto|].
      intros Hfriendly.
      destruct (write_bytes_to_shm_succeeds os_w data n t w Hn Hmax Hfriendly)
        as (f' & w1' & Hw'). congruence. }
  2:{ exfalso.
      destruct (write_bytes_to_shm_cases os_w data n t w Hn Hmax)
        as (r & w1' & Hrun & _ & Hcases).
      rewrite Hw in Hrun. injection Hrun as <- <-.
      destruct (create_filename os_w) as [f|e|]; [|now destruct Hcases|easy].
      destruct (os_open os_w <? 0); [now destruct Hcases|].
      destruct (os_fstatvfs os_w) as [[f_bsize f_bavail]|];
        [|now destruct Hcases].
      destruct (size_t (size_t f_bsize * size_t f_bavail) <? n + 9);
        [now destruct Hcases|].
      now destruct Hcases as [[[=] _]|(msg & [=] & _)]. }
  destruct (write_bytes_to_shm_ok os_w data n t w f w1 Hn Hmax Hw)
    as (Hcf & Hfiles & Hmaps).
  assert (Hne := create_filename_nonempty os_w f Hcf).
  assert (Hf : files w1 !! f = Some (frame t data ++ []))
    by (rewrite Hfiles, lookup_insert_eq, app_nil_r; reflexivity).
  assert (Hc : Z.of_nat (length (frame t data ++ [])) < 2 ^ 64)
    by (rewrite app_nil_r, frame_length; lia).
  rewrite (mmap_bytes_from_shm_eq os_m f n t w1 _ Hne Hf H0 Hmax Hc).
  destruct (os_open os_m <? 0) eqn:Hfd.
  { apply Z.ltb_lt in Hfd. do 2 eexists. split; [reflexivity|].
    split; [auto|]. intros; lia. }
  replace (Z.of_nat (length (frame t data ++ [])) <? 9) with false
    by (symmetry; apply Z.ltb_ge; rewrite app_nil_r, frame_length; lia).
  destruct (os_mmap os_m) as [a|].
  2:{ do 2 eexists. split; [reflexivity|]. split; [auto|]. intros; congruence. }
  change (take 8 (frame t data ++ [])) with HEADER_BYTES.
  change (hd x00 (drop 8 (frame t data ++ []))) with (char_of_ArrayType t).
  rewrite strncmp_refl, (byte_dec_lb (eq_refl (char_of_ArrayType t))).
  cbn [Z.eqb negb].
  unfold bind at 1. unfold sys_malloc, log, accepted_world.
  cbn [files fds maps trace].
  destruct (os_malloc os_m) eqn:Hmalloc.
  - unfold bind at 1.
    rewrite (mem_load_payload a n f t data [] _ _ _ _ Hn Hf).
    rewrite memcmp_refl. cbn [Z.eqb negb].
    unfold bind at 1. unfold sys_stat. cbn [files]. rewrite Hf. cbn [Z.eqb negb].
    unfold bind at 1. rewrite munmap_bytes_from_shm_eq by assumption.
    destruct (os_munmap os_u) eqn:Hunmap.
    + unfold bind at 1. unfold sys_stat. cbn [files].
      rewrite lookup_delete_eq. cbn. do 2 eexists. split; [reflexivity|].
      split; [auto|]. intros _ _ _ _ _. split; [reflexivity|].
      intros f' Hf'. rewrite Hcf in Hf'. injection Hf' as <-.
      apply lookup_delete_eq.
    + do 2 eexists. split; [reflexivity|]. split; [auto 6|]. intros; congruence.
  - destruct (n =? 0) eqn:Hzero.
    + apply Z.eqb_eq in Hzero.
      destruct data; [|cbn [length] in Hn; lia].
      clear Hn. subst n.
      unfold bind at 1. unfold ret at 1.
      change (memcmp [] [] (Z.to_nat 0) =? 0) with true. cbn [negb].
      unfold bind at 1. unfold sys_stat. cbn [files]. rewrite Hf.
      cbn [Z.eqb negb].
      unfold bind at 1. rewrite munmap_bytes_from_shm_eq by assumption.
      destruct (os_munmap os_u) eqn:Hunmap.
      * unfold bind at 1. unfold sys_stat. cbn [files].
        rewrite lookup_delete_eq. cbn. do 2 eexists. split; [reflexivity|].
        split; [auto|]. intros; congruence.
      * do 2 eexists. split; [reflexivity|]. split; [auto 6|].
        intros; congruence.
    + do 2 eexists. split; [reflexivity|]. split; [auto 7|]. intros; congruence.
Qed.

Lemma read_and_write_verdict_witness :
  fst (read_and_write os_example os_example os_example five_booleans 5
                      TYPE_BOOLEAN empty_world) = Ok Passed
  /\ forall f, create_filename os_example = Ok f ->
               files (snd (read_and_write os_example os_example os_example
                                          five_booleans 5 TYPE_BOOLEAN
                                          empty_world)) !! f = None.
Proof.
  destruct (read_and_write_verdict os_example os_example os_example
                                   five_booleans 5 TYPE_BOOLEAN empty_world
                                   eq_refl eq_refl)
    as (r & w' & Hrun & _ & Hpass).
  rewrite Hrun. apply Hpass.
  - split; [discriminate|]. split; [simpl; lia|]. split; [|reflexivity].
    exists 4096, 1000. split; [reflexivity | vm_compute; discriminate].
  - simpl. lia.
  - discriminate.
  - reflexivity.
  - reflexivity.
Defined.

(** ** The JNI layer: type predicates *)

Lemma char_low c k : char (lit c + 256 * k) = char (lit c).
Proof.
  unfold char. replace (lit c + 256 * k + 128) with (lit c + 128 + k * 256) by lia.
  now rewrite Z_mod_plus_full.
Qed.

(** X11.  The seven [nativeIs<Type>ArrayType] predicates look at the low
    eight bits of the [jchar] only, and on them they agree with
    [char_to_array_type]: each answers true exactly when the library decodes
    that byte to its own element type.  Hence at most one of them accepts a
    given character, and none accepts a byte the library calls UNKNOWN. *)
Theorem nativeIsArrayType_decodes (c : byte) (k : Z) :
  let type := lit c + 256 * k in
  (nativeIsBooleanArrayType type = true <-> char_to_array_type c = TYPE_BOOLEAN)
  /\ (nativeIsByteArrayType type = true <-> char_to_array_type c = TYPE_BYTE)
  /\ (nativeIsShortArrayType type = true <-> char_to_array_type c = TYPE_SHORT)
  /\ (nativeIsIntegerArrayType type = true <-> char_to_array_type c = TYPE_INTEGER)
  /\ (nativeIsLongArrayType type = true <-> char_to_array_type c = TYPE_LONG)
  /\ (nativeIsFloatArrayType type = true <-> char_to_array_type c = TYPE_FLOAT)
  /\ (nativeIsDoubleArrayType type = true <-> char_to_array_type c = TYPE_DOUBLE).
Proof.
  cbv zeta.
  unfold nativeIsBooleanArrayType, nativeIsByteArrayType, nativeIsShortArrayType,
    nativeIsIntegerArrayType, nativeIsLongArrayType, nativeIsFloatArrayType,
    nativeIsDoubleArrayType.
  rewrite char_low.
  destruct c; vm_compute; repeat split; intros; congruence.
Qed.

Lemma nativeIsArrayType_decodes_witness :
  nativeIsIntegerArrayType 361 = true.
Proof.
  apply (proj2 (proj1 (proj2 (proj2 (proj2
           (nativeIsArrayType_decodes "i"%byte 1)))))).
  reflexivity.
Defined.

(** ** The JNI layer: exceptions stay inside *)

Lemma toi_ret {A} (a : A) : throws_only_io (ret a).
Proof. intros w e w' [=]. Qed.

Lemma toi_throw_io {A} what : throws_only_io (A := A) (throw (io what)).
Proof. intros w e w' [= <- _]. now exists what. Qed.

Lemma toi_bind {A B} (m : M A) (k : A -> M B) :
  throws_only_io m -> (forall a, throws_only_io (k a)) ->
  throws_only_io (bind m k).
Proof.
  intros Hm Hk w e w'. unfold bind.
  destruct (m w) as [[a|e1|] w1] eqn:Hrun.
  - apply Hk.
  - intros [= <- <-]. exact (Hm _ _ _ Hrun).
  - intros [=].
Qed.

Lemma toi_sys_open file creat ans : throws_only_io (sys_open file creat ans).
Proof. intros w e w'. unfold sys_open. now destruct (_ || _). Qed.

Lemma toi_sys_close fd : throws_only_io (sys_close fd).
Proof. intros w e w' [=]. Qed.

Lemma toi_sys_unlink file : throws_only_io (sys_unlink file).
Proof. intros w e w' [=]. Qed.

Lemma toi_sys_fstat fd : throws_only_io (sys_fstat fd).
Proof. intros w e w' [=]. Qed.

Lemma toi_sys_mmap len writable fd ans :
  throws_only_io (sys_mmap len writable fd ans).
Proof.
  intros w e w'. unfold sys_mmap.
  destruct (fds w !! fd) as [[file pos]|]; [|intros [=]].
  destruct ans; [|intros [=]]. now destruct (len =? 0).
Qed.

Lemma toi_sys_munmap addr len ok : throws_only_io (sys_munmap addr len ok).
Proof. intros w e w'. unfold sys_munmap. now destruct ok. Qed.

Lemma toi_mem_load addr n : throws_only_io (mem_load addr n).
Proof.
  intros w e w'. unfold mem_load. destruct (n <=? 0); [intros [=]|].
  destruct (find _ _); [|intros [=]]. now destruct (_ <? _).
Qed.

Create HintDb only_io.
#[local] Hint Resolve toi_ret toi_throw_io toi_sys_open toi_sys_close
  toi_sys_unlink toi_sys_fstat toi_sys_mmap toi_sys_munmap toi_mem_load
  : only_io.

Ltac only_io :=
  repeat first
    [ solve [auto with only_io]
    | apply toi_bind; [|intros ?]
    | match goal with
      | |- throws_only_io (if ?b then _ else _) => destruct b
      | |- throws_only_io (match ?x with Some _ => _ | None => _ end) =>
        destruct x
      end ].

(** Open-and-map and the release throw [io] and nothing else. *)
Lemma mmap_bytes_from_shm_only_io os file n t :
  throws_only_io (mmap_bytes_from_shm os file n t).
Proof. unfold mmap_bytes_from_shm. only_io. Qed.

Lemma munmap_bytes_from_shm_only_io os file n t addr :
  throws_only_io (munmap_bytes_from_shm os file n t addr).
Proof. unfold munmap_bytes_from_shm. only_io. Qed.

Lemma ce_jret {A} (a : A) : contains_exceptions (jret a).
Proof. intros p e p' [=]. Qed.

Lemma ce_die {A} : contains_exceptions (A := A) die.
Proof. intros p e p' [=]. Qed.

Lemma ce_jvm c : contains_exceptions (jvm c).
Proof. intros p e p' [=]. Qed.

Lemma ce_jbind {A B} (m : J A) (k : A -> J B) :
  contains_exceptions m -> (forall a, contains_exceptions (k a)) ->
  contains_exceptions (jbind m k).
Proof.
  intros Hm Hk p e p'. unfold jbind.
  destruct (m p) as [[a|e1|] p1] eqn:Hrun.
  - apply Hk.
  - now apply Hm in Hrun.
  - intros [=].
Qed.

Lemma ce_native_try {A} (m : M A) : contains_exceptions (native_try m).
Proof.
  intros p e p'. unfold native_try. now destruct (m (os_side p)) as [[a|e1|] w].
Qed.

(** A [try] block around code that throws only [io], with a [catch] clause
    for [io]. *)
Lemma ce_catch_io {A B} (m : M A) (k : A + exn -> J B) :
  throws_only_io m ->
  (forall a, contains_exceptions (k (inl a))) ->
  (forall what, contains_exceptions (k (inr (io what)))) ->
  contains_exceptions (jbind (native_try m) k).
Proof.
  intros Hm Hok Hio p e p'. unfold jbind, native_try.
  destruct (m (os_side p)) as [[a|e1|] w] eqn:Hrun.
  - apply Hok.
  - destruct (Hm _ _ _ Hrun) as [what ->]. apply Hio.
  - intros [=].
Qed.

Lemma ce_GetStringUTFChars jni s : contains_exceptions (GetStringUTFChars jni s).
Proof. destruct s; [apply ce_jret | apply ce_die]. Qed.

Lemma ce_strlen s : contains_exceptions (strlen s).
Proof. destruct s; [apply ce_jret | apply ce_die]. Qed.

Lemma ce_GetArrayLength data : contains_exceptions (GetArrayLength data).
Proof. destruct data; [apply ce_jret | apply ce_die]. Qed.

Lemma ce_throw_java_exception jni cls msg :
  contains_exceptions (throw_java_exception jni cls msg).
Proof.
  unfold throw_java_exception. destruct (negb _); [|apply ce_jvm].
  apply ce_jbind; [apply ce_jvm | intros _; apply ce_die].
Qed.

Lemma ce_pjrmi_exception_handle jni e :
  contains_exceptions (pjrmi_exception_handle jni e).
Proof. destruct e; apply ce_throw_java_exception. Qed.

Create HintDb contained.
#[local] Hint Resolve ce_jret ce_die ce_jvm ce_native_try ce_GetStringUTFChars
  ce_strlen ce_GetArrayLength ce_throw_java_exception
  ce_pjrmi_exception_handle : contained.

Ltac contained :=
  repeat first
    [ solve [auto with contained]
    | apply ce_jbind; [|intros ?]
    | match goal with
      | |- contains_exceptions (if ?b then _ else _) => destruct b
      end ].

Lemma ce_SetArrayRegionFrom t result start len buf :
  contains_exceptions (SetArrayRegionFrom t result start len buf).
Proof.
  unfold SetArrayRegionFrom. destruct result as [elems|]; [|apply ce_die].
  destruct (_ || _); [apply ce_jvm|].
  apply ce_jbind; [|intros ?; apply ce_jvm].
  intros p e p'. unfold native, mem_load.
  destruct (_ <=? 0); [intros [=]|].
  destruct (find _ _); [|intros [=]]. now destruct (_ <? _).
Qed.

Lemma ce_error_check_for_get jni filename result num_elems :
  contains_exceptions (error_check_for_get jni filename result num_elems).
Proof. unfold error_check_for_get. contained. Qed.

Lemma ce_pjrmi_array_to_shm jni os result lambda t num_elems elem_size :
  contains_exceptions
    (pjrmi_array_to_shm jni os result lambda t num_elems elem_size).
Proof.
  unfold pjrmi_array_to_shm. destruct result as [|javaClass]; contained.
  destruct a; contained.
Qed.

Lemma ce_pjrmi_array_from_shm jni os filename n t :
  contains_exceptions (pjrmi_array_from_shm jni os filename n t).
Proof.
  unfold pjrmi_array_from_shm.
  apply ce_jbind; [apply ce_GetStringUTFChars | intros file].
  destruct (bool_decide _); [contained|].
  apply ce_catch_io; [apply mmap_bytes_from_shm_only_io | |]; intros; contained.
Qed.

Lemma ce_pjrmi_array_from_shm_cleanup jni os filename n t result :
  contains_exceptions (pjrmi_array_from_shm_cleanup jni os filename n t result).
Proof.
  unfold pjrmi_array_from_shm_cleanup.
  apply ce_jbind; [apply ce_GetStringUTFChars | intros file].
  apply ce_jbind; [contained | intros _].
  apply ce_catch_io; [apply munmap_bytes_from_shm_only_io | |]; intros; contained.
Qed.

Lemma ce_nativePutArray t elem_size jni os data result :
  contains_exceptions (nativePutArray t elem_size jni os data result).
Proof.
  unfold nativePutArray. contained. apply ce_pjrmi_array_to_shm.
Qed.

Lemma ce_nativeGetArray t elem_size jni_c jni_m jni_u os_m os_u filename result
      num_elems :
  contains_exceptions
    (nativeGetArray t elem_size jni_c jni_m jni_u os_m os_u filename result
                    num_elems).
Proof.
  unfold nativeGetArray.
  apply ce_jbind; [apply ce_error_check_for_get | intros checked].
  destruct (negb checked); [apply ce_jret|].
  apply ce_jbind; [apply ce_pjrmi_array_from_shm | intros data].
  destruct (negb _); [|apply ce_jret].
  apply ce_jbind; [apply ce_SetArrayRegionFrom | intros _].
  apply ce_pjrmi_array_from_shm_cleanup.
Qed.

(** X12.  No C++ exception leaves a native method: whatever the arguments,
    the kernel and the JVM do, the seven [nativePut<Type>Array] and the
    seven [nativeGet<Type>Array] functions never end in an exception of the
    library.  The put catches every class; the get catches [io] only, and
    [io] is all that open-and-map and the release throw. *)
Theorem native_methods_contain_exceptions
        (t : ArrayType) (jni jni_c jni_m jni_u : JNI) (os os_m os_u : OS)
        (data result_array : jarray) (result : jobject) (filename : jstring)
        (num_elems : Z) (p : Process) (e : exn) :
  fst (nativePut t jni os data result p) <> Throw e
  /\ fst (nativeGet t jni_c jni_m jni_u os_m os_u filename result_array
                    num_elems p) <> Throw e.
Proof.
  split.
  - destruct (nativePut t jni os data result p) as [r p'] eqn:Hrun.
    cbn [fst]. intros ->. revert Hrun.
    destruct t; try apply ce_nativePutArray. discriminate.
  - destruct (nativeGet t jni_c jni_m jni_u os_m os_u filename result_array
                        num_elems p) as [r p'] eqn:Hrun.
    cbn [fst]. intros ->. revert Hrun.
    destruct t; try apply ce_nativeGetArray. discriminate.
Qed.

Lemma native_methods_contain_exceptions_witness :
  fst (nativeGet TYPE_SHORT jni_example jni_example jni_example os_example
                 os_example (Some frame_file) (Some five_elements) 5
                 (mkProcess frame_world []))
  <> Throw (io (type_message os_example "z" "s" frame_file)).
Proof.
  exact (proj2 (native_methods_contain_exceptions
                  TYPE_SHORT jni_example jni_example jni_example jni_example
                  os_example os_example os_example None (Some five_elements)
                  NULL (Some frame_file) 5 (mkProcess frame_world [])
                  (io (type_message os_example "z" "s" frame_file)))).
Defined.

(** ** The JNI layer: putting an array *)

Lemma nativePut_eq t :
  t <> UNKNOWN -> nativePut t = nativePutArray t (sizeof_jtype t).
Proof. now destruct t. Qed.

Lemma nativeGet_eq t :
  t <> UNKNOWN -> nativeGet t = nativeGetArray t (sizeof_jtype t).
Proof. now destruct t. Qed.

Lemma sizeof_jtype_pos t : t <> UNKNOWN -> 1 <= sizeof_jtype t <= 8.
Proof. destruct t; cbn; intros; try lia. congruence. Qed.

Lemma array_of_length t elems :
  array_of t elems ->
  Z.of_nat (length (concat elems)) = Z.of_nat (length elems) * sizeof_jtype t.
Proof.
  induction 1 as [|e elems He _ IH]; [reflexivity|].
  cbn [concat length]. rewrite length_app. lia.
Qed.

Lemma GetArrayRegion_all elems :
  GetArrayRegion (Some elems) 0 (Z.of_nat (length elems)) = concat elems.
Proof.
  unfold GetArrayRegion. cbn [from_option id Z.to_nat drop].
  now rewrite Nat2Z.id, firstn_all.
Qed.

(** The put once its arguments have passed the checks: the Java side of
    what the lambda writer did. *)
Lemma pjrmi_array_to_shm_run jni os lambda t num_elems elem_size p :
  jni_FindClass jni = true -> 0 <= num_elems -> elem_size <> 0 ->
  pjrmi_array_to_shm jni os ArrayHandle lambda t num_elems elem_size p =
  match write_bytes_to_shm_lambda os lambda (size_t (size_t num_elems * elem_size))
                                  t (os_side p) with
  | (Ok f, w1) =>
    (Ok tt, mkProcess w1 (handle_set jni f t num_elems ++ jvm_side p))
  | (Throw e, w1) =>
    (Ok tt, mkProcess w1 (ThrowNew (java_class e) (what e) :: jvm_side p))
  | (Fault, w1) => (Fault, mkProcess w1 (jvm_side p))
  end.
Proof.
  intros Hclass Hn Hsize. unfold pjrmi_array_to_shm, ArrayHandle.
  settle (num_elems <? 0).
  replace (elem_size =? 0) with false by (symmetry; now apply Z.eqb_neq).
  cbn [GetFieldID existsb String.eqb Ascii.eqb Bool.eqb andb orb negb].
  unfold jbind at 1. unfold native_try.
  destruct (write_bytes_to_shm_lambda _ _ _ _ _) as [[f|e|] w1]; [| |reflexivity].
  - reflexivity.
  - destruct e; cbn [pjrmi_exception_handle java_class what];
      unfold throw_java_exception; rewrite Hclass; reflexivity.
Qed.

(** X13.  Putting a Java array either fills in the handle or raises one
    Java exception, never both and nothing else: [nativePut<Type>Array]
    returns normally; when the lambda writer returns a name, the three
    fields of the handle are set (file name, type character, element count)
    and the file holds the frame of the array's bytes followed by the
    stretch byte; when the writer throws, no field is set and exactly one
    exception is raised, of the Java class that matches the library's, with
    the library's message; that class is IllegalArgumentException exactly
    when the clock failed. *)
Theorem nativePut_outcome
        (t : ArrayType) (jni : JNI) (os : OS) (elems : list (list byte))
        (p : Process) :
  t <> UNKNOWN -> array_of t elems ->
  Z.of_nat (length elems) * sizeof_jtype t + 9 < 2 ^ 64 ->
  jni_FindClass jni = true ->
  let n := Z.of_nat (length elems) in
  exists r w1 effects,
    write_bytes_to_shm_lambda os (fun _ => concat elems) (n * sizeof_jtype t) t
                              (os_side p) = (r, w1)
    /\ nativePut t jni os (Some elems) ArrayHandle p
       = (Ok tt, mkProcess w1 (effects ++ jvm_side p))
    /\ match r with
       | Ok f =>
         effects = handle_set jni f t n
         /\ files w1 !! f = Some (frame t (concat elems) ++ [x00])
       | Throw e =>
         effects = [ThrowNew (java_class e) (what e)]
         /\ (java_class e = "java/lang/IllegalArgumentException"%string
             <-> os_gettimeofday os = None)
       | Fault => False
       end.
Proof.
  intros Ht Helems Hmax Hclass n.
  assert (Hsz := sizeof_jtype_pos t Ht).
  assert (Hlen := array_of_length t elems Helems). fold n in Hlen, Hmax.
  assert (Hn : 0 <= n) by apply Nat2Z.is_nonneg.
  assert (Hbytes : size_t (size_t n * sizeof_jtype t) = n * sizeof_jtype t).
  { rewrite (size_t_small n) by nia. apply size_t_small. nia. }
  rewrite (nativePut_eq t Ht). unfold nativePutArray, GetArrayLength.
  unfold jbind at 1. unfold jret at 1. fold n.
  rewrite pjrmi_array_to_shm_run by (assumption || lia).
  rewrite Hbytes. unfold n at 1 2. rewrite GetArrayRegion_all. fold n.
  destruct (write_bytes_to_shm_lambda_cases
              os (fun _ => concat elems) (n * sizeof_jtype t) t (os_side p)
              ltac:(nia) Hmax (fun _ => Hlen))
    as (r & w1 & Hrun & Hcases).
  rewrite Hrun. destruct r as [f|e|].
  - exists (Ok f), w1, (handle_set jni f t n).
    split; [reflexivity|]. split; [reflexivity|]. split; [reflexivity|].
    destruct (write_bytes_to_shm_lambda_ok
                os (fun _ => concat elems) (n * sizeof_jtype t) t (os_side p)
                f w1 ltac:(nia) Hmax (fun _ => Hlen) Hrun)
      as (_ & a & _ & -> & _).
    apply lookup_insert_eq.
  - exists (Throw e), w1, [ThrowNew (java_class e) (what e)].
    split; [reflexivity|]. split; [reflexivity|]. split; [reflexivity|].
    destruct (create_filename os) as [f|e'|] eqn:Hcf.
    + assert (Hclock : os_gettimeofday os <> None).
      { intros Hnone. unfold create_filename in Hcf. now rewrite Hnone in Hcf. }
      assert (Hio : java_class e <> "java/lang/IllegalArgumentException"%string).
      { destruct (os_open os <? 0).
        { destruct Hcases as ([= ->] & _). discriminate. }
        destruct (os_fstatvfs os) as [[f_bsize f_bavail]|].
        2:{ destruct Hcases as ([= ->] & _). discriminate. }
        destruct (_ <? _).
        { destruct Hcases as ([= ->] & _). discriminate. }
        destruct Hcases as [(a & _ & _ & [=] & _)|(msg & [= ->] & _)].
        discriminate. }
      split; intros; contradiction.
    + destruct Hcases as ([= ->] & _ & Hclock).
      destruct (create_filename_throws os e' Hcf) as [_ ->].
      split; [easy | reflexivity].
    + contradiction.
  - exfalso.
    destruct (create_filename os) as [f|e'|]; [|now destruct Hcases|easy].
    destruct (os_open os <? 0); [now destruct Hcases|].
    destruct (os_fstatvfs os) as [[f_bsize f_bavail]|]; [|now destruct Hcases].
    destruct (_ <? _); [now destruct Hcases|].
    now destruct Hcases as [(a & _ & _ & [=] & _)|(msg & [=] & _)].
Qed.

Lemma nativePut_outcome_witness :
  exists f w1,
    nativePut TYPE_BOOLEAN jni_example os_example (Some five_elements)
              ArrayHandle (mkProcess empty_world [])
    = (Ok tt, mkProcess w1 (handle_set jni_example f TYPE_BOOLEAN 5))
    /\ files w1 !! f = Some (frame TYPE_BOOLEAN five_booleans ++ [x00]).
Proof.
  destruct (nativePut_outcome TYPE_BOOLEAN jni_example os_example five_elements
                              (mkProcess empty_world []))
    as (r & w1 & effects & Hrun & Hput & Hout).
  - discriminate.
  - repeat constructor.
  - vm_compute. reflexivity.
  - reflexivity.
  - vm_compute in Hrun. injection Hrun as <- <-.
    destruct Hout as [-> Hfile].
    eexists _, _. split; [exact Hput | vm_compute; reflexivity].
Defined.

(** ** The JNI layer: getting an array back *)

Lemma error_check_for_get_passes jni f result num_elems p :
  jni_GetStringUTFChars jni = true -> f <> ""%string -> 0 <= num_elems ->
  error_check_for_get jni (Some f) (Some result) num_elems p = (Ok true, p).
Proof.
  intros Hchars Hne Hn. unfold error_check_for_get.
  rewrite (bool_decide_eq_false_2 (Some f = None)) by discriminate.
  unfold jbind at 1. unfold GetStringUTFChars. rewrite Hchars. unfold jret at 1.
  unfold jbind at 1. unfold strlen, jret at 1.
  replace (Z.of_nat (String.length f) =? 0) with false.
  2:{ symmetry. apply Z.eqb_neq. destruct f; [congruence | cbn; lia]. }
  rewrite (bool_decide_eq_false_2 (Some result = None)) by discriminate.
  now settle (num_elems <? 0).
Qed.

(** A handle that a put has filled in names the file the writer made. *)
Lemma nativePut_filled t jni os elems p p1 f :
  t <> UNKNOWN -> array_of t elems ->
  Z.of_nat (length elems) * sizeof_jtype t + 9 < 2 ^ 64 ->
  jni_FindClass jni = true -> jni_NewStringUTF jni = true ->
  nativePut t jni os (Some elems) ArrayHandle p = (Ok tt, p1) ->
  jvm_side p1 = handle_set jni f t (Z.of_nat (length elems)) ++ jvm_side p ->
  write_bytes_to_shm_lambda os (fun _ => concat elems)
                            (Z.of_nat (length elems) * sizeof_jtype t) t
                            (os_side p) = (Ok f, os_side p1).
Proof.
  intros Ht Helems Hmax Hclass Hnew Hput Hset.
  assert (Hsz := sizeof_jtype_pos t Ht).
  set (n := Z.of_nat (length elems)) in *.
  assert (Hn : 0 <= n) by apply Nat2Z.is_nonneg.
  assert (Hbytes : size_t (size_t n * sizeof_jtype t) = n * sizeof_jtype t).
  { rewrite (size_t_small n) by nia. apply size_t_small. nia. }
  rewrite (nativePut_eq t Ht) in Hput. unfold nativePutArray, GetArrayLength in Hput.
  unfold jbind at 1 in Hput. unfold jret at 1 in Hput. fold n in Hput.
  rewrite pjrmi_array_to_shm_run in Hput by (assumption || lia).
  rewrite Hbytes in Hput. unfold n at 1 in Hput.
  rewrite GetArrayRegion_all in Hput.
  destruct (write_bytes_to_shm_lambda _ _ _ _ _) as [[f'|e|] w1];
    [| |discriminate]; injection Hput as <-; cbn [jvm_side os_side] in *.
  - unfold handle_set in Hset. cbn [app] in Hset. rewrite Hnew in Hset.
    now injection Hset as ->.
  - unfold handle_set in Hset. cbn [app] in Hset. discriminate.
Qed.

(** X14.  A Java array put into shared memory comes back unchanged: when
    [nativePut<Type>Array] has filled in the handle, [nativeGet<Type>Array]
    of the same element type, on the handle's file name and element count,
    hands the JVM exactly the bytes of the elements that were put, raises
    nothing, and removes the file.  The element widths the put and the get
    use agree with each other and with the JVM's for all seven types. *)
Theorem nativePut_nativeGet_roundtrip
        (t : ArrayType) (jni jni_c jni_m jni_u : JNI) (os os_m os_u : OS)
        (elems result : list (list byte)) (p p1 : Process) (f : string)
        (a : Z) :
  t <> UNKNOWN -> array_of t elems ->
  Z.of_nat (length elems) * sizeof_jtype t + 10 < 2 ^ 64 ->
  jni_FindClass jni = true -> jni_NewStringUTF jni = true ->
  nativePut t jni os (Some elems) ArrayHandle p = (Ok tt, p1) ->
  jvm_side p1 = handle_set jni f t (Z.of_nat (length elems)) ++ jvm_side p ->
  jni_GetStringUTFChars jni_c = true -> jni_GetStringUTFChars jni_m = true ->
  jni_GetStringUTFChars jni_u = true ->
  (length elems <= length result)%nat ->
  0 <= os_open os_m -> os_mmap os_m = Some a -> a + 9 <> 0 ->
  os_munmap os_u = true ->
  exists w2,
    nativeGet t jni_c jni_m jni_u os_m os_u (Some f) (Some result)
              (Z.of_nat (length elems)) p1
    = (Ok tt,
       mkProcess w2 (SetArrayRegion 0 (Z.of_nat (length elems))
                                    (Some (concat elems)) :: jvm_side p1))
    /\ files w2 !! f = None.
Proof.
  intros Ht Helems Hmax Hclass Hnew Hput Hset Hc Hm Hu Hfit Hfd Hmap Hnull
         Hunmap.
  assert (Hw := nativePut_filled t jni os elems p p1 f Ht Helems ltac:(lia)
                                 Hclass Hnew Hput Hset).
  assert (Hsz := sizeof_jtype_pos t Ht).
  assert (Hlen := array_of_length t elems Helems).
  set (n := Z.of_nat (length elems)) in *.
  assert (Hn : 0 <= n) by apply Nat2Z.is_nonneg.
  assert (Hbytes : size_t (size_t n * sizeof_jtype t) = n * sizeof_jtype t).
  { rewrite (size_t_small n) by nia. apply size_t_small. nia. }
  destruct (write_bytes_to_shm_lambda_ok
              os (fun _ => concat elems) (n * sizeof_jtype t) t (os_side p)
              f (os_side p1) ltac:(nia) ltac:(lia) (fun _ => Hlen) Hw)
    as (Hcf & a1 & _ & Hfiles & _).
  assert (Hne := create_filename_nonempty os f Hcf).
  assert (Hf : files (os_side p1) !! f = Some (frame t (concat elems) ++ [x00]))
    by (rewrite Hfiles; apply lookup_insert_eq).
  rewrite (nativeGet_eq t Ht). unfold nativeGetArray.
  unfold jbind at 1. rewrite error_check_for_get_passes by assumption.
  cbn [negb]. rewrite Hbytes.
  unfold jbind at 1. unfold pjrmi_array_from_shm.
  unfold jbind at 1. unfold GetStringUTFChars. rewrite Hm. unfold jret at 1.
  rewrite (bool_decide_eq_false_2 (Some f = None)) by discriminate.
  unfold jbind at 1. unfold native_try.
  rewrite (mmap_bytes_from_shm_frame os_m f (n * sizeof_jtype t) t (os_side p1)
             (concat elems) [x00] Hne Hf ltac:(nia) ltac:(lia)
             ltac:(rewrite length_app, Nat2Z.inj_add, frame_length, Hlen;
                   cbn [length]; lia)
             Hfd a Hmap).
  unfold jret at 1.
  replace (a + 9 =? 0) with false by (symmetry; now apply Z.eqb_neq).
  cbn [negb].
  unfold jbind at 1. unfold SetArrayRegionFrom.
  settle (0 <? 0). settle (n <? 0).
  replace (Z.of_nat (length result) <? 0 + n) with false
    by (symmetry; apply Z.ltb_ge; unfold n; lia).
  cbn [orb]. unfold jbind at 1. unfold native. cbn [os_side jvm_side].
  unfold accepted_world.
  rewrite (mem_load_payload a (n * sizeof_jtype t) f t (concat elems) [x00]
             _ _ _ _ (eq_sym Hlen) Hf).
  unfold jvm at 1. cbn [os_side jvm_side].
  unfold pjrmi_array_from_shm_cleanup.
  unfold jbind at 1. unfold GetStringUTFChars. rewrite Hu. unfold jret at 1.
  rewrite (bool_decide_eq_false_2 (Some f = None)) by discriminate.
  unfold jbind at 1. unfold jret at 1.
  unfold jbind at 1. unfold native_try. cbn [os_side jvm_side].
  rewrite munmap_bytes_from_shm_eq by nia. rewrite Hunmap.
  unfold jret. eexists. split; [reflexivity|].
  cbn [files]. apply lookup_delete_eq.
Qed.

Lemma nativePut_nativeGet_roundtrip_witness :
  exists w2,
    nativeGet TYPE_BOOLEAN jni_example jni_example jni_example os_example
              os_example (Some frame_file) (Some five_elements) 5
              (snd (nativePut TYPE_BOOLEAN jni_example os_example
                              (Some five_elements) ArrayHandle
                              (mkProcess empty_world [])))
    = (Ok tt,
       mkProcess w2 (SetArrayRegion 0 5 (Some five_booleans)
                       :: handle_set jni_example frame_file TYPE_BOOLEAN 5))
    /\ files w2 !! frame_file = None.
Proof.
  apply (nativePut_nativeGet_roundtrip
           TYPE_BOOLEAN jni_example jni_example jni_example jni_example
           os_example os_example os_example five_elements five_elements
           (mkProcess empty_world [])
           (snd (nativePut TYPE_BOOLEAN jni_example os_example
                           (Some five_elements) ArrayHandle
                           (mkProcess empty_world [])))
           frame_file 65536).
  - discriminate.
  - repeat constructor.
  - vm_compute. reflexivity.
  - reflexivity.
  - reflexivity.
  - vm_compute. reflexivity.
  - vm_compute. reflexivity.
  - reflexivity.
  - reflexivity.
  - reflexivity.
  - cbn. lia.
  - vm_compute. discriminate.
  - vm_compute. reflexivity.
  - lia.
  - reflexivity.
Defined.

(** ** The JNI layer: arguments are checked before anything is done *)

Lemma throw_java_exception_run jni cls msg p :
  jni_FindClass jni = true ->
  throw_java_exception jni cls msg p
  = (Ok tt, mkProcess (os_side p) (ThrowNew cls msg :: jvm_side p)).
Proof. intros Hclass. unfold throw_java_exception. now rewrite Hclass. Qed.

(** X15.  Bad arguments are reported before any system call.  A get with a
    NULL or empty file name, a NULL array or a negative element count, and
    a put into a NULL handle or into an object whose class lacks one of the
    fields [filename], [type], [numElems], raise
    IllegalArgumentException and leave files, descriptors, mappings and the
    log of system calls as they were; in particular the put creates no
    file. *)
Theorem bad_arguments_touch_nothing
        (t : ArrayType) (jni jni_m jni_u : JNI) (os os_m os_u : OS)
        (filename : jstring) (result_array : jarray) (num_elems : Z)
        (elems : list (list byte)) (result : jobject) (p : Process) :
  t <> UNKNOWN ->
  jni_FindClass jni = true -> jni_GetStringUTFChars jni = true ->
  (filename = None \/ filename = Some ""%string \/ result_array = None
   \/ num_elems < 0 ->
   exists msg,
     nativeGet t jni jni_m jni_u os_m os_u filename result_array num_elems p
     = (Ok tt,
        mkProcess (os_side p)
                  (ThrowNew "java/lang/IllegalArgumentException" msg
                     :: jvm_side p)))
  /\ (result = NULL
      \/ (exists fields name,
             result = Object fields
             /\ In name ["filename"; "type"; "numElems"]%string
             /\ ~ In name fields) ->
      exists msg,
        nativePut t jni os (Some elems) result p
        = (Ok tt,
           mkProcess (os_side p)
                     (ThrowNew "java/lang/IllegalArgumentException" msg
                        :: jvm_side p))).
Proof.
  intros Ht Hclass Hchars. split.
  - intros Hbad. rewrite (nativeGet_eq t Ht).
    unfold nativeGetArray, error_check_for_get.
    destruct filename as [f|].
    2:{ rewrite bool_decide_eq_true_2 by reflexivity.
        unfold jbind at 1. unfold jbind at 1.
        rewrite throw_java_exception_run by assumption.
        eexists. reflexivity. }
    rewrite (bool_decide_eq_false_2 (Some f = None)) by discriminate.
    unfold jbind at 1. unfold jbind at 1.
    unfold GetStringUTFChars. rewrite Hchars. unfold jret at 1.
    unfold jbind at 1. unfold strlen, jret at 1.
    destruct (Z.of_nat (String.length f) =? 0) eqn:Hlen.
    { unfold jbind at 1. rewrite throw_java_exception_run by assumption.
      eexists. reflexivity. }
    destruct result_array as [old|].
    2:{ rewrite bool_decide_eq_true_2 by reflexivity.
        unfold jbind at 1. rewrite throw_java_exception_run by assumption.
        eexists. reflexivity. }
    rewrite (bool_decide_eq_false_2 (Some old = None)) by discriminate.
    destruct (num_elems <? 0) eqn:Hneg.
    { unfold jbind at 1. rewrite throw_java_exception_run by assumption.
      eexists. reflexivity. }
    exfalso. apply Z.ltb_ge in Hneg. apply Z.eqb_neq in Hlen.
    destruct Hbad as [[=]|[[= ->]|[[=]|Hbad]]]; [now apply Hlen | lia].
  - intros Hbad. rewrite (nativePut_eq t Ht).
    assert (Hsz := sizeof_jtype_pos t Ht).
    unfold nativePutArray, GetArrayLength.
    unfold jbind at 1. unfold jret at 1. unfold pjrmi_array_to_shm.
    destruct Hbad as [->|(fields & name & -> & Hname & Hmissing)].
    { rewrite throw_java_exception_run by assumption. eexists. reflexivity. }
    replace (Z.of_nat (length elems) <? 0) with false
      by (symmetry; apply Z.ltb_ge; lia).
    replace (sizeof_jtype t =? 0) with false
      by (symmetry; apply Z.eqb_neq; lia).
    assert (Hnone : GetFieldID fields name = false).
    { unfold GetFieldID. apply not_true_is_false. intros Hex.
      apply existsb_exists in Hex as (x & Hin & Heq).
      apply String.eqb_eq in Heq. now subst x. }
    destruct (GetFieldID fields "filename") eqn:H1; cbn [negb].
    2:{ rewrite throw_java_exception_run by assumption. eexists. reflexivity. }
    destruct (GetFieldID fields "type") eqn:H2; cbn [negb].
    2:{ rewrite throw_java_exception_run by assumption. eexists. reflexivity. }
    destruct (GetFieldID fields "numElems") eqn:H3; cbn [negb].
    2:{ rewrite throw_java_exception_run by assumption. eexists. reflexivity. }
    exfalso. cbn [In] in Hname.
    destruct Hname as [<-|[<-|[<-|[]]]]; congruence.
Qed.

Lemma bad_arguments_touch_nothing_witness :
  (exists msg,
      nativeGet TYPE_INTEGER jni_example jni_example jni_example os_example
                os_example (Some frame_file) (Some five_elements) (-1)
                (mkProcess frame_world [])
      = (Ok tt,
         mkProcess frame_world
                   [ThrowNew "java/lang/IllegalArgumentException" msg]))
  /\ (exists msg,
         nativePut TYPE_INTEGER jni_example os_example (Some []) NULL
                   (mkProcess frame_world [])
         = (Ok tt,
            mkProcess frame_world
                      [ThrowNew "java/lang/IllegalArgumentException" msg])).
Proof.
  destruct (bad_arguments_touch_nothing
              TYPE_INTEGER jni_example jni_example jni_example os_example
              os_example os_example (Some frame_file) (Some five_elements) (-1)
              [] NULL (mkProcess frame_world []))
    as [Hget Hput]; [discriminate | reflexivity | reflexivity |].
  split.
  - apply Hget. right. right. right. lia.
  - apply Hput. left. reflexivity.
Defined.

(** ** The JNI layer: cleanup without a file name *)

(** X16.  [pjrmi_array_from_shm_cleanup] does not stop after reporting
    that the JVM gave it no characters for the file name: it raises
    IOException and goes on to release with a NULL name.  The mapping is
    released as usual, but no file is deleted, so the frame stays behind;
    and when munmap fails as well, a second IOException is raised on top of
    the first. *)
Theorem cleanup_without_file_name
        (jni : JNI) (os : OS) (f : string) (n : Z) (t : ArrayType) (addr : Z)
        (p : Process) :
  jni_GetStringUTFChars jni = false -> jni_FindClass jni = true ->
  0 <= n -> n + 9 < 2 ^ 64 ->
  exists p',
    pjrmi_array_from_shm_cleanup jni os (Some f) n t addr p = (Ok tt, p')
    /\ files (os_side p') = files (os_side p)
    /\ maps (os_side p')
       = (if os_munmap os
          then filter (fun m => same_region (addr - 9) (n + 9) m = false)
                      (maps (os_side p))
          else maps (os_side p))
    /\ jvm_side p'
       = (if os_munmap os then []
          else [ThrowNew "java/io/IOException"
                         "munmap_bytes_from_shm(): Error in munmaping the file"])
         ++ ThrowNew "java/io/IOException" "Given filename is null"
         :: jvm_side p.
Proof.
  intros Hchars Hclass H0 Hmax. unfold pjrmi_array_from_shm_cleanup.
  unfold jbind at 1. unfold GetStringUTFChars. rewrite Hchars. unfold jret at 1.
  rewrite bool_decide_eq_true_2 by reflexivity.
  unfold jbind at 1. rewrite throw_java_exception_run by assumption.
  unfold jbind at 1. unfold native_try. cbn [os_side jvm_side].
  rewrite munmap_bytes_from_shm_eq by assumption.
  destruct (os_munmap os).
  - eexists. split; [reflexivity|]. cbn [os_side jvm_side files maps app].
    auto.
  - cbn [pjrmi_exception_handle].
    rewrite throw_java_exception_run by assumption.
    eexists. split; [reflexivity|]. cbn [os_side jvm_side files maps app].
    auto.
Qed.

Lemma cleanup_without_file_name_witness :
  exists p',
    pjrmi_array_from_shm_cleanup (mkJNI true true false) os_example
                                 (Some frame_file) 5 TYPE_BOOLEAN 65545
                                 (mkProcess mapped_world [])
    = (Ok tt, p')
    /\ files (os_side p') = files mapped_world
    /\ maps (os_side p') = []
    /\ jvm_side p' = [ThrowNew "java/io/IOException" "Given filename is null"].
Proof.
  exact (cleanup_without_file_name
           (mkJNI true true false) os_example frame_file 5 TYPE_BOOLEAN 65545
           (mkProcess mapped_world []) eq_refl eq_refl
           ltac:(lia) ltac:(lia)).
Defined.

(** ** The Python extension *)

Lemma toi_sys_malloc n ok : throws_only_io (sys_malloc n ok).
Proof. intros w e w' [=]. Qed.

Lemma read_bytes_from_shm_only_io os file n t :
  throws_only_io (read_bytes_from_shm os file n t).
Proof.
  unfold read_bytes_from_shm.
  apply toi_bind; [apply mmap_bytes_from_shm_only_io | intros addr].
  apply toi_bind; [apply toi_sys_malloc | intros data].
  destruct (negb data); [only_io|].
  apply toi_bind; [apply toi_mem_load | intros copied].
  apply toi_bind; [apply munmap_bytes_from_shm_only_io | intros _].
  apply toi_ret.
Qed.

Lemma int_small z : 0 <= z < 2 ^ 31 -> int z = z.
Proof. intros Hz. unfold int. rewrite Z.mod_small; lia. Qed.

(** X17.  A numpy array written by the extension is read back as it was:
    for a one-dimensional contiguous array of one of the seven handled
    types, when [_write_array] returns its tuple (file name, element count,
    type character), [_read_array] on that tuple returns an array of the
    same type number, length and bytes, sets no error and removes the file.
    The two type switches and the element sizes of the reader agree with
    numpy's item sizes. *)
Theorem write_array_read_array_roundtrip
        (os1 os2 : OS) (array : PyArrayObject) (w w1 : World)
        (f : string) (l : Z) (c : byte) :
  contiguous array -> reader_friendly os2 ->
  _write_array os1 (Some array) w = (Ok (Py_slc f l c, None), w1) ->
  exists w2,
    _read_array os2 (Some (f, l, c)) w1 = (Ok (Py_ndarray array, None), w2)
    /\ files w2 !! f = None.
Proof.
  intros (Htype & Hdim & Hstride & Hdata) Hread Hw.
  destruct array as [type n stride data]. cbn [PyArray_TYPE PyArray_DIM
    PyArray_STRIDE PyArray_DATA] in *.
  assert (Hitem : 1 <= stride <= 8).
  { subst stride. destruct type; cbn; try lia. now destruct (Htype num). }
  unfold _write_array in Hw.
  cbn [PyArray_TYPE PyArray_DIM PyArray_STRIDE PyArray_DATA] in Hw.
  rewrite !int_small in Hw by lia.
  replace (n <? 0) with false in Hw by (symmetry; apply Z.ltb_ge; lia).
  replace (stride <? 0) with false in Hw by (symmetry; apply Z.ltb_ge; lia).
  assert (Hbytes : size_t (size_t n * size_t stride) = n * stride).
  { rewrite (size_t_small n), (size_t_small stride) by lia.
    apply size_t_small. nia. }
  rewrite Hbytes in Hw.
  assert (Hwrote : exists t,
             write_bytes_to_shm os1 data (n * stride) t w = (Ok f, w1)
             /\ l = n /\ c = char_of_ArrayType t
             /\ t <> UNKNOWN
             /\ _read_array os2 (Some (f, n, char_of_ArrayType t)) w1
                = match (do data <- read_bytes_from_shm os2 (Some f)
                                       (n * stride) t;
                         do result <- PyArray_SimpleNewFromData n type data;
                         ret (result, None)) w1 with
                  | (Throw (io _), w') =>
                    (Ok (Py_NULL,
                         Some (PyErr_SetString
                                 "IOError"
                                 ("Read of " ++ to_string n ++ " of type "
                                    ++ String (ascii_of_byte (char_of_ArrayType t))
                                              EmptyString
                                    ++ " from " ++ f ++ " failed."))),
                     w')
                  | r => r
                  end).
  { assert (Hsame : forall x, size_t (long (size_t (size_t n * x))) = n * x
                              \/ ~ 1 <= x <= 8).
    { intros x. destruct (Z_le_dec 1 x); [|right; lia].
      destruct (Z_le_dec x 8); [|right; lia]. left.
      rewrite (size_t_small n) by lia.
      rewrite (size_t_small (n * x)) by nia.
      rewrite long_small by nia. apply size_t_small. nia. }
    destruct type; try (now destruct (Htype num));
      unfold try_catch, bind in Hw;
      match type of Hw with
      | context [write_bytes_to_shm os1 data (n * stride) ?t w] =>
        exists t;
          destruct (write_bytes_to_shm os1 data (n * stride) t w)
          as [[f'|e|] w1'] eqn:Hrun; try discriminate;
            unfold ret in Hw; injection Hw as <- <- <- <-
      end;
      (split; [reflexivity|]); (split; [reflexivity|]);
        (split; [reflexivity|]); (split; [discriminate|]);
          subst stride; cbn [npy_itemsize] in *;
            unfold _read_array; cbn [char_to_array_type char_of_ArrayType];
              match goal with
              | |- context [size_t (long (size_t (size_t n * ?x)))] =>
                destruct (Hsame x) as [-> | Hno]; [reflexivity | lia]
              end. }
  destruct Hwrote as (t & Hrun & -> & -> & Ht & ->).
  destruct (write_bytes_to_shm_ok os1 data (n * stride) t w f w1
              (eq_sym Hdata) ltac:(nia) Hrun) as (Hcf & Hfiles & _).
  assert (Hne := create_filename_nonempty os1 f Hcf).
  destruct (read_bytes_from_shm_frame os2 f (n * stride) t w1 data [] Hne)
    as (w2 & Hr & Hfiles2 & _).
  - rewrite Hfiles, app_nil_r. apply lookup_insert_eq.
  - now symmetry.
  - nia.
  - rewrite app_nil_r, frame_length. nia.
  - assumption.
  - exists w2. unfold bind at 1. rewrite Hr.
    unfold bind at 1. unfold PyArray_SimpleNewFromData.
    replace (n <? 0) with false by (symmetry; apply Z.ltb_ge; lia).
    unfold ret. subst stride. split; [reflexivity|].
    rewrite Hfiles2. apply lookup_delete_eq.
Qed.

Lemma write_array_read_array_roundtrip_witness :
  exists w2,
    _read_array os_example (Some (frame_file, 5, "z"%byte))
                (snd (_write_array os_example (Some five_bools) empty_world))
    = (Ok (Py_ndarray five_bools, None), w2)
    /\ files w2 !! frame_file = None.
Proof.
  apply (write_array_read_array_roundtrip
           os_example os_example five_bools empty_world
           (snd (_write_array os_example (Some five_bools) empty_world))
           frame_file 5 "z"%byte).
  - split; [discriminate|]. split; [cbn; lia|]. split; reflexivity.
  - split; [simpl; lia|]. split; [discriminate|]. split; reflexivity.
  - vm_compute. reflexivity.
Defined.

(** X18.  No C++ exception leaves the extension: whatever the arguments and
    the kernel do, [_write_array] and [_read_array] never end in an
    exception of the library.  The writer catches every class; the reader
    catches [io] only, and [io] is all the copy-out read throws. *)
Theorem extension_contains_exceptions
        (os : OS) (array : option PyArrayObject)
        (args : option (string * Z * byte)) (w : World) (e : exn) :
  fst (_write_array os array w) <> Throw e
  /\ fst (_read_array os args w) <> Throw e.
Proof.
  split.
  - unfold _write_array. destruct array as [array|]; [|discriminate].
    destruct (int (PyArray_DIM array) <? 0); [discriminate|].
    destruct (int (PyArray_STRIDE array) <? 0); [discriminate|].
    destruct (PyArray_TYPE array); try discriminate;
      unfold try_catch, bind;
      match goal with
      | |- context [write_bytes_to_shm ?o ?b ?n ?t w] =>
        destruct (write_bytes_to_shm o b n t w) as [[f|e'|] w1]; discriminate
      end.
  - unfold _read_array. destruct args as [[[filename num_elems] type]|];
      [|discriminate].
    destruct (char_to_array_type type); try discriminate; cbn match;
      match goal with
      | |- context [read_bytes_from_shm os ?f ?n ?t] =>
        unfold bind at 1;
          destruct (read_bytes_from_shm os f n t w) as [[data|e'|] w1] eqn:Hrun;
          [ unfold bind, PyArray_SimpleNewFromData;
            destruct (num_elems <? 0); discriminate
          | destruct (read_bytes_from_shm_only_io os f n t w e' w1 Hrun)
              as [msg ->]; discriminate
          | discriminate ]
      end.
Qed.

Lemma extension_contains_exceptions_witness :
  fst (_read_array os_example (Some (frame_file, 5, "s"%byte)) frame_world)
  <> Throw (io (type_message os_example "z" "s" frame_file)).
Proof.
  exact (proj2 (extension_contains_exceptions
                  os_example None (Some (frame_file, 5, "s"%byte)) frame_world
                  (io (type_message os_example "z" "s" frame_file)))).
Defined.

(** X19.  Element types the extension does not handle are refused before
    anything is done: [_write_array] on an array of another numpy type sets
    RuntimeError, and [_read_array] on a type character the library decodes
    to UNKNOWN sets IOError; both return None and leave files, descriptors
    and mappings as they were, so the reader does not consume the file it
    was pointed at. *)
Theorem unhandled_types_touch_nothing
        (os : OS) (array : PyArrayObject) (num : Z)
        (filename : string) (num_elems : Z) (type : byte) (w : World) :
  (PyArray_TYPE array = NPY_other num ->
   0 <= int (PyArray_DIM array) -> 0 <= int (PyArray_STRIDE array) ->
   _write_array os (Some array) w
   = (Ok (Py_None,
          Some (PyErr_SetString
                  "RuntimeError"
                  ("Write Array failed: Unhandled element type "
                     ++ to_string num))),
      w))
  /\ (char_to_array_type type = UNKNOWN ->
      _read_array os (Some (filename, num_elems, type)) w
      = (Ok (Py_None,
             Some (PyErr_SetString
                     "IOError"
                     ("Read Array failed: Unknown input type "
                        ++ String (ascii_of_byte type) EmptyString))),
         w)).
Proof.
  split.
  - intros Htype Hdim Hstride. unfold _write_array. rewrite Htype.
    replace (int (PyArray_DIM array) <? 0) with false
      by (symmetry; apply Z.ltb_ge; lia).
    replace (int (PyArray_STRIDE array) <? 0) with false
      by (symmetry; apply Z.ltb_ge; lia).
    reflexivity.
  - intros Htype. unfold _read_array. now rewrite Htype.
Qed.

Lemma unhandled_types_touch_nothing_witness :
  _write_array os_example (Some (mkArray (NPY_other 14) 5 16 [])) frame_world
  = (Ok (Py_None,
         Some (PyErr_SetString
                 "RuntimeError" "Write Array failed: Unhandled element type 14")),
     frame_world)
  /\ _read_array os_example (Some (frame_file, 5, "c"%byte)) frame_world
     = (Ok (Py_None,
            Some (PyErr_SetString
                    "IOError" "Read Array failed: Unknown input type c")),
        frame_world).
Proof.
  destruct (unhandled_types_touch_nothing
              os_example (mkArray (NPY_other 14) 5 16 []) 14 frame_file 5
              "c"%byte frame_world) as [Hwrite Hread].
  split.
  - apply Hwrite; [reflexivity | vm_compute; discriminate
                   | vm_compute; discriminate].
  - apply Hread. reflexivity.
Defined.
